(** * UV-Safe AU: forecast normalisation, series building and segmentation

    A shallow embedding of the dashboard's forecast core, as written in the
    first document of src/unnamed/part_000 ([normalizePoint], the response
    handler [fetchUVData], [getForecast24h], [chartData], [getCategory] and
    [splitIntoSegments]), together with the part of the JavaScript runtime
    these functions call: property reads on parsed JSON, [typeof],
    truthiness, [??], [Number], [new Date], [Date.prototype.toISOString]
    and [Array.prototype.sort].  The older revisions of [normalizePoint]
    and [getForecast24h] kept in the repository are embedded beside it,
    and so is what the page and its components compute from the state
    next to the forecast: the stroke colours and the lines drawn, the time
    to burn, the safe exposure time, the protection advice, the gauge,
    the countdown and the search for the nearest city.

    Numbers are modelled as exact rationals extended with NaN and the two
    infinities (binary64 rounding and the sign of zero are not modelled);
    time values are integers, in milliseconds since the Unix epoch.
    Exceptions are explicit: a function that can throw returns a [result]. *)

From Stdlib Require Import ZArith QArith Qabs Lia List String Ascii Bool.
From Stdlib Require Import Sorted Permutation.
From Stdlib Require Import Qround DecimalString DecimalZ Lqa.
Import ListNotations.
Local Open Scope string_scope.
Local Open Scope list_scope.
Local Open Scope Z_scope.

(* ================================================================= *)
(** ** JavaScript numbers *)

Inductive number : Type :=
| NaN
| PosInfinity
| NegInfinity
| Finite (q : Q).

Definition num (z : Z) : number := Finite (inject_Z z).

(** [a < b] on numbers: any comparison with NaN is false. *)
Definition num_ltb (a b : number) : bool :=
  match a, b with
  | NaN, _ | _, NaN => false
  | PosInfinity, _ => false
  | _, NegInfinity => false
  | NegInfinity, _ => true
  | Finite _, PosInfinity => true
  | Finite x, Finite y => negb (Qle_bool y x)
  end.

(** [a > b]. *)
Definition num_gtb (a b : number) : bool := num_ltb b a.

Definition isNaN (n : number) : bool :=
  match n with NaN => true | _ => false end.

Definition num_is_zero (n : number) : bool :=
  match n with Finite q => Qnum q =? 0 | _ => false end.

Definition num_neg_sign (n : number) : bool :=
  match n with
  | NegInfinity => true
  | Finite q => Qnum q <? 0
  | _ => false
  end.

(** [a * b]: NaN is absorbing, infinity times zero is NaN. *)
Definition num_mul (a b : number) : number :=
  match a, b with
  | NaN, _ | _, NaN => NaN
  | Finite x, Finite y => Finite (x * y)
  | _, _ =>
      if num_is_zero a || num_is_zero b then NaN
      else if xorb (num_neg_sign a) (num_neg_sign b) then NegInfinity
      else PosInfinity
  end.

(** Truncation toward zero (ToIntegerOrInfinity on a finite number). *)
Definition trunc (q : Q) : Z := Z.quot (Qnum q) (Z.pos (Qden q)).

(* ================================================================= *)
(** ** Values obtained from [response.json()] *)

#[warnings="-register-all"] Inductive value : Type :=
| VUndefined
| VNull
| VBool (b : bool)
| VNum (n : number)
| VStr (s : string)
| VObj (fields : list (string * value))
| VArr (items : list value).

(** [typeof v]. *)
Definition typeof (v : value) : string :=
  match v with
  | VUndefined => "undefined"
  | VNull => "object"
  | VBool _ => "boolean"
  | VNum _ => "number"
  | VStr _ => "string"
  | VObj _ => "object"
  | VArr _ => "object"
  end.

(** ToBoolean: [if (v)], [!v], [a && b], [a || b]. *)
Definition truthy (v : value) : bool :=
  match v with
  | VUndefined | VNull => false
  | VBool b => b
  | VNum n => negb (isNaN n || num_is_zero n)
  | VStr s => negb (String.eqb s "")
  | VObj _ | VArr _ => true
  end.

Definition nullish (v : value) : bool :=
  match v with VUndefined | VNull => true | _ => false end.

(** [a ?? b]. *)
Definition coalesce (a b : value) : value := if nullish a then b else a.
Notation "a ?? b" := (coalesce a b) (at level 45, right associativity).

(** [a || b] on values. *)
Definition or_else (a b : value) : value := if truthy a then a else b.

Fixpoint lookup (k : string) (fields : list (string * value)) : option value :=
  match fields with
  | [] => None
  | (k', v) :: rest => if String.eqb k k' then Some v else lookup k rest
  end.

(** [v.k] for a receiver that is neither null nor undefined.  An object
    answers with its own entry; every other receiver (and a missing entry)
    answers [undefined]: none of the keys read by the dashboard is defined
    on [Object.prototype], [Array.prototype] or a primitive wrapper. *)
Definition prop (v : value) (k : string) : value :=
  match v with
  | VObj fields => match lookup k fields with Some x => x | None => VUndefined end
  | _ => VUndefined
  end.
Notation "v .[ k ]" := (prop v k) (at level 1, format "v .[ k ]").

(** [v?.k]. *)
Definition opt_prop (v : value) (k : string) : value :=
  if nullish v then VUndefined else prop v k.

Definition isArray (v : value) : bool :=
  match v with VArr _ => true | _ => false end.

(* ================================================================= *)
(** ** Exceptions *)

Inductive exn : Type := TypeError | RangeError | NetworkError.

Inductive result (A : Type) : Type :=
| Ok (a : A)
| Throw (e : exn).
Arguments Ok {A} a.
Arguments Throw {A} e.

Definition bind {A B : Type} (m : result A) (k : A -> result B) : result B :=
  match m with
  | Ok a => k a
  | Throw e => Throw e
  end.

Notation "x <- m ;; k" := (bind m (fun x => k))
  (at level 61, m at next level, right associativity).

Fixpoint mapM {A B : Type} (f : A -> result B) (l : list A) : result (list B) :=
  match l with
  | [] => Ok []
  | x :: rest => y <- f x ;; ys <- mapM f rest ;; Ok (y :: ys)
  end.

(** [v.k] for an arbitrary receiver: reading a property of [null] or
    [undefined] throws. *)
Definition read (v : value) (k : string) : result value :=
  if nullish v then Throw TypeError else Ok (prop v k).

(* ================================================================= *)
(** ** Dates (ECMA-262, Date objects)

    Day numbers, years, months and times of day as ECMA-262 defines them
    for time values, with [/] and [mod] the floor division of [Z]. *)

Module DateTime.

Definition msPerDay : Z := 86400000.
Definition msPerHour : Z := 3600000.
Definition msPerMinute : Z := 60000.
Definition msPerSecond : Z := 1000.
Definition maxTime : Z := 8640000000000000.

Definition Day (t : Z) : Z := t / msPerDay.
Definition TimeWithinDay (t : Z) : Z := t mod msPerDay.

Definition DaysInYear (y : Z) : Z :=
  if negb (y mod 4 =? 0) then 365
  else if negb (y mod 100 =? 0) then 366
  else if negb (y mod 400 =? 0) then 365
  else 366.

Definition DayFromYear (y : Z) : Z :=
  365 * (y - 1970) + (y - 1969) / 4 - (y - 1901) / 100 + (y - 1601) / 400.

(** The year of a day number: the largest [y] with [DayFromYear y <= d],
    found from the mean year length and one correction step. *)
Definition year_of_day (d : Z) : Z :=
  let y0 := 1970 + (400 * d) / 146097 in
  if d <? DayFromYear y0 then y0 - 1
  else if DayFromYear (y0 + 1) <=? d then y0 + 1
  else y0.

Definition YearFromTime (t : Z) : Z := year_of_day (Day t).
Definition leap (y : Z) : Z := if DaysInYear y =? 366 then 1 else 0.
Definition InLeapYear (t : Z) : Z := leap (YearFromTime t).
Definition DayWithinYear (t : Z) : Z := Day t - DayFromYear (YearFromTime t).

(** Days of the year before month [m] (0 = January). *)
Definition DaysBeforeMonth (m l : Z) : Z :=
  match m with
  | 0 => 0
  | 1 => 31
  | 2 => 59 + l
  | 3 => 90 + l
  | 4 => 120 + l
  | 5 => 151 + l
  | 6 => 181 + l
  | 7 => 212 + l
  | 8 => 243 + l
  | 9 => 273 + l
  | 10 => 304 + l
  | 11 => 334 + l
  | _ => 365 + l
  end.

Definition month_of_yday (d l : Z) : Z :=
  if d <? 31 then 0
  else if d <? 59 + l then 1
  else if d <? 90 + l then 2
  else if d <? 120 + l then 3
  else if d <? 151 + l then 4
  else if d <? 181 + l then 5
  else if d <? 212 + l then 6
  else if d <? 243 + l then 7
  else if d <? 273 + l then 8
  else if d <? 304 + l then 9
  else if d <? 334 + l then 10
  else 11.

Definition MonthFromTime (t : Z) : Z :=
  month_of_yday (DayWithinYear t) (InLeapYear t).

Definition DateFromTime (t : Z) : Z :=
  DayWithinYear t - DaysBeforeMonth (MonthFromTime t) (InLeapYear t) + 1.

Definition HourFromTime (t : Z) : Z := (t / msPerHour) mod 24.
Definition MinFromTime (t : Z) : Z := (t / msPerMinute) mod 60.
Definition SecFromTime (t : Z) : Z := (t / msPerSecond) mod 60.
Definition msFromTime (t : Z) : Z := t mod msPerSecond.

Definition MakeTime (h mi s ms : Z) : Z :=
  h * msPerHour + mi * msPerMinute + s * msPerSecond + ms.

(** MakeDay for a month index already in 0..11. *)
Definition MakeDay (y m dt : Z) : Z :=
  DayFromYear y + DaysBeforeMonth m (leap y) + dt - 1.

Definition MakeDate (day time : Z) : Z := day * msPerDay + time.

(** TimeClip on an integral time: [None] stands for NaN. *)
Definition TimeClip (t : Z) : option Z :=
  if Z.abs t <=? maxTime then Some t else None.

(** *** Fixed-width decimal fields *)

Definition digitChar (d : Z) : ascii := ascii_of_nat (48 + Z.to_nat d).

Definition digitVal (c : ascii) : option Z :=
  let n := Z.of_nat (nat_of_ascii c) in
  if (48 <=? n) && (n <=? 57) then Some (n - 48) else None.

(** [pad k n]: the [k] low decimal digits of [n], most significant first. *)
Fixpoint pad (k : nat) (n : Z) : string :=
  match k with
  | O => ""
  | S k' => String (digitChar (n / 10 ^ Z.of_nat k')) (pad k' (n mod 10 ^ Z.of_nat k'))
  end.

Fixpoint readDigits (k : nat) (acc : Z) (s : string) : option (Z * string) :=
  match k with
  | O => Some (acc, s)
  | S k' =>
      match s with
      | String c s' =>
          match digitVal c with
          | Some d => readDigits k' (10 * acc + d) s'
          | None => None
          end
      | EmptyString => None
      end
  end.

Definition expect (c : ascii) (s : string) : option string :=
  match s with
  | String c' s' => if Ascii.eqb c c' then Some s' else None
  | EmptyString => None
  end.

(** *** [Date.prototype.toISOString] on a valid time value *)

Definition yearString (y : Z) : string :=
  if (0 <=? y) && (y <=? 9999) then pad 4 y
  else String (if y <? 0 then "-"%char else "+"%char) (pad 6 (Z.abs y)).

Definition isoFormat (t : Z) : string :=
  (yearString (YearFromTime t) ++ "-" ++ pad 2 (MonthFromTime t + 1) ++ "-" ++
   pad 2 (DateFromTime t) ++ "T" ++ pad 2 (HourFromTime t) ++ ":" ++
   pad 2 (MinFromTime t) ++ ":" ++ pad 2 (SecFromTime t) ++ "." ++
   pad 3 (msFromTime t) ++ "Z")%string.

(** *** [Date.parse] on the interchange format

    The parser below recognises the complete UTC form
    [YYYY-MM-DDTHH:mm:ss.sssZ] (or with an expanded year [+YYYYYY] /
    [-YYYYYY]) whose fields are in range; ECMA-262 fixes the time value of
    such a string.  Its outer [None] means "not of that form": the answer
    is then the engine's own (see [Date_parse] below). *)

Definition obind {A B : Type} (m : option A) (k : A -> option B) : option B :=
  match m with
  | Some a => k a
  | None => None
  end.

Notation "x <-? m ;; k" := (obind m (fun x => k))
  (at level 61, m at next level, right associativity).
Notation "' p <-? m ;; k" := (obind m (fun x => match x with p => k end))
  (at level 61, p pattern, m at next level, right associativity).

Definition parse_year (s : string) : option (Z * string) :=
  match s with
  | String c s' =>
      if Ascii.eqb c "+" then readDigits 6 0 s'
      else if Ascii.eqb c "-" then
        '(y, r) <-? readDigits 6 0 s' ;;
        if y =? 0 then None else Some (- y, r)
      else readDigits 4 0 s
  | EmptyString => None
  end.

Definition fields_in_range (y mo d h mi sec : Z) : bool :=
  (1 <=? mo) && (mo <=? 12) && (1 <=? d) &&
  (d <=? DaysBeforeMonth mo (leap y) - DaysBeforeMonth (mo - 1) (leap y)) &&
  (h <=? 23) && (mi <=? 59) && (sec <=? 59).

(** The seven numeric fields of a string of the complete UTC form. *)
Definition canonical_fields (s : string) : option (Z * Z * Z * Z * Z * Z * Z) :=
  '(y, s) <-? parse_year s ;;
  s <-? expect "-" s ;;
  '(mo, s) <-? readDigits 2 0 s ;;
  s <-? expect "-" s ;;
  '(d, s) <-? readDigits 2 0 s ;;
  s <-? expect "T" s ;;
  '(h, s) <-? readDigits 2 0 s ;;
  s <-? expect ":" s ;;
  '(mi, s) <-? readDigits 2 0 s ;;
  s <-? expect ":" s ;;
  '(sec, s) <-? readDigits 2 0 s ;;
  s <-? expect "." s ;;
  '(ms, s) <-? readDigits 3 0 s ;;
  s <-? expect "Z" s ;;
  match s with
  | EmptyString => Some (y, mo, d, h, mi, sec, ms)
  | String _ _ => None
  end.

Definition parse_canonical (s : string) : option (option Z) :=
  '(y, mo, d, h, mi, sec, ms) <-? canonical_fields s ;;
  if fields_in_range y mo d h mi sec
  then Some (TimeClip (MakeDate (MakeDay y (mo - 1) d) (MakeTime h mi sec ms)))
  else None.

End DateTime.

(* ================================================================= *)
(** ** The engine

    What ECMA-262 leaves to the implementation, or what is too large to
    spell out here, is a parameter of the model:
    - [StringToNumber]: ToNumber applied to a string;
    - [ObjectToPrimitive]: ToPrimitive applied to an object or an array
      (for parsed JSON: [Object.prototype.toString] or
      [Array.prototype.join], or a TypeError);
    - [parseOther]: [Date.parse] on a string that is not of the complete
      UTC interchange form (legacy formats, local-time forms);
    - [toLocaleTimeString]: the "en-AU" two-digit hour and minute label of
      a Date in the viewer's time zone. *)

Definition Date : Type := option Z.

Record Runtime : Type := {
  StringToNumber : string -> number;
  ObjectToPrimitive : value -> result string;
  parseOther : string -> option Z;
  toLocaleTimeString : Date -> string;
}.

Definition num_neg (a : number) : number :=
  match a with
  | NaN => NaN
  | PosInfinity => NegInfinity
  | NegInfinity => PosInfinity
  | Finite q => Finite (- q)
  end.

(** [a - b]. *)
Definition num_sub (a b : number) : number :=
  match a, b with
  | NaN, _ | _, NaN => NaN
  | Finite x, Finite y => Finite (x - y)
  | PosInfinity, PosInfinity | NegInfinity, NegInfinity => NaN
  | PosInfinity, _ => PosInfinity
  | NegInfinity, _ => NegInfinity
  | Finite _, _ => num_neg b
  end.

(** [date.getTime()]. *)
Definition getTime (d : Date) : number :=
  match d with
  | Some t => num t
  | None => NaN
  end.

(** [date.toISOString()]: a RangeError on an invalid Date. *)
Definition toISOString (d : Date) : result string :=
  match d with
  | Some t => Ok (DateTime.isoFormat t)
  | None => Throw RangeError
  end.

(** [new Date(n)] for a number: TimeClip. *)
Definition clipNumber (n : number) : Date :=
  match n with
  | Finite q =>
      if Qle_bool (Qabs q) (inject_Z DateTime.maxTime) then Some (trunc q) else None
  | _ => None
  end.

Section Engine.

Variable rt : Runtime.

(** [Number(v)]. *)
Definition ToNumber (v : value) : result number :=
  match v with
  | VUndefined => Ok NaN
  | VNull => Ok (num 0)
  | VBool b => Ok (num (if b then 1 else 0))
  | VNum n => Ok n
  | VStr s => Ok (StringToNumber rt s)
  | VObj _ | VArr _ => s <- ObjectToPrimitive rt v ;; Ok (StringToNumber rt s)
  end.

(** [Date.parse(s)], as the time value of [new Date(s)]. *)
Definition Date_parse (s : string) : Date :=
  match DateTime.parse_canonical s with
  | Some d => d
  | None =>
      match parseOther rt s with
      | Some t => DateTime.TimeClip t
      | None => None
      end
  end.

(** [new Date(v)]. *)
Definition newDate (v : value) : result Date :=
  match v with
  | VStr s => Ok (Date_parse s)
  | VObj _ | VArr _ => s <- ObjectToPrimitive rt v ;; Ok (Date_parse s)
  | VNum n => Ok (clipNumber n)
  | VUndefined => Ok None
  | VNull => Ok (Some 0)
  | VBool b => Ok (Some (if b then 1 else 0))
  end.

(* ================================================================= *)
(** ** The forecast normaliser (first document of src/unnamed/part_000) *)

Record SunPosition : Type := {
  azimuth : number;
  altitude : number;
}.

(** [uv_time] is declared a string; what [normalizePoint] stores in it is
    whatever [ts] holds at the end, so the field is a [value] here. *)
Record UVForecastPoint : Type := {
  uv : number;
  uv_time : value;
  sun_position : option SunPosition;
}.

(** Lines 121-126, [if (typeof ts === "number")]: a numeric [ts] becomes
    an ISO string or [null]. *)
Definition resolveNumber (ts : value) : result value :=
  match ts with
  | VNum n =>
      if num_gtb n (num 1000000000000) then
        s <- toISOString (clipNumber n) ;; Ok (VStr s)
      else if num_gtb n (num 1000000000) then
        s <- toISOString (clipNumber (num_mul n (num 1000))) ;; Ok (VStr s)
      else Ok VNull
  | _ => Ok ts
  end.

(** Lines 129-138, [if (typeof ts === "string")]: a string [ts] is parsed
    and re-serialised; the inner [None] is the early [return null]. *)
Definition resolveString (ts : value) : result (option value) :=
  match ts with
  | VStr s =>
      let parsed := Date_parse s in
      if isNaN (getTime parsed) then
        let parsed := Date_parse (s ++ "Z") in
        if isNaN (getTime parsed) then Ok None
        else iso <- toISOString parsed ;; Ok (Some (VStr iso))
      else iso <- toISOString parsed ;; Ok (Some (VStr iso))
  | _ => Ok (Some ts)
  end.

(** Lines 148-156. *)
Definition resolveSunPosition (p : value) : result (option SunPosition) :=
  let sunPosRaw := p.["sun_position"] ?? p.["sunPosition"] ?? VNull in
  if truthy sunPosRaw && String.eqb (typeof sunPosRaw) "object" then
    az <- ToNumber (sunPosRaw.["azimuth"] ?? sunPosRaw.["az"] ?? sunPosRaw.["a"]) ;;
    alt <- ToNumber (sunPosRaw.["altitude"] ?? sunPosRaw.["alt"] ?? sunPosRaw.["h"]) ;;
    if negb (isNaN az) && negb (isNaN alt)
    then Ok (Some {| azimuth := az; altitude := alt |})
    else Ok None
  else Ok None.

(** The time-like field read at line 118. *)
Definition timeField (p : value) : value :=
  p.["uv_time"] ?? p.["time"] ?? p.["timestamp"] ?? p.["time_utc"] ?? VNull.

(** The UV field read at line 141. *)
Definition uvField (p : value) : value :=
  p.["uv"] ?? p.["value"] ?? p.["UV"] ?? VNull.

(** Timestamp resolution, lines 118-138: the final [ts], or [None] for
    the early [return null]. *)
Definition resolveTimestamp (p : value) : result (option value) :=
  let ts := timeField p in
  ts <- resolveNumber ts ;;
  resolveString ts.

(** [normalizePoint], lines 114-165.  [Ok None] is [return null]. *)
Definition normalizePoint (p : value) : result (option UVForecastPoint) :=
  if negb (truthy p) then Ok None else
  ots <- resolveTimestamp p ;;
  match ots with
  | None => Ok None
  | Some ts =>
      let uvVal := uvField p in
      if nullish uvVal then Ok None else
      uvNum <- ToNumber uvVal ;;
      if isNaN uvNum then Ok None else
      sun <- resolveSunPosition p ;;
      if negb (truthy ts) then Ok None else
      Ok (Some {| uv := uvNum; uv_time := ts; sun_position := sun |})
  end.

(* ================================================================= *)
(** ** [Array.prototype.sort]

    ECMA-262 asks for a stable sort; a comparator result [v] orders
    [x] after [y] when [v > 0], and NaN counts as [+0].  Which pairs are
    compared is left to the engine; when the comparator is consistent every
    stable sort returns the same array.  The model is an insertion sort:
    from the last element to the first, each one is placed before the
    first element it need not follow. *)

Section Sort.

Context {A : Type}.
Variable comparefn : A -> A -> result number.

Definition SortCompare (x y : A) : result bool :=
  v <- comparefn x y ;; Ok (num_gtb v (num 0)).

Fixpoint insert (x : A) (l : list A) : result (list A) :=
  match l with
  | [] => Ok [x]
  | y :: l' =>
      after <- SortCompare x y ;;
      if after : bool then r <- insert x l' ;; Ok (y :: r)
      else Ok (x :: l)
  end.

Fixpoint sort (l : list A) : result (list A) :=
  match l with
  | [] => Ok []
  | x :: l' => s <- sort l' ;; insert x s
  end.

End Sort.

(** The comparator of lines 207-208 and 246. *)
Definition byTime (a b : UVForecastPoint) : result number :=
  da <- newDate (uv_time a) ;;
  db <- newDate (uv_time b) ;;
  Ok (num_sub (getTime da) (getTime db)).

Fixpoint dropNull {A : Type} (l : list (option A)) : list A :=
  match l with
  | [] => []
  | Some x :: rest => x :: dropNull rest
  | None :: rest => dropNull rest
  end.

(** Lines 203-209: normalise, filter out nulls, sort by time. *)
Definition buildSeries (rawForecast : list value) : result (list UVForecastPoint) :=
  mapped <- mapM normalizePoint rawForecast ;;
  sort byTime (dropNull mapped).

(** Lines 195-199. *)
Definition rawForecastOf (data : value) : value :=
  if isArray data.["forecast"] then data.["forecast"]
  else if isArray (opt_prop data.["result"] "forecast") then data.["result"].["forecast"]
  else VNull.

End Engine.

(* ================================================================= *)
(** ** The component state and [fetchUVData] *)

Record Dashboard : Type := {
  uvIndex : number;
  uvMax : number;
  uvMaxTime : string;
  safeExposureTimes : list (string * value);
  sunInfo : value;
  forecast : list UVForecastPoint;
  isLoading : bool;
  error : value;
  lastUpdated : Date;
}.

(** The state after the [useState] initialisers. *)
Definition initialState : Dashboard :=
  {| uvIndex := num 0; uvMax := num 0; uvMaxTime := "";
     safeExposureTimes := []; sunInfo := VNull; forecast := [];
     isLoading := true; error := VNull; lastUpdated := None |}.

(** A block of statements: it runs from a state, leaves a state, and
    either completes or throws.  State updates made before a throw stay. *)
Definition action (A : Type) : Type := Dashboard -> Dashboard * result A.

Definition done {A : Type} (a : A) : action A := fun st => (st, Ok a).

Definition lift {A : Type} (r : result A) : action A := fun st => (st, r).

Definition andThen {A B : Type} (m : action A) (k : A -> action B) : action B :=
  fun st =>
    match m st with
    | (st', Ok a) => k a st'
    | (st', Throw e) => (st', Throw e)
    end.

Notation "x <~ m ;; k" := (andThen m (fun x => k))
  (at level 61, m at next level, right associativity).
Notation "m ;;; k" := (andThen m (fun _ => k))
  (at level 61, right associativity).

Definition when (b : bool) (m : action unit) : action unit :=
  if b then m else done tt.

(** [try { body } catch (err) { handler } finally { fin }]. *)
Definition tryCatchFinally (body : action unit) (handler : exn -> action unit)
    (fin : action unit) : action unit :=
  fun st =>
    match body st with
    | (st', Ok _) => fin st'
    | (st', Throw e) =>
        match handler e st' with
        | (st'', Ok _) => fin st''
        | (st'', Throw e') =>
            match fin st'' with
            | (st3, Ok _) => (st3, Throw e')
            | (st3, Throw e'') => (st3, Throw e'')
            end
        end
    end.

Definition update (f : Dashboard -> Dashboard) : action unit :=
  fun st => (f st, Ok tt).

Definition setUvIndex (n : number) : action unit :=
  update (fun st =>
    {| uvIndex := n; uvMax := uvMax st; uvMaxTime := uvMaxTime st;
       safeExposureTimes := safeExposureTimes st; sunInfo := sunInfo st;
       forecast := forecast st; isLoading := isLoading st; error := error st;
       lastUpdated := lastUpdated st |}).

Definition setUvMax (n : number) : action unit :=
  update (fun st =>
    {| uvIndex := uvIndex st; uvMax := n; uvMaxTime := uvMaxTime st;
       safeExposureTimes := safeExposureTimes st; sunInfo := sunInfo st;
       forecast := forecast st; isLoading := isLoading st; error := error st;
       lastUpdated := lastUpdated st |}).

Definition setUvMaxTime (s : string) : action unit :=
  update (fun st =>
    {| uvIndex := uvIndex st; uvMax := uvMax st; uvMaxTime := s;
       safeExposureTimes := safeExposureTimes st; sunInfo := sunInfo st;
       forecast := forecast st; isLoading := isLoading st; error := error st;
       lastUpdated := lastUpdated st |}).

Definition setSafeExposureTimes (t : list (string * value)) : action unit :=
  update (fun st =>
    {| uvIndex := uvIndex st; uvMax := uvMax st; uvMaxTime := uvMaxTime st;
       safeExposureTimes := t; sunInfo := sunInfo st;
       forecast := forecast st; isLoading := isLoading st; error := error st;
       lastUpdated := lastUpdated st |}).

Definition setSunInfo (v : value) : action unit :=
  update (fun st =>
    {| uvIndex := uvIndex st; uvMax := uvMax st; uvMaxTime := uvMaxTime st;
       safeExposureTimes := safeExposureTimes st; sunInfo := v;
       forecast := forecast st; isLoading := isLoading st; error := error st;
       lastUpdated := lastUpdated st |}).

Definition setForecast (f : list UVForecastPoint) : action unit :=
  update (fun st =>
    {| uvIndex := uvIndex st; uvMax := uvMax st; uvMaxTime := uvMaxTime st;
       safeExposureTimes := safeExposureTimes st; sunInfo := sunInfo st;
       forecast := f; isLoading := isLoading st; error := error st;
       lastUpdated := lastUpdated st |}).

Definition setIsLoading (b : bool) : action unit :=
  update (fun st =>
    {| uvIndex := uvIndex st; uvMax := uvMax st; uvMaxTime := uvMaxTime st;
       safeExposureTimes := safeExposureTimes st; sunInfo := sunInfo st;
       forecast := forecast st; isLoading := b; error := error st;
       lastUpdated := lastUpdated st |}).

Definition setError (v : value) : action unit :=
  update (fun st =>
    {| uvIndex := uvIndex st; uvMax := uvMax st; uvMaxTime := uvMaxTime st;
       safeExposureTimes := safeExposureTimes st; sunInfo := sunInfo st;
       forecast := forecast st; isLoading := isLoading st; error := v;
       lastUpdated := lastUpdated st |}).

Definition setLastUpdated (d : Date) : action unit :=
  update (fun st =>
    {| uvIndex := uvIndex st; uvMax := uvMax st; uvMaxTime := uvMaxTime st;
       safeExposureTimes := safeExposureTimes st; sunInfo := sunInfo st;
       forecast := forecast st; isLoading := isLoading st; error := error st;
       lastUpdated := d |}).

Section Fetch.

Variable rt : Runtime.

(** Lines 178-192: the pass-through readings. *)
Definition storeReadings (res : value) : action unit :=
  (match res.["uv"] with VNum n => setUvIndex n | _ => done tt end) ;;;
  (match res.["uv_max"] with VNum n => setUvMax n | _ => done tt end) ;;;
  (match res.["uv_max_time"] with VStr s => setUvMaxTime s | _ => done tt end) ;;;
  let sets := res.["safe_exposure_time"] in
  setSafeExposureTimes
    [("st1", opt_prop sets "st1" ?? VNull); ("st2", opt_prop sets "st2" ?? VNull);
     ("st3", opt_prop sets "st3" ?? VNull); ("st4", opt_prop sets "st4" ?? VNull);
     ("st5", opt_prop sets "st5" ?? VNull); ("st6", opt_prop sets "st6" ?? VNull)] ;;;
  setSunInfo (opt_prop res.["sun_info"] "sun_times" ?? VNull).

(** Lines 201-215: the Series Builder applied to what [rawForecastOf] found. *)
Definition storeForecast (rawForecast : value) : action unit :=
  match rawForecast with
  | VArr raws =>
      normalized <~ lift (buildSeries rt raws) ;;
      setForecast normalized
  | _ => setForecast []
  end.

(** [fetchUVData], lines 167-238.  [response] is the outcome of
    [await fetch(...)] followed by [await response.json()], [now] the
    clock read by [new Date()]. *)
Definition fetchUVData (now : Z) (response : result value) : action unit :=
  setIsLoading true ;;;
  setError VNull ;;;
  tryCatchFinally
    (data <~ lift response ;;
     success <~ lift (read data "success") ;;
     if truthy success && truthy data.["result"] then
       storeReadings data.["result"] ;;;
       storeForecast (rawForecastOf data) ;;;
       setLastUpdated (Some now)
     else if truthy data.["forecast"] && isArray data.["forecast"] then
       storeForecast data.["forecast"] ;;;
       setLastUpdated (Some now)
     else
       setError (or_else data.["error"] (VStr "Failed to fetch UV data")))
    (fun _ => setError (VStr "Failed to connect to UV service"))
    (setIsLoading false).

(* ================================================================= *)
(** ** The look-ahead window and the chart data *)

(** [getForecast24h], lines 242-249, over the [forecast] state. *)
Definition getForecast24h (forecast : list UVForecastPoint)
    : result (list UVForecastPoint) :=
  if (List.length forecast =? 0)%nat then Ok [] else
  sorted <- sort (byTime rt) forecast ;;
  Ok (firstn 24 sorted).

End Fetch.

Module Chart.

Record point : Type := {
  timeLabel : string;
  uv : number;
}.

End Chart.

(** [chartData], lines 254-263.  [Number(p.uv)] is [p.uv]: the field
    already holds a number. *)
Definition chartData (rt : Runtime) (forecast24h : list UVForecastPoint)
    : result (list Chart.point) :=
  mapM (fun p =>
          date <- newDate rt (uv_time p) ;;
          Ok {| Chart.timeLabel := toLocaleTimeString rt date;
                Chart.uv := uv p |})
       forecast24h.

(* ================================================================= *)
(** ** Categories and segmentation *)

Inductive Category : Type := low | moderate | high | veryHigh | extreme.

Definition Category_eqb (a b : Category) : bool :=
  match a, b with
  | low, low | moderate, moderate | high, high
  | veryHigh, veryHigh | extreme, extreme => true
  | _, _ => false
  end.

(** [getCategory], lines 266-272. *)
Definition getCategory (uv : number) : Category :=
  if num_ltb uv (num 3) then low
  else if num_ltb uv (num 6) then moderate
  else if num_ltb uv (num 8) then high
  else if num_ltb uv (num 11) then veryHigh
  else extreme.

Section Segments.

Local Open Scope nat_scope.

(** [l.slice(a, b)] for indices within [0 .. l.length]. *)
Definition slice {A : Type} (l : list A) (a b : nat) : list A :=
  firstn (b - a) (skipn a l).

(** [segments[segments.length - 1].push(x)]. *)
Definition pushToLast {A : Type} (segments : list (list A)) (x : A) : list (list A) :=
  removelast segments ++ [last segments [] ++ [x]].

(** The variables of the scan at lines 297-329. *)
Record Scan : Type := {
  segments : list (list Chart.point);
  start : nat;
  currentCat : Category;
  idx : nat;
}.

(** One iteration of the [for] loop (lines 302-328) followed by its
    [i++]; it is run only while [i < data.length]. *)
Definition scanStep (data : list Chart.point) (st : Scan) : Scan :=
  let i := idx st in
  match nth_error data i with
  | None => st
  | Some di =>
      let cat := getCategory (Chart.uv di) in
      if negb (Category_eqb cat (currentCat st)) then
        let seg := slice data (start st) (i + 1) in
        match seg with
        | [s0] =>
            if 0 <? List.length (segments st) then
              {| segments := pushToLast (segments st) s0;
                 start := i + 1; currentCat := cat; idx := i + 1 |}
            else
              match nth_error data (i + 1) with
              | Some next =>
                  {| segments := segments st ++ [seg ++ [next]];
                     start := (i + 1) + 1; currentCat := cat; idx := (i + 1) + 1 |}
              | None =>
                  {| segments := segments st ++ [seg];
                     start := i + 1; currentCat := cat; idx := i + 1 |}
              end
        | _ =>
            {| segments := segments st ++ [seg];
               start := i + 1; currentCat := cat; idx := i + 1 |}
        end
      else
        {| segments := segments st; start := start st;
           currentCat := currentCat st; idx := i + 1 |}
  end.

(** The [for] loop; [fuel] bounds the number of iterations. *)
Fixpoint scanLoop (fuel : nat) (data : list Chart.point) (st : Scan) : Scan :=
  match fuel with
  | O => st
  | S fuel' =>
      if idx st <? List.length data then scanLoop fuel' data (scanStep data st)
      else st
  end.

(** Lines 332-339: the trailing run. *)
Definition finish (data : list Chart.point) (st : Scan) : list (list Chart.point) :=
  if start st <? List.length data then
    let lastSeg := skipn (start st) data in
    match lastSeg with
    | [l0] =>
        if 0 <? List.length (segments st) then pushToLast (segments st) l0
        else segments st ++ [lastSeg]
    | _ => segments st ++ [lastSeg]
    end
  else segments st.

(** [splitIntoSegments], lines 294-342.  The loop runs at most
    [data.length] times (see [scanLoop_exit]). *)
Definition splitIntoSegments (data : list Chart.point) : list (list Chart.point) :=
  match data with
  | [] => []
  | d0 :: _ =>
      let st0 := {| segments := []; start := 0;
                    currentCat := getCategory (Chart.uv d0); idx := 1 |} in
      finish data (scanLoop (List.length data) data st0)
  end.

End Segments.

(** [lineSegments], line 344, from the [forecast] state. *)
Definition lineSegments (rt : Runtime) (forecast : list UVForecastPoint)
    : result (list (list Chart.point)) :=
  forecast24h <- getForecast24h rt forecast ;;
  data <- chartData rt forecast24h ;;
  Ok (splitIntoSegments data).

(* ================================================================= *)
(** ** The earlier revisions kept in the repository *)

(** The second document of src/unnamed/part_000 (lines 990-1652). *)
Module Rev2.

Section Engine.

Variable rt : Runtime.

(** Line 1074. *)
Definition timeField (p : value) : value :=
  p.["uv_time"] ?? p.["time"] ?? p.["timestamp"] ?? VNull.

(** Lines 1085-1095. *)
Definition resolveString (ts : value) : result (option value) :=
  match ts with
  | VStr s =>
      let parsed := Date_parse rt s in
      if isNaN (getTime parsed) then
        let maybeUtc := Date_parse rt (s ++ "Z") in
        if negb (isNaN (getTime maybeUtc)) then
          iso <- toISOString maybeUtc ;; Ok (Some (VStr iso))
        else Ok None
      else iso <- toISOString parsed ;; Ok (Some (VStr iso))
  | _ => Ok (Some ts)
  end.

(** Lines 1074-1095. *)
Definition resolveTimestamp (p : value) : result (option value) :=
  let ts := timeField p in
  ts <- resolveNumber ts ;;
  resolveString ts.

(** [normalizePoint], lines 1072-1105. *)
Definition normalizePoint (p : value) : result (option UVForecastPoint) :=
  if negb (truthy p) then Ok None else
  ots <- resolveTimestamp p ;;
  match ots with
  | None => Ok None
  | Some ts =>
      let uvVal := uvField p in
      if nullish uvVal then Ok None else
      uvNum <- ToNumber rt uvVal ;;
      Ok (Some {| uv := uvNum; uv_time := ts; sun_position := None |})
  end.

Fixpoint filterM {A : Type} (f : A -> result bool) (l : list A) : result (list A) :=
  match l with
  | [] => Ok []
  | x :: rest =>
      keep <- f x ;;
      ys <- filterM f rest ;;
      Ok (if keep : bool then x :: ys else ys)
  end.

(** [a >= b] on numbers. *)
Definition num_geb (a b : number) : bool :=
  negb (isNaN a) && negb (isNaN b) && negb (num_ltb a b).

(** [getForecast24h], lines 1159-1174; [now] is [Date.now()]. *)
Definition getForecast24h (now : Z) (forecast : list UVForecastPoint)
    : result (list UVForecastPoint) :=
  if (List.length forecast =? 0)%nat then Ok [] else
  let next24h := now + 24 * 60 * 60 * 1000 in
  let bufferMs := 5 * 60 * 1000 in
  pts <- filterM (fun point =>
                    d <- newDate rt (uv_time point) ;;
                    let t := getTime d in
                    Ok (num_geb t (num (now - bufferMs)) &&
                        num_geb (num (next24h + bufferMs)) t))
                 forecast ;;
  sorted <- sort (byTime rt) pts ;;
  Ok (firstn 24 sorted).

End Engine.

End Rev2.

(* ================================================================= *)
(** ** A small engine to run closed examples

    Decimal literals for [StringToNumber]; plain objects print as
    ["[object Object]"] unless an own [toString] entry shadows the
    inherited method (a TypeError), arrays join their string elements;
    [Date.parse] accepts, besides the complete UTC form, the shorter
    interchange forms, read in a UTC local zone; labels are UTC. *)

Module RefEngine.

Import DateTime.

Fixpoint readRun (s : string) (acc : Z) (n : nat) : Z * nat * string :=
  match s with
  | String c s' =>
      match digitVal c with
      | Some d => readRun s' (10 * acc + d) (S n)
      | None => (acc, n, s)
      end
  | EmptyString => (acc, n, s)
  end.

Definition unsignedDecimal (s : string) : number :=
  let '(ip, ni, r) := readRun s 0 0%nat in
  match r with
  | EmptyString => if (0 <? ni)%nat then num ip else NaN
  | String "." r' =>
      let '(fp, nf, r'') := readRun r' 0 0%nat in
      match r'' with
      | EmptyString =>
          if (0 <? ni + nf)%nat
          then Finite (Qmake (ip * 10 ^ Z.of_nat nf + fp) (Z.to_pos (10 ^ Z.of_nat nf)))
          else NaN
      | String _ _ => NaN
      end
  | String _ _ => NaN
  end.

Definition stringToNumber (s : string) : number :=
  match s with
  | EmptyString => num 0
  | String "-" s' => num_neg (unsignedDecimal s')
  | _ => unsignedDecimal s
  end.

Fixpoint join (items : list value) : string :=
  match items with
  | [] => ""
  | [VStr s] => s
  | [_] => ""
  | VStr s :: rest => s ++ "," ++ join rest
  | _ :: rest => "," ++ join rest
  end.

Definition objectToPrimitive (v : value) : result string :=
  match v with
  | VObj fields =>
      match lookup "toString" fields with
      | Some _ => Throw TypeError
      | None => Ok "[object Object]"
      end
  | VArr items => Ok (join items)
  | _ => Ok ""
  end.

(** The time of day after the date: [THH:mm], [THH:mm:ss] or
    [THH:mm:ss.sss], then an optional [Z]. *)
Definition parse_time (s : string) : option Z :=
  s <-? expect "T" s ;;
  '(h, s) <-? readDigits 2 0 s ;;
  s <-? expect ":" s ;;
  '(mi, s) <-? readDigits 2 0 s ;;
  '(sec, s) <-? (match expect ":" s with
                 | Some s' => readDigits 2 0 s'
                 | None => Some (0, s)
                 end) ;;
  '(ms, s) <-? (match expect "." s with
                | Some s' => readDigits 3 0 s'
                | None => Some (0, s)
                end) ;;
  let s := match expect "Z" s with Some s' => s' | None => s end in
  match s with
  | EmptyString =>
      if (h <=? 23) && (mi <=? 59) && (sec <=? 59)
      then Some (MakeTime h mi sec ms) else None
  | String _ _ => None
  end.

Definition parseShort (s : string) : option Z :=
  '(y, s) <-? parse_year s ;;
  s <-? expect "-" s ;;
  '(mo, s) <-? readDigits 2 0 s ;;
  s <-? expect "-" s ;;
  '(d, s) <-? readDigits 2 0 s ;;
  time <-? (match s with
            | EmptyString => Some 0
            | String _ _ => parse_time s
            end) ;;
  if fields_in_range y mo d 0 0 0
  then Some (MakeDate (MakeDay y (mo - 1) d) time)
  else None.

Definition label (d : Date) : string :=
  match d with
  | None => "Invalid Date"
  | Some t =>
      let h := HourFromTime t in
      let h12 := if h mod 12 =? 0 then 12 else h mod 12 in
      (pad 2 h12 ++ ":" ++ pad 2 (MinFromTime t) ++
       (if Z.ltb h 12 then " am" else " pm"))%string
  end.

Definition engine : Runtime :=
  {| StringToNumber := stringToNumber;
     ObjectToPrimitive := objectToPrimitive;
     parseOther := parseShort;
     toLocaleTimeString := label |}.

End RefEngine.

(** src/app/page.tsx, the first revision: the window is cut against the
    clock and capped at 12 points (lines 236-244). *)
Module Rev1.

Definition getForecast24h (rt : Runtime) (now : Z) (forecast : list UVForecastPoint)
    : result (list UVForecastPoint) :=
  if (List.length forecast =? 0)%nat then Ok [] else
  let next24h := now + 24 * 60 * 60 * 1000 in
  pts <- Rev2.filterM
           (fun point =>
              pointTime <- newDate rt (uv_time point) ;;
              Ok (Rev2.num_geb (getTime pointTime) (num now) &&
                  Rev2.num_geb (num next24h) (getTime pointTime)))
           forecast ;;
  Ok (firstn 12 pts).

End Rev1.

(* ================================================================= *)
(** ** Vocabulary of the statements *)

(** A time value inside the range of Date. *)
Definition validTime (t : Z) : Prop :=
  - DateTime.maxTime <= t <= DateTime.maxTime.

(** The record's timestamp resolves to the instant [t]: [ts] ends as the
    ISO string of [t], which every later [new Date(ts)] reads back as [t]. *)
Definition resolvesTo (rt : Runtime) (p : value) (t : Z) : Prop :=
  resolveTimestamp rt p = Ok (Some (VStr (DateTime.isoFormat t))) /\
  newDate rt (VStr (DateTime.isoFormat t)) = Ok (Some t).

(** No ForecastPoint comes out of the record. *)
Definition rejects (rt : Runtime) (p : value) : Prop :=
  match normalizePoint rt p with
  | Ok (Some _) => False
  | _ => True
  end.

(** The time-like field is a number, a string, or missing. *)
Definition plainTime (p : value) : bool :=
  match timeField p with
  | VNum _ | VStr _ | VNull | VUndefined => true
  | _ => false
  end.


(** The time value the comparator reads from a point, when there is one. *)
Definition timeOf (rt : Runtime) (p : UVForecastPoint) : option Z :=
  match newDate rt (uv_time p) with
  | Ok (Some t) => Some t
  | _ => None
  end.

Definition keyOf (rt : Runtime) (p : UVForecastPoint) : Z :=
  match timeOf rt p with
  | Some t => t
  | None => 0
  end.

Definition timed (rt : Runtime) (p : UVForecastPoint) : Prop :=
  exists t, newDate rt (uv_time p) = Ok (Some t).

(** A series in which every point has a time value and the time values
    never decrease. *)
Definition chronological (rt : Runtime) (l : list UVForecastPoint) : Prop :=
  Forall (timed rt) l /\ Sorted (fun a b => keyOf rt a <= keyOf rt b) l.

(** Insertion sort on the time values themselves: what [sort] computes
    when every comparison is between two time values. *)
Section KeySort.

Context {A : Type}.
Variable key : A -> Z.

Fixpoint insertByKey (x : A) (l : list A) : list A :=
  match l with
  | [] => [x]
  | y :: l' => if key y <? key x then y :: insertByKey x l' else x :: l
  end.

Fixpoint sortByKey (l : list A) : list A :=
  match l with
  | [] => []
  | x :: l' => insertByKey x (sortByKey l')
  end.

End KeySort.

(** The envelope passes the gate of line 177. *)
Definition successEnvelope (data : value) : Prop :=
  truthy data.["success"] && truthy data.["result"] = true.

(** What the scan maintains between iterations. *)
Record ScanInv (data : list Chart.point) (st : Scan) : Prop := {
  inv_idx : (1 <= idx st <= List.length data)%nat;
  inv_start : (start st <= idx st)%nat;
  inv_concat : List.concat (segments st) = firstn (start st) data;
  inv_first : segments st = [] -> start st = 0%nat;
  inv_long : Forall (fun s => (2 <= List.length s)%nat) (segments st);
}.

(** The scan variables before the first iteration (lines 297-299). *)
Definition scanStart (d0 : Chart.point) : Scan :=
  {| segments := []; start := 0; currentCat := getCategory (Chart.uv d0); idx := 1 |}.


(** Some point differs in category from its predecessor. *)
Fixpoint hasChange (data : list Chart.point) : bool :=
  match data with
  | a :: (b :: _) as rest =>
      negb (Category_eqb (getCategory (Chart.uv a)) (getCategory (Chart.uv b)))
      || hasChange rest
  | _ => false
  end.

(** The index at which segment [k] of [segs] starts in [concat segs]. *)
Definition offset {A : Type} (segs : list (list A)) (k : nat) : nat :=
  List.length (List.concat (firstn k segs)).

(* ================================================================= *)
(** ** Inputs of the closed examples *)

Definition numericRecord (t : Z) : value :=
  VObj [("uv_time", VNum (num t)); ("uv", VNum (num 5))].

Definition localRecord : list (string * value) :=
  [("time", VStr "2023-11-15T01:00:00"); ("uv", VNum (num 7))].

(** [n] hourly points from 2023-11-15T00:00Z. *)
Definition hourly (n : nat) : list UVForecastPoint :=
  map (fun i => {| uv := num 1;
                   uv_time := VStr (DateTime.isoFormat
                                      (1700006400000 + 3600000 * Z.of_nat i));
                   sun_position := None |})
      (seq 0 n).

Definition at2033 : value :=
  VObj [("uv", VNum (num 1)); ("uv_time", VNum (num 2000000000))].
Definition atObject : value :=
  VObj [("uv", VNum (num 2)); ("uv_time", VObj [])].
Definition at2017 : value :=
  VObj [("uv", VNum (num 3)); ("uv_time", VNum (num 1500000000))].

Definition chartPoint (label : string) (u : Z) : Chart.point :=
  {| Chart.timeLabel := label; Chart.uv := num u |}.

Definition fourPoints : list Chart.point :=
  [chartPoint "09:00 am" 1; chartPoint "10:00 am" 7;
   chartPoint "11:00 am" 7; chartPoint "12:00 pm" 7].

Definition threePoints : list Chart.point :=
  [chartPoint "09:00 am" 1; chartPoint "10:00 am" 7; chartPoint "11:00 am" 1].



Definition loadedState : Dashboard :=
  {| uvIndex := num 2; uvMax := num 9; uvMaxTime := "";
     safeExposureTimes := []; sunInfo := VNull; forecast := hourly 2;
     isLoading := false; error := VNull; lastUpdated := Some 1700000000000 |}.

(* ================================================================= *)
(** ** The rest of the dashboard

    What the page computes from the state besides the forecast core
    (first document of src/unnamed/part_000), and the components it
    hands the results to. *)

(** *** More of the number operations *)

(** [a <= b]. *)
Definition num_leb (a b : number) : bool :=
  negb (isNaN a) && negb (isNaN b) && negb (num_ltb b a).

(** [a === b] on numbers. *)
Definition num_eqb (a b : number) : bool :=
  match a, b with
  | Finite x, Finite y => Qeq_bool x y
  | PosInfinity, PosInfinity | NegInfinity, NegInfinity => true
  | _, _ => false
  end.

(** [a / b].  A zero divisor counts as [+0]. *)
Definition num_div (a b : number) : number :=
  match a, b with
  | NaN, _ | _, NaN => NaN
  | Finite x, Finite y =>
      if num_is_zero b then
        if num_is_zero a then NaN
        else if num_neg_sign a then NegInfinity else PosInfinity
      else Finite (x / y)
  | Finite _, _ => num 0
  | _, Finite _ =>
      if xorb (num_neg_sign a) (num_neg_sign b) then NegInfinity else PosInfinity
  | _, _ => NaN
  end.


Definition Math_floor (a : number) : number :=
  match a with
  | Finite q => num (Qfloor q)
  | _ => a
  end.

Definition Math_max (a b : number) : number :=
  if isNaN a || isNaN b then NaN else if num_ltb a b then b else a.


(** [String(n)], as a template literal prints it, for an integer. *)
Definition intToString (n : Z) : string := NilZero.string_of_int (Z.to_int n).

(* ================================================================= *)
(** *** Stroke colours and the lines drawn (lines 266-290 and 895-911) *)

(** The string [getCategory] returns for each category. *)
Definition categoryName (c : Category) : string :=
  match c with
  | low => "low"
  | moderate => "moderate"
  | high => "high"
  | veryHigh => "veryHigh"
  | extreme => "extreme"
  end.

(** [getColorForCategory], lines 275-290. *)
Definition getColorForCategory (cat : string) : string :=
  if String.eqb cat "low" then "#16a34a"
  else if String.eqb cat "moderate" then "#f59e0b"
  else if String.eqb cat "high" then "#f97316"
  else if String.eqb cat "veryHigh" then "#ef4444"
  else if String.eqb cat "extreme" then "#7c3aed"
  else "var(--accent)".

Module Line.

Record props : Type := {
  data : list Chart.point;
  stroke : string;
}.

End Line.

(** Lines 895-911: a segment of two or more points becomes a [Line]
    stroked in the colour of its first point, any other renders [null]. *)
Definition renderLines (lineSegments : list (list Chart.point)) : list (option Line.props) :=
  map (fun seg =>
         if (2 <=? List.length seg)%nat then
           match seg with
           | s0 :: _ =>
               Some {| Line.data := seg;
                       Line.stroke :=
                         getColorForCategory (categoryName (getCategory (Chart.uv s0))) |}
           | [] => None
           end
         else None)
      lineSegments.

(** The upper end of the Y axis, line 856:
    [Math.max(...chartData.map(d => d.uv), 11)]. *)
Definition yAxisMax (chartData : list Chart.point) : number :=
  fold_right Math_max (num 11) (map Chart.uv chartData).

(* ================================================================= *)
(** *** Skin types and the time to burn *)

(** src/components/skin-type-selector.tsx, lines 10-59 (the emoji of
    each entry is left out). *)
Module SkinTypeSelector.

Record SkinType : Type := {
  type : Z;
  name : string;
  description : string;
  burnTime : string;
  constant : Z;
}.

Definition skinTypes : list SkinType :=
  [ {| type := 1; name := "Type I";
       description := "Pale white skin, blue/green eyes, red/blonde hair";
       burnTime := "Burns easily, never tans"; constant := 200 |};
    {| type := 2; name := "Type II";
       description := "Fair skin, blue eyes";
       burnTime := "Burns easily, tans minimally"; constant := 250 |};
    {| type := 3; name := "Type III";
       description := "Fair to beige skin";
       burnTime := "Burns moderately, tans gradually"; constant := 350 |};
    {| type := 4; name := "Type IV";
       description := "Beige to light brown skin";
       burnTime := "Burns minimally, tans easily"; constant := 450 |};
    {| type := 5; name := "Type V";
       description := "Brown skin";
       burnTime := "Rarely burns, tans darkly"; constant := 600 |};
    {| type := 6; name := "Type VI";
       description := "Dark brown to black skin";
       burnTime := "Never burns, deeply pigmented"; constant := 1000 |} ].

End SkinTypeSelector.

(** [selectedSkinType] holds 3 (line 88) or the [type] of the entry of
    [skinTypes] the selector was clicked on: an integer. *)

(** [calculateTimeToBurn], lines 379-386. *)
Definition calculateTimeToBurn (selectedSkinType : Z) (uvIndex : number) : number :=
  match find (fun s => SkinTypeSelector.type s =? selectedSkinType)
             SkinTypeSelector.skinTypes with
  | None => num 60
  | Some skinTypeData =>
      if num_eqb uvIndex (num 0) then num 60 else
      let minutes := Math_floor (num_div (num (SkinTypeSelector.constant skinTypeData)) uvIndex) in
      Math_max (num 5) minutes
  end.

(** [getApiSafeExposureTime], lines 391-394. *)
Definition getApiSafeExposureTime (selectedSkinType : Z)
    (safeExposureTimes : list (string * value)) : value :=
  let key := ("st" ++ intToString selectedSkinType)%string in
  (VObj safeExposureTimes).[key] ?? VNull.

(** What the page passes to [TimeToBurnTimer], lines 704-708. *)
Module TimerProps.

Record props : Type := {
  minutes : value;
  skinType : Z;
  isApiData : bool;
}.

End TimerProps.


(* ================================================================= *)
(** *** Vocabulary of the statements on the rest of the dashboard *)

(** The envelope carries the forecast array [raws] where [fetchUVData]
    looks for it: at the top level (in any envelope), or inside [result]
    past the gate of line 177. *)
Definition deliversForecast (data : value) (raws : list value) : Prop :=
  data.["forecast"] = VArr raws \/
  (successEnvelope data /\ isArray data.["forecast"] = false /\
   data.["result"].["forecast"] = VArr raws).

(** What the data model asks of a stored point: a UV value that is a
    number, a timestamp that is set, and, when a sun position is there,
    both of its coordinates. *)
Definition wellFormed (pt : UVForecastPoint) : Prop :=
  isNaN (uv pt) = false /\ truthy (uv_time pt) = true /\
  match sun_position pt with
  | Some sp => isNaN (azimuth sp) = false /\ isNaN (altitude sp) = false
  | None => True
  end.

(** A run of refreshes, each with the clock it read and the response it
    got. *)
Definition refreshes (rt : Runtime) (rs : list (Z * result value)) (st : Dashboard)
    : Dashboard :=
  fold_left (fun st r => fst (fetchUVData rt (fst r) (snd r) st)) rs st.

(** A success envelope as the route builds it. *)
Definition envelope (res : value) (forecast : value) : value :=
  VObj [("success", VBool true); ("result", res); ("forecast", forecast)].

Definition currentReadings : value :=
  VObj [("uv", VNum (Finite (15 # 2))); ("uv_max", VNum (num 11));
        ("uv_max_time", VStr "2023-11-15T02:10:00.000Z");
        ("safe_exposure_time",
         VObj [("st1", VNum (num 22)); ("st2", VNum (num 27)); ("st3", VNum (num 36));
               ("st4", VNum (num 44)); ("st5", VNum (num 71)); ("st6", VNull)])].


(* ================================================================= *)
(** *** Protection advice and the gauge *)

Module Protection.

Record recommendation : Type := {
  icon : string;
  text : string;
  required : bool;
}.

Record advice : Type := {
  level : string;
  color : string;
  bgColor : string;
  borderColor : string;
  recommendations : list recommendation;
}.

End Protection.

(** [getProtectionRecommendations], lines 412-507. *)
Definition getProtectionRecommendations (uvIndex : number) : Protection.advice :=
  if num_ltb uvIndex (num 3) then
    {| Protection.level := "Low";
       Protection.color := "text-emerald-600";
       Protection.bgColor := "bg-emerald-50 dark:bg-emerald-950";
       Protection.borderColor := "border-emerald-200 dark:border-emerald-800";
       Protection.recommendations :=
         [ {| Protection.icon := "sunglasses"; Protection.text := "Sunglasses optional";
              Protection.required := false |};
           {| Protection.icon := "sunscreen"; Protection.text := "SPF 15+ if sensitive skin";
              Protection.required := false |};
           {| Protection.icon := "hat"; Protection.text := "Hat optional";
              Protection.required := false |};
           {| Protection.icon := "shade"; Protection.text := "No shade needed";
              Protection.required := false |} ] |}
  else if num_ltb uvIndex (num 6) then
    {| Protection.level := "Moderate";
       Protection.color := "text-amber-600";
       Protection.bgColor := "bg-amber-50 dark:bg-amber-950";
       Protection.borderColor := "border-amber-200 dark:border-amber-800";
       Protection.recommendations :=
         [ {| Protection.icon := "sunglasses"; Protection.text := "Wear sunglasses";
              Protection.required := true |};
           {| Protection.icon := "sunscreen"; Protection.text := "Apply SPF 30+ sunscreen";
              Protection.required := true |};
           {| Protection.icon := "hat"; Protection.text := "Wear a hat";
              Protection.required := true |};
           {| Protection.icon := "shade"; Protection.text := "Seek shade during midday";
              Protection.required := false |} ] |}
  else if num_ltb uvIndex (num 8) then
    {| Protection.level := "High";
       Protection.color := "text-orange-600";
       Protection.bgColor := "bg-orange-50 dark:bg-orange-950";
       Protection.borderColor := "border-orange-200 dark:border-orange-800";
       Protection.recommendations :=
         [ {| Protection.icon := "sunglasses";
              Protection.text := "UV-blocking sunglasses essential";
              Protection.required := true |};
           {| Protection.icon := "sunscreen"; Protection.text := "Apply SPF 50+ every 2 hours";
              Protection.required := true |};
           {| Protection.icon := "hat"; Protection.text := "Wide-brim hat required";
              Protection.required := true |};
           {| Protection.icon := "shade"; Protection.text := "Stay in shade 10am-4pm";
              Protection.required := true |} ] |}
  else if num_ltb uvIndex (num 11) then
    {| Protection.level := "Very High";
       Protection.color := "text-red-600";
       Protection.bgColor := "bg-red-50 dark:bg-red-950";
       Protection.borderColor := "border-red-200 dark:border-red-800";
       Protection.recommendations :=
         [ {| Protection.icon := "sunglasses";
              Protection.text := "Maximum UV protection eyewear";
              Protection.required := true |};
           {| Protection.icon := "sunscreen"; Protection.text := "SPF 50+ reapply every 90 mins";
              Protection.required := true |};
           {| Protection.icon := "hat"; Protection.text := "Wide-brim hat + neck cover";
              Protection.required := true |};
           {| Protection.icon := "shade"; Protection.text := "Avoid sun 10am-4pm";
              Protection.required := true |} ] |}
  else
    {| Protection.level := "Extreme";
       Protection.color := "text-purple-600";
       Protection.bgColor := "bg-purple-50 dark:bg-purple-950";
       Protection.borderColor := "border-purple-200 dark:border-purple-800";
       Protection.recommendations :=
         [ {| Protection.icon := "sunglasses";
              Protection.text := "Maximum UV protection eyewear";
              Protection.required := true |};
           {| Protection.icon := "sunscreen"; Protection.text := "SPF 50+ every hour";
              Protection.required := true |};
           {| Protection.icon := "hat"; Protection.text := "Full coverage headwear";
              Protection.required := true |};
           {| Protection.icon := "shade"; Protection.text := "Stay indoors if possible";
              Protection.required := true |} ] |}.

(** src/components/uv-gauge.tsx, lines 10-34. *)
Module UVGauge.

Record UVLevel : Type := {
  level : string;
  color : string;
}.




Definition getUVLevel (uv : number) : UVLevel :=
  if num_leb uv (num 2) then {| level := "Low"; color := "#10b981" |}
  else if num_leb uv (num 5) then {| level := "Moderate"; color := "#f59e0b" |}
  else if num_leb uv (num 7) then {| level := "High"; color := "#ef4444" |}
  else if num_leb uv (num 10) then {| level := "Very High"; color := "#dc2626" |}
  else {| level := "Extreme"; color := "#7c2d12" |}.

End UVGauge.

(** The name the advice card and the gauge print for a category. *)
Definition levelName (c : Category) : string :=
  match c with
  | low => "Low"
  | moderate => "Moderate"
  | high => "High"
  | veryHigh => "Very High"
  | extreme => "Extreme"
  end.

(** The UV index lies strictly between two whole numbers [k] and [k + 1]
    with [k] one of 2, 5, 7 and 10. *)
Definition betweenLevels (q : Q) : Prop :=
  (2 < q /\ q < 3)%Q \/ (5 < q /\ q < 6)%Q \/ (7 < q /\ q < 8)%Q \/ (10 < q /\ q < 11)%Q.

(** Which items of a recommendation list are required, by icon. *)
Definition requiredIcons (a : Protection.advice) : list string :=
  map Protection.icon (filter Protection.required (Protection.recommendations a)).

(* ================================================================= *)
(** *** The countdown (src/components/time-to-burn-timer.tsx) *)

Module TimeToBurnTimer.

(** The two pieces of state, lines 14-15. *)
Record State : Type := {
  secondsRemaining : number;
  isActive : bool;
}.

(** The state on mount, and after the effect of lines 17-20 has run for
    a new value of [minutes]. *)
Definition start (minutes : number) : State :=
  {| secondsRemaining := num_mul minutes (num 60); isActive := true |}.






End TimeToBurnTimer.

(* ================================================================= *)
(** *** The nearest city (location selector, second document of
    src/components/uv-gauge.tsx) *)

Module LocationSelector.

Record LocationData : Type := {
  city : string;
  state : string;
  country : string;
  lat : number;
  lon : number;
}.

(** A decimal literal with four fractional digits. *)
Definition deg (tenThousandths : Z) : number := Finite (tenThousandths # 10000).

(** Lines 173-182. *)
Definition sydney : LocationData :=
  {| city := "Sydney"; state := "NSW"; country := "Australia";
     lat := deg (-338688); lon := deg 1512093 |}.

Definition popularLocations : list LocationData :=
  [ sydney;
    {| city := "Melbourne"; state := "VIC"; country := "Australia";
       lat := deg (-378136); lon := deg 1449631 |};
    {| city := "Brisbane"; state := "QLD"; country := "Australia";
       lat := deg (-274698); lon := deg 1530251 |};
    {| city := "Perth"; state := "WA"; country := "Australia";
       lat := deg (-319523); lon := deg 1158613 |};
    {| city := "Adelaide"; state := "SA"; country := "Australia";
       lat := deg (-349285); lon := deg 1386007 |};
    {| city := "Gold Coast"; state := "QLD"; country := "Australia";
       lat := deg (-280167); lon := deg 1534000 |};
    {| city := "Canberra"; state := "ACT"; country := "Australia";
       lat := deg (-352809); lon := deg 1491300 |};
    {| city := "Newcastle"; state := "NSW"; country := "Australia";
       lat := deg (-329283); lon := deg 1517817 |} ].

Section Nearest.

(** [calculateDistance], lines 266-278, is the haversine formula in
    binary64 trigonometry; the search is stated over any such function. *)
Variable calculateDistance : number -> number -> number -> number -> number.

(** The distance from the position to a city, as lines 253 and 256
    ask for it. *)
Definition distanceTo (lat0 lon0 : number) (c : LocationData) : number :=
  calculateDistance lat0 lon0 (lat c) (lon c).

(** One iteration of the loop at lines 255-260, on the variables
    [nearest] and [minDistance]. *)
Definition step (lat0 lon0 : number) (acc : LocationData * number)
    (city : LocationData) : LocationData * number :=
  let '(nearest, minDistance) := acc in
  let distance := distanceTo lat0 lon0 city in
  if num_ltb distance minDistance then (city, distance) else (nearest, minDistance).

(** [findNearestCity], lines 251-264; [popularLocations[0]] is Sydney. *)
Definition findNearestCity (lat0 lon0 : number) : LocationData :=
  let nearest := sydney in
  let minDistance := distanceTo lat0 lon0 nearest in
  fst (fold_left (step lat0 lon0) popularLocations (nearest, minDistance)).

End Nearest.

End LocationSelector.

(* ================================================================= *)
(** *** More vocabulary *)

(** The place of a category on the scale. *)
Definition rank (c : Category) : nat :=
  match c with
  | low => 0
  | moderate => 1
  | high => 2
  | veryHigh => 3
  | extreme => 4
  end.

(** The time value of a stored point lies between [a] and [b]. *)
Definition timeWithin (rt : Runtime) (a b : Z) (p : UVForecastPoint) : Prop :=
  exists t, newDate rt (uv_time p) = Ok (Some t) /\ a <= t <= b.

(** [l1] is [l2] with some elements left out. *)
Inductive sublist {A : Type} : list A -> list A -> Prop :=
| sublist_nil : sublist [] []
| sublist_skip x l1 l2 : sublist l1 l2 -> sublist l1 (x :: l2)
| sublist_keep x l1 l2 : sublist l1 l2 -> sublist (x :: l1) (x :: l2).

(** Not an object and not an array. *)
Definition primitive (v : value) : bool :=
  match v with
  | VObj _ | VArr _ => false
  | _ => true
  end.

(** A record of scalars: the time-like field is a string, missing, or a
    number within the range of Date, and the UV field and the two
    coordinates of the sun position, where present, are not objects. *)
Definition scalarRecord (p : value) : Prop :=
  plainTime p = true /\
  (forall n, timeField p = VNum n -> num_gtb n (num 8640000000000000) = false) /\
  primitive (uvField p) = true /\
  primitive ((p.["sun_position"] ?? p.["sunPosition"] ?? VNull).["azimuth"]
             ?? (p.["sun_position"] ?? p.["sunPosition"] ?? VNull).["az"]
             ?? (p.["sun_position"] ?? p.["sunPosition"] ?? VNull).["a"]) = true /\
  primitive ((p.["sun_position"] ?? p.["sunPosition"] ?? VNull).["altitude"]
             ?? (p.["sun_position"] ?? p.["sunPosition"] ?? VNull).["alt"]
             ?? (p.["sun_position"] ?? p.["sunPosition"] ?? VNull).["h"]) = true.

(* ================================================================= *)
(** * Theorems *)

Import DateTime.

(** ** Calendar arithmetic and the ISO round trip *)

Module DateFacts.
Import DateTime.

Lemma step_div (a k : Z) : 0 < k ->
  (a + 1) / k = a / k + (if (a + 1) mod k =? 0 then 1 else 0).
Proof.
  intros Hk. destruct (Z.eqb_spec ((a + 1) mod k) 0); Z.div_mod_to_equations; nia.
Qed.

Lemma DayFromYear_succ y : DayFromYear (y + 1) = DayFromYear y + DaysInYear y.
Proof.
  unfold DayFromYear, DaysInYear.
  replace (y + 1 - 1969) with (y - 1969 + 1) by lia.
  replace (y + 1 - 1901) with (y - 1901 + 1) by lia.
  replace (y + 1 - 1601) with (y - 1601 + 1) by lia.
  rewrite !step_div by lia.
  replace (y - 1969 + 1) with (y + (-492) * 4) by lia.
  replace (y - 1901 + 1) with (y + (-19) * 100) by lia.
  replace (y - 1601 + 1) with (y + (-4) * 400) by lia.
  rewrite !Z.mod_add by lia.
  assert (H1 : y mod 100 = 0 -> y mod 4 = 0).
  { intros. Z.div_mod_to_equations. lia. }
  assert (H2 : y mod 400 = 0 -> y mod 100 = 0).
  { intros. Z.div_mod_to_equations. lia. }
  destruct (Z.eqb_spec (y mod 4) 0), (Z.eqb_spec (y mod 100) 0),
    (Z.eqb_spec (y mod 400) 0); cbn [negb]; lia.
Qed.

Lemma year_of_day_spec d :
  DayFromYear (year_of_day d) <= d < DayFromYear (year_of_day d + 1).
Proof.
  unfold year_of_day.
  destruct (Z.ltb_spec d (DayFromYear (1970 + 400 * d / 146097))).
  - split.
    + unfold DayFromYear in *. Z.div_mod_to_equations. lia.
    + replace (1970 + 400 * d / 146097 - 1 + 1) with (1970 + 400 * d / 146097) by lia.
      lia.
  - destruct (Z.leb_spec (DayFromYear (1970 + 400 * d / 146097 + 1)) d).
    + split; [lia|]. unfold DayFromYear in *. Z.div_mod_to_equations. lia.
    + lia.
Qed.

Lemma DayFromYear_lt y y' : y < y' -> DayFromYear y < DayFromYear y'.
Proof. unfold DayFromYear. intros H. Z.div_mod_to_equations. lia. Qed.

(** [year_of_day d] is the largest year that starts on or before day [d]:
    it is YearFromTime as ECMA-262 defines it. *)
Lemma year_of_day_largest d y :
  DayFromYear y <= d -> y <= year_of_day d.
Proof.
  intros H. destruct (year_of_day_spec d) as [_ Hlt].
  destruct (Z.le_gt_cases y (year_of_day d)) as [Hle|Hgt]; [exact Hle|].
  destruct (Z.eq_dec (year_of_day d + 1) y) as [E|N].
  - subst y. lia.
  - pose proof (DayFromYear_lt (year_of_day d + 1) y ltac:(lia)). lia.
Qed.

Lemma year_of_day_range d :
  -100000000 <= d <= 100000000 -> -999999 <= year_of_day d <= 999999.
Proof.
  intros Hd. unfold year_of_day.
  destruct (d <? _); [|destruct (_ <=? d)]; Z.div_mod_to_equations; lia.
Qed.

Lemma DaysInYear_cases y : DaysInYear y = 365 + leap y /\ (leap y = 0 \/ leap y = 1).
Proof.
  unfold leap, DaysInYear.
  destruct (negb (y mod 4 =? 0)); [cbn; lia|].
  destruct (negb (y mod 100 =? 0)); [cbn; lia|].
  destruct (negb (y mod 400 =? 0)); cbn; lia.
Qed.

Lemma DayWithinYear_range t :
  0 <= DayWithinYear t < 365 + InLeapYear t.
Proof.
  unfold DayWithinYear, InLeapYear, YearFromTime.
  pose proof (year_of_day_spec (Day t)) as H.
  rewrite DayFromYear_succ in H.
  destruct (DaysInYear_cases (year_of_day (Day t))) as [E _]. lia.
Qed.

Lemma InLeapYear_cases t : InLeapYear t = 0 \/ InLeapYear t = 1.
Proof. unfold InLeapYear. apply DaysInYear_cases. Qed.

Lemma month_date_range t :
  0 <= MonthFromTime t <= 11 /\
  1 <= DateFromTime t <=
    DaysBeforeMonth (MonthFromTime t + 1) (InLeapYear t)
    - DaysBeforeMonth (MonthFromTime t) (InLeapYear t).
Proof.
  unfold DateFromTime, MonthFromTime, month_of_yday.
  pose proof (DayWithinYear_range t) as Hd.
  destruct (InLeapYear_cases t) as [El|El]; rewrite El in *;
  repeat match goal with
  | |- context [if ?a <? ?b then _ else _] => destruct (Z.ltb_spec a b)
  end; cbn; lia.
Qed.


Lemma digit_cases d : 0 <= d < 10 ->
  d = 0 \/ d = 1 \/ d = 2 \/ d = 3 \/ d = 4 \/ d = 5 \/ d = 6 \/ d = 7 \/ d = 8 \/ d = 9.
Proof. lia. Qed.

Lemma digitVal_digitChar d : 0 <= d < 10 -> digitVal (digitChar d) = Some d.
Proof.
  intros H. destruct (digit_cases d H) as [E|[E|[E|[E|[E|[E|[E|[E|[E|E]]]]]]]]];
    subst d; reflexivity.
Qed.

Lemma digitChar_not_sign d : 0 <= d < 10 ->
  Ascii.eqb (digitChar d) "+" = false /\ Ascii.eqb (digitChar d) "-" = false.
Proof.
  intros H. destruct (digit_cases d H) as [E|[E|[E|[E|[E|[E|[E|[E|[E|E]]]]]]]]];
    subst d; split; reflexivity.
Qed.

Lemma pow10_pos k : 0 < 10 ^ Z.of_nat k.
Proof. apply Z.pow_pos_nonneg; lia. Qed.

Lemma pow10_succ k : 10 ^ Z.of_nat (S k) = 10 * 10 ^ Z.of_nat k.
Proof. rewrite Nat2Z.inj_succ, Z.pow_succ_r by lia. reflexivity. Qed.

Lemma readDigits_pad k : forall n acc rest,
  0 <= n < 10 ^ Z.of_nat k ->
  readDigits k acc (pad k n ++ rest) = Some (acc * 10 ^ Z.of_nat k + n, rest).
Proof.
  induction k as [|k IH]; intros n acc rest Hn.
  - cbn in *. f_equal. f_equal. lia.
  - rewrite pow10_succ in Hn. pose proof (pow10_pos k) as Hp.
    cbn [pad readDigits append].
    assert (Hd : 0 <= n / 10 ^ Z.of_nat k < 10).
    { split; [apply Z.div_pos; lia | apply Z.div_lt_upper_bound; lia]. }
    rewrite (digitVal_digitChar _ Hd).
    rewrite IH by (apply Z.mod_pos_bound; lia).
    f_equal. f_equal. rewrite pow10_succ.
    pose proof (Z.div_mod n (10 ^ Z.of_nat k) ltac:(lia)). nia.
Qed.

Lemma parse_year_yearString y rest :
  -999999 <= y <= 999999 ->
  parse_year (yearString y ++ rest) = Some (y, rest).
Proof.
  intros Hy. unfold yearString.
  destruct (Z.leb_spec 0 y) as [H0|H0]; cbn [andb].
  - destruct (Z.leb_spec y 9999) as [H9|H9].
    + assert (Hd : 0 <= y / 10 ^ Z.of_nat 3 < 10).
      { change (10 ^ Z.of_nat 3) with 1000. split;
          [apply Z.div_pos; lia | apply Z.div_lt_upper_bound; lia]. }
      destruct (digitChar_not_sign _ Hd) as [Ep Em].
      unfold parse_year.
      change (pad 4 y) with
        (String (digitChar (y / 10 ^ Z.of_nat 3)) (pad 3 (y mod 10 ^ Z.of_nat 3))).
      cbn [append]. rewrite Ep, Em.
      change (String (digitChar (y / 10 ^ Z.of_nat 3))
                (pad 3 (y mod 10 ^ Z.of_nat 3) ++ rest)%string)
        with (pad 4 y ++ rest)%string.
      rewrite readDigits_pad by (change (10 ^ Z.of_nat 4) with 10000; lia).
      reflexivity.
    + destruct (Z.ltb_spec y 0); [lia|].
      cbn [append parse_year]. change (Ascii.eqb "+" "+") with true. cbn iota.
      rewrite readDigits_pad by (change (10 ^ Z.of_nat 6) with 1000000; lia).
      f_equal. f_equal. lia.
  - destruct (Z.ltb_spec y 0); [|lia].
    cbn [append parse_year]. change (Ascii.eqb "-" "+") with false.
    change (Ascii.eqb "-" "-") with true. cbn iota.
    rewrite readDigits_pad by (change (10 ^ Z.of_nat 6) with 1000000; lia).
    cbn [obind]. replace (0 * 10 ^ Z.of_nat 6 + Z.abs y) with (Z.abs y) by lia.
    destruct (Z.eqb_spec (Z.abs y) 0); [lia|]. f_equal. f_equal. lia.
Qed.

Lemma time_fields t :
  0 <= HourFromTime t <= 23 /\ 0 <= MinFromTime t <= 59 /\
  0 <= SecFromTime t <= 59 /\ 0 <= msFromTime t <= 999 /\
  MakeTime (HourFromTime t) (MinFromTime t) (SecFromTime t) (msFromTime t)
  = TimeWithinDay t.
Proof.
  unfold HourFromTime, MinFromTime, SecFromTime, msFromTime, MakeTime,
    TimeWithinDay, msPerHour, msPerMinute, msPerSecond, msPerDay.
  Z.div_mod_to_equations. lia.
Qed.

Lemma Day_range t : - maxTime <= t <= maxTime -> -100000000 <= Day t <= 100000000.
Proof.
  unfold Day, maxTime, msPerDay. intros H. Z.div_mod_to_equations. lia.
Qed.

Ltac separator := cbn [obind expect append]; rewrite ?Ascii.eqb_refl; cbn [obind].

(** [Date.parse] inverts [toISOString] on every valid time value. *)
Theorem parse_isoFormat t :
  - maxTime <= t <= maxTime -> parse_canonical (isoFormat t) = Some (Some t).
Proof.
  intros Ht.
  pose proof (year_of_day_range _ (Day_range _ Ht)) as Hy.
  destruct (month_date_range t) as [Hm Hd].
  destruct (time_fields t) as (Hh & Hmi & Hs & Hms & Etime).
  assert (Hdd : DateFromTime t <= 31).
  { destruct (InLeapYear_cases t) as [El|El]; rewrite El in Hd;
    assert (Hc : MonthFromTime t = 0 \/ MonthFromTime t = 1 \/ MonthFromTime t = 2 \/
      MonthFromTime t = 3 \/ MonthFromTime t = 4 \/ MonthFromTime t = 5 \/
      MonthFromTime t = 6 \/ MonthFromTime t = 7 \/ MonthFromTime t = 8 \/
      MonthFromTime t = 9 \/ MonthFromTime t = 10 \/ MonthFromTime t = 11) by lia;
    destruct Hc as [E|[E|[E|[E|[E|[E|[E|[E|[E|[E|[E|E]]]]]]]]]]];
    rewrite E in Hd; cbn in Hd; lia. }
  unfold parse_canonical, canonical_fields, isoFormat.
  rewrite parse_year_yearString by exact Hy.
  do 5 (separator; rewrite readDigits_pad by (change (10 ^ Z.of_nat 2) with 100; lia)).
  separator; rewrite readDigits_pad by (change (10 ^ Z.of_nat 3) with 1000; lia).
  separator.
  change (0 * 10 ^ Z.of_nat 2) with 0. change (0 * 10 ^ Z.of_nat 3) with 0.
  rewrite !Z.add_0_l.
  replace (MonthFromTime t + 1 - 1) with (MonthFromTime t) by lia.
  assert (Hr : fields_in_range (YearFromTime t) (MonthFromTime t + 1) (DateFromTime t)
                 (HourFromTime t) (MinFromTime t) (SecFromTime t) = true).
  { unfold fields_in_range.
    replace (MonthFromTime t + 1 - 1) with (MonthFromTime t) by lia.
    fold (InLeapYear t).
    repeat (apply andb_true_intro; split); apply Z.leb_le; lia. }
  rewrite Hr. f_equal.
  rewrite Etime. unfold MakeDay, DateFromTime. fold (InLeapYear t).
  replace (MakeDate _ _) with t.
  - unfold TimeClip. destruct (Z.leb_spec (Z.abs t) maxTime); [reflexivity|lia].
  - unfold MakeDate, DayWithinYear, TimeWithinDay, Day.
    pose proof (Z.div_mod t msPerDay ltac:(unfold msPerDay; lia)). lia.
Qed.

End DateFacts.

Import DateFacts.

(** ** The normaliser *)

Section NormaliserFacts.

Variable rt : Runtime.

Lemma TimeClip_Some t t' : TimeClip t = Some t' -> t' = t /\ validTime t.
Proof.
  unfold TimeClip, validTime. destruct (Z.leb_spec (Z.abs t) maxTime); [|discriminate].
  intros [= <-]. lia.
Qed.

Lemma parse_canonical_valid s t : parse_canonical s = Some (Some t) -> validTime t.
Proof.
  unfold parse_canonical. destruct (canonical_fields s) as [[[[[[[y mo] d] h] mi] sec] ms]|];
    cbn [obind]; [|discriminate].
  destruct (fields_in_range _ _ _ _ _ _); [|discriminate].
  intros [= H]. apply TimeClip_Some in H. destruct H as [-> H]. exact H.
Qed.

Lemma Date_parse_valid s t : Date_parse rt s = Some t -> validTime t.
Proof.
  unfold Date_parse. destruct (parse_canonical s) as [[t'|]|] eqn:E.
  - intros [= <-]. eapply parse_canonical_valid; eauto.
  - discriminate.
  - destruct (parseOther rt s); [|discriminate]. intros H.
    apply TimeClip_Some in H. destruct H as [-> H]. exact H.
Qed.

Lemma Date_parse_iso t : validTime t -> Date_parse rt (isoFormat t) = Some t.
Proof.
  intros H. unfold Date_parse. rewrite parse_isoFormat by exact H. reflexivity.
Qed.

Lemma newDate_iso t : validTime t -> newDate rt (VStr (isoFormat t)) = Ok (Some t).
Proof. intros H. cbn. rewrite Date_parse_iso by exact H. reflexivity. Qed.

Lemma trunc_bound q m :
  0 <= m -> Qle_bool (Qabs q) (inject_Z m) = true -> - m <= trunc q <= m.
Proof.
  intros Hm H. apply Qle_bool_iff in H.
  destruct q as [n d]. unfold Qle, Qabs, inject_Z, trunc in *. cbn in *.
  assert (Hq : Z.abs (Z.quot n (Z.pos d)) <= m).
  { rewrite <- Z.quot_abs by lia. change (Z.abs (Z.pos d)) with (Z.pos d).
    apply Z.quot_le_upper_bound; lia. }
  lia.
Qed.

Lemma clipNumber_valid n t : clipNumber n = Some t -> validTime t.
Proof.
  destruct n as [| | |q]; cbn; try discriminate.
  destruct (Qle_bool (Qabs q) (inject_Z maxTime)) eqn:E; [|discriminate].
  intros [= <-]. apply trunc_bound; [unfold maxTime; lia | exact E].
Qed.

Lemma clipNumber_Finite q :
  (Qabs q <= inject_Z maxTime)%Q -> clipNumber (Finite q) = Some (trunc q).
Proof.
  intros H. cbn. apply Qle_bool_iff in H. rewrite H. reflexivity.
Qed.

Lemma resolveString_iso t :
  validTime t -> resolveString rt (VStr (isoFormat t)) = Ok (Some (VStr (isoFormat t))).
Proof.
  intros H. unfold resolveString. rewrite Date_parse_iso by exact H. reflexivity.
Qed.

Lemma resolveString_string s v :
  resolveString rt (VStr s) = Ok (Some v) ->
  exists t, validTime t /\ v = VStr (isoFormat t) /\
            (Date_parse rt s = Some t \/
             (Date_parse rt s = None /\ Date_parse rt (s ++ "Z") = Some t)).
Proof.
  unfold resolveString.
  destruct (Date_parse rt s) as [t|] eqn:E1; cbn.
  - intros [= <-]. exists t. split; [eapply Date_parse_valid; eauto|]. auto.
  - destruct (Date_parse rt (s ++ "Z")) as [t|] eqn:E2; cbn; [|discriminate].
    intros [= <-]. exists t. split; [eapply Date_parse_valid; eauto|]. auto.
Qed.

Lemma num_gtb_Finite q z :
  num_gtb (Finite q) (num z) = true <-> (inject_Z z < q)%Q.
Proof.
  unfold num_gtb, num, num_ltb. rewrite negb_true_iff.
  split; intros H.
  - apply Qnot_le_lt. intros Hle. apply Qle_bool_iff in Hle. congruence.
  - destruct (Qle_bool q (inject_Z z)) eqn:E; [|reflexivity].
    apply Qle_bool_iff in E. exfalso. eapply Qlt_not_le; eauto.
Qed.

Lemma num_gtb_Finite_false q z :
  num_gtb (Finite q) (num z) = false <-> (q <= inject_Z z)%Q.
Proof.
  rewrite <- not_true_iff_false, num_gtb_Finite. split; intros H.
  - apply Qnot_lt_le. exact H.
  - apply Qle_not_lt. exact H.
Qed.

End NormaliserFacts.

Section NormaliserTheorems.

Variable rt : Runtime.

Lemma Qabs_le_pos q m : (0 <= q)%Q -> (q <= m)%Q -> (Qabs q <= m)%Q.
Proof. intros H0 Hm. rewrite Qabs_pos; assumption. Qed.

(** A number above 1e12 and within the Date range is read as milliseconds. *)
Lemma resolve_milliseconds p q :
  timeField p = VNum (Finite q) ->
  (1000000000000 < q)%Q -> (q <= 8640000000000000)%Q ->
  resolvesTo rt p (trunc q).
Proof.
  intros Hts Hlo Hhi.
  assert (Hc : clipNumber (Finite q) = Some (trunc q)).
  { apply clipNumber_Finite. apply Qabs_le_pos; [|exact Hhi].
    apply Qlt_le_weak. eapply Qlt_trans; [|exact Hlo]. reflexivity. }
  pose proof (clipNumber_valid _ _ Hc) as Hv.
  split; [|apply newDate_iso; exact Hv].
  unfold resolveTimestamp. rewrite Hts. unfold resolveNumber.
  apply (num_gtb_Finite q 1000000000000) in Hlo. rewrite Hlo, Hc.
  cbn [toISOString bind]. apply resolveString_iso. exact Hv.
Qed.

(** A number above 1e9 and up to 1e12 is read as seconds. *)
Lemma resolve_seconds p q :
  timeField p = VNum (Finite q) ->
  (1000000000 < q)%Q -> (q <= 1000000000000)%Q ->
  resolvesTo rt p (trunc (q * 1000)).
Proof.
  intros Hts Hlo Hhi.
  assert (Hc : clipNumber (Finite (q * 1000)) = Some (trunc (q * 1000))).
  { apply clipNumber_Finite. apply Qabs_le_pos.
    - apply Qmult_le_0_compat; [|discriminate].
      apply Qlt_le_weak. eapply Qlt_trans; [|exact Hlo]. reflexivity.
    - apply Qle_trans with (1000000000000 * 1000)%Q; [|discriminate].
      apply Qmult_le_compat_r; [exact Hhi | discriminate]. }
  pose proof (clipNumber_valid _ _ Hc) as Hv.
  split; [|apply newDate_iso; exact Hv].
  unfold resolveTimestamp. rewrite Hts. unfold resolveNumber.
  apply (num_gtb_Finite_false q 1000000000000) in Hhi. rewrite Hhi.
  apply (num_gtb_Finite q 1000000000) in Hlo. rewrite Hlo.
  change (num_mul (Finite q) (num 1000)) with (Finite (q * 1000)). rewrite Hc.
  cbn [toISOString bind]. apply resolveString_iso. exact Hv.
Qed.

(** A number up to 1e9 leaves [ts] null, and no point is built. *)
Lemma resolve_small p q :
  timeField p = VNum (Finite q) -> (q <= 1000000000)%Q ->
  resolveTimestamp rt p = Ok (Some VNull) /\ rejects rt p.
Proof.
  intros Hts Hhi.
  assert (Hr : resolveTimestamp rt p = Ok (Some VNull)).
  { unfold resolveTimestamp. rewrite Hts. unfold resolveNumber.
    assert (H12 : (q <= 1000000000000)%Q).
    { eapply Qle_trans; [exact Hhi | discriminate]. }
    apply (num_gtb_Finite_false q 1000000000000) in H12. rewrite H12.
    apply (num_gtb_Finite_false q 1000000000) in Hhi. rewrite Hhi. reflexivity. }
  split; [exact Hr|].
  unfold rejects, normalizePoint. rewrite Hr.
  destruct (negb (truthy p)); [exact I|]. cbn [bind].
  destruct (nullish (uvField p)); [exact I|].
  destruct (ToNumber rt (uvField p)) as [uvNum|e]; cbn [bind]; [|exact I].
  destruct (isNaN uvNum); [exact I|].
  destruct (resolveSunPosition rt p) as [sun|e]; cbn [bind]; exact I.
Qed.

Lemma trunc_Qeq q z : (q == inject_Z z)%Q -> trunc q = z.
Proof.
  destruct q as [n d]. unfold Qeq, trunc. cbn. intros H.
  replace n with (z * Z.pos d) by lia. apply Z.quot_mul. lia.
Qed.

(** What a point carries was resolved from the record. *)
Lemma normalizePoint_fields p pt :
  normalizePoint rt p = Ok (Some pt) ->
  resolveTimestamp rt p = Ok (Some (uv_time pt)) /\ truthy (uv_time pt) = true /\
  nullish (uvField p) = false /\ ToNumber rt (uvField p) = Ok (uv pt) /\
  isNaN (uv pt) = false /\ resolveSunPosition rt p = Ok (sun_position pt).
Proof.
  unfold normalizePoint.
  destruct (negb (truthy p)); [discriminate|].
  destruct (resolveTimestamp rt p) as [[ts|]|e]; cbn [bind]; try discriminate.
  destruct (nullish (uvField p)); [discriminate|].
  destruct (ToNumber rt (uvField p)) as [uvNum|e]; cbn [bind]; [|discriminate].
  destruct (isNaN uvNum) eqn:En; [discriminate|].
  destruct (resolveSunPosition rt p) as [sun|e]; cbn [bind]; [|discriminate].
  destruct (truthy ts) eqn:Et; cbn [negb]; [|discriminate].
  intros [= <-]. cbn. repeat split; auto.
Qed.

Lemma normalizePoint_build p ts uvNum sun :
  truthy p = true ->
  resolveTimestamp rt p = Ok (Some ts) -> truthy ts = true ->
  nullish (uvField p) = false -> ToNumber rt (uvField p) = Ok uvNum ->
  isNaN uvNum = false -> resolveSunPosition rt p = Ok sun ->
  normalizePoint rt p = Ok (Some {| uv := uvNum; uv_time := ts; sun_position := sun |}).
Proof.
  intros Hp Hts Ht Hn Hu Hnan Hs. unfold normalizePoint.
  rewrite Hp, Hts. cbn [negb bind]. rewrite Hn, Hu. cbn [bind].
  rewrite Hnan, Hs. cbn [bind]. rewrite Ht. reflexivity.
Qed.

End NormaliserTheorems.




(** C3 (amended).  A numeric timestamp equal to 1e9 is rejected (the
    seconds bucket excludes its lower bound) and one equal to 1e12 is read
    as seconds, the instant 1e15 ms (the milliseconds bucket excludes its
    lower bound). *)
Theorem bucket_boundaries (rt : Runtime) (p : value) (q : Q) :
  timeField p = VNum (Finite q) ->
  ((q == 1000000000)%Q -> rejects rt p) /\
  ((q == 1000000000000)%Q -> resolvesTo rt p 1000000000000000).
Proof.
  intros Hts. split; intros Hq.
  - apply (resolve_small rt p q); [exact Hts|]. rewrite Hq. discriminate.
  - replace 1000000000000000 with (trunc (q * 1000)).
    + apply resolve_seconds; [exact Hts| |]; rewrite Hq; [reflexivity|discriminate].
    + apply trunc_Qeq. rewrite Hq. reflexivity.
Qed.

Lemma bucket_boundaries_witness :
  rejects RefEngine.engine (numericRecord 1000000000) /\
  resolvesTo RefEngine.engine (numericRecord 1000000000000) 1000000000000000.
Proof.
  split.
  - apply (proj1 (bucket_boundaries RefEngine.engine (numericRecord 1000000000)
                    (inject_Z 1000000000) eq_refl)). reflexivity.
  - apply (proj2 (bucket_boundaries RefEngine.engine (numericRecord 1000000000000)
                    (inject_Z 1000000000000) eq_refl)). reflexivity.
Defined.

(** C3 as stated fails at both boundaries: 1e9 is not read as seconds
    (no point is returned) and 1e12 is not read as milliseconds (the point
    carries the year 33658, not 2001). *)
Lemma boundaries_are_exclusive :
  normalizePoint RefEngine.engine (numericRecord 1000000000) = Ok None /\
  normalizePoint RefEngine.engine (numericRecord 1000000000000)
  = Ok (Some {| uv := num 5; uv_time := VStr "+033658-09-27T01:46:40.000Z";
                sun_position := None |}) /\
  isoFormat 1000000000000 = "2001-09-09T01:46:40.000Z".
Proof. repeat split; reflexivity. Qed.

Section Canonical.

Variable rt : Runtime.

Lemma resolveNumber_shape n v :
  resolveNumber (VNum n) = Ok v ->
  v = VNull \/ exists t, validTime t /\ v = VStr (isoFormat t).
Proof.
  unfold resolveNumber.
  destruct (num_gtb n (num 1000000000000)).
  - destruct (clipNumber n) as [t|] eqn:E; cbn; [|discriminate].
    intros [= <-]. right. exists t. split; [eapply clipNumber_valid; eauto | reflexivity].
  - destruct (num_gtb n (num 1000000000)).
    + destruct (clipNumber (num_mul n (num 1000))) as [t|] eqn:E; cbn; [|discriminate].
      intros [= <-]. right. exists t. split; [eapply clipNumber_valid; eauto | reflexivity].
    + intros [= <-]. left. reflexivity.
Qed.

(** A timestamp resolved from a number or a string is the ISO string of a
    valid time value, and reads back as that value. *)
Lemma resolveTimestamp_plain p v :
  plainTime p = true -> resolveTimestamp rt p = Ok (Some v) -> truthy v = true ->
  exists t, validTime t /\ v = VStr (isoFormat t) /\ newDate rt v = Ok (Some t).
Proof.
  unfold plainTime, resolveTimestamp.
  destruct (timeField p) as [| |b|n|s|f|a] eqn:E; try discriminate; intros _.
  - cbn. intros [= <-]. discriminate.
  - cbn. intros [= <-]. discriminate.
  - destruct (resolveNumber (VNum n)) as [w|e] eqn:En; cbn [bind]; [|discriminate].
    destruct (resolveNumber_shape _ _ En) as [->|(t & Hv & ->)].
    + cbn. intros [= <-]. discriminate.
    + rewrite resolveString_iso by exact Hv. intros [= <-] _.
      exists t. split; [exact Hv|]. split; [reflexivity|]. apply newDate_iso. exact Hv.
  - cbn [resolveNumber bind]. intros Hs _.
    destruct (resolveString_string rt _ _ Hs) as (t & Hv & -> & _).
    exists t. split; [exact Hv|]. split; [reflexivity|]. apply newDate_iso. exact Hv.
Qed.

Lemma normalizePoint_plain p pt :
  plainTime p = true -> normalizePoint rt p = Ok (Some pt) ->
  exists t, validTime t /\ uv_time pt = VStr (isoFormat t) /\
            newDate rt (uv_time pt) = Ok (Some t).
Proof.
  intros Hp H. destruct (normalizePoint_fields rt p pt H) as (Hts & Ht & _).
  eapply resolveTimestamp_plain; eauto.
Qed.

End Canonical.

(** C8.  When a record's time-like field is a string and normalisation
    returns a point, the point's timestamp is the ISO string of an instant
    [t]; every record carrying that string resolves to the same string and
    instant, and the record itself, with [uv_time] replaced by it,
    normalises to the same point. *)
Theorem timestamp_idempotent (rt : Runtime) (fields : list (string * value))
    (s : string) (pt : UVForecastPoint) :
  timeField (VObj fields) = VStr s ->
  normalizePoint rt (VObj fields) = Ok (Some pt) ->
  exists t,
    uv_time pt = VStr (isoFormat t) /\
    newDate rt (uv_time pt) = Ok (Some t) /\
    (forall p', timeField p' = uv_time pt -> resolvesTo rt p' t) /\
    normalizePoint rt (VObj (("uv_time", uv_time pt) :: fields)) = Ok (Some pt).
Proof.
  intros Hs Hn.
  destruct (normalizePoint_fields rt _ _ Hn) as (Hts & Ht & Hu & Hnum & Hnan & Hsun).
  destruct (normalizePoint_plain rt _ _ ltac:(unfold plainTime; rewrite Hs; reflexivity) Hn)
    as (t & Hv & Et & Hd).
  exists t. split; [exact Et|]. split; [exact Hd|].
  assert (Hall : forall p', timeField p' = uv_time pt -> resolvesTo rt p' t).
  { intros p' Hp'. split; [|apply newDate_iso; exact Hv].
    unfold resolveTimestamp. rewrite Hp', Et. cbn [resolveNumber bind].
    apply resolveString_iso. exact Hv. }
  split; [exact Hall|].
  destruct pt as [u ts sun]. cbn [uv uv_time sun_position] in *.
  subst ts.
  assert (Hnew : timeField (VObj (("uv_time", VStr (isoFormat t)) :: fields))
                 = VStr (isoFormat t)) by reflexivity.
  apply normalizePoint_build; try assumption; try reflexivity.
  apply (proj1 (Hall _ Hnew)).
Qed.

Lemma timestamp_idempotent_witness :
  exists t,
    VStr "2023-11-15T01:00:00.000Z" = VStr (isoFormat t) /\
    newDate RefEngine.engine (VStr "2023-11-15T01:00:00.000Z") = Ok (Some t) /\
    (forall p', timeField p' = VStr "2023-11-15T01:00:00.000Z" ->
                resolvesTo RefEngine.engine p' t) /\
    normalizePoint RefEngine.engine
      (VObj (("uv_time", VStr "2023-11-15T01:00:00.000Z") :: localRecord))
    = Ok (Some {| uv := num 7; uv_time := VStr "2023-11-15T01:00:00.000Z";
                  sun_position := None |}).
Proof.
  exact (timestamp_idempotent RefEngine.engine localRecord "2023-11-15T01:00:00"
           {| uv := num 7; uv_time := VStr "2023-11-15T01:00:00.000Z";
              sun_position := None |} eq_refl eq_refl).
Defined.

(** C6, at the failing inputs.  A record whose time-like field is the
    boolean [true], or an object, passes every check of [normalizePoint]:
    the point that comes out carries that value where a timestamp string is
    declared, and no instant was resolved for it. *)
Theorem unresolved_timestamp_accepted (rt : Runtime) :
  normalizePoint rt (VObj [("uv_time", VBool true); ("uv", VNum (num 5))])
  = Ok (Some {| uv := num 5; uv_time := VBool true; sun_position := None |}) /\
  normalizePoint rt (VObj [("uv_time", VObj []); ("uv", VNum (num 5))])
  = Ok (Some {| uv := num 5; uv_time := VObj []; sun_position := None |}) /\
  resolveTimestamp rt (VObj [("uv_time", VBool true); ("uv", VNum (num 5))])
  = Ok (Some (VBool true)).
Proof. repeat split; reflexivity. Qed.

(** At render time such a point is handed to [new Date]: when the object
    has an own [toString] entry, ToPrimitive throws and so does the chart
    pipeline. *)
Example object_timestamp_breaks_chart :
  normalizePoint RefEngine.engine
    (VObj [("uv", VNum (num 1)); ("uv_time", VObj [("toString", VNum (num 1))])])
  = Ok (Some {| uv := num 1; uv_time := VObj [("toString", VNum (num 1))];
                sun_position := None |}) /\
  lineSegments RefEngine.engine
    [ {| uv := num 1; uv_time := VObj [("toString", VNum (num 1))];
         sun_position := None |} ] = Throw TypeError.
Proof. split; reflexivity. Qed.

(** A number beyond the Date range makes [toISOString] throw: the record
    is not dropped, the exception leaves [normalizePoint], and
    [fetchUVData] keeps the previous series and reports a connection
    failure. *)
Example out_of_range_number_throws :
  normalizePoint RefEngine.engine (numericRecord 10000000000000000) = Throw RangeError /\
  forecast (fst (fetchUVData RefEngine.engine 1700000300000
                   (Ok (VObj [("success", VBool true); ("result", VObj [("uv", VNum (num 3))]);
                              ("forecast", VArr [numericRecord 1700000000;
                                                 numericRecord 10000000000000000])]))
                   loadedState)) = hourly 2 /\
  error (fst (fetchUVData RefEngine.engine 1700000300000
                (Ok (VObj [("success", VBool true); ("result", VObj [("uv", VNum (num 3))]);
                           ("forecast", VArr [numericRecord 1700000000;
                                              numericRecord 10000000000000000])]))
                loadedState)) = VStr "Failed to connect to UV service".
Proof. repeat split; vm_compute; reflexivity. Qed.

(** ** Sorting and the look-ahead window *)

Section KeySortFacts.

Context {A : Type}.
Variable key : A -> Z.

Lemma insertByKey_perm x l : Permutation (x :: l) (insertByKey key x l).
Proof.
  induction l as [|y l IH]; cbn; [reflexivity|].
  destruct (key y <? key x); [|reflexivity].
  rewrite perm_swap. constructor. exact IH.
Qed.

Lemma sortByKey_perm l : Permutation l (sortByKey key l).
Proof.
  induction l as [|x l IH]; cbn; [reflexivity|].
  rewrite <- insertByKey_perm. constructor. exact IH.
Qed.

Lemma insertByKey_hd x y l :
  key y <= key x -> HdRel (fun a b => key a <= key b) y l ->
  HdRel (fun a b => key a <= key b) y (insertByKey key x l).
Proof.
  intros Hyx H. destruct l as [|z l]; cbn.
  - constructor. exact Hyx.
  - inversion H; subst. destruct (key z <? key x); constructor; assumption.
Qed.

Lemma insertByKey_sorted x l :
  Sorted (fun a b => key a <= key b) l ->
  Sorted (fun a b => key a <= key b) (insertByKey key x l).
Proof.
  induction 1 as [|y l Hs IH Hh]; cbn.
  - repeat constructor.
  - destruct (Z.ltb_spec (key y) (key x)).
    + constructor; [exact IH|]. apply insertByKey_hd; [lia | exact Hh].
    + constructor; [constructor; assumption|]. constructor. lia.
Qed.

Lemma sortByKey_sorted l : Sorted (fun a b => key a <= key b) (sortByKey key l).
Proof.
  induction l as [|x l IH]; cbn; [constructor|]. apply insertByKey_sorted. exact IH.
Qed.

(** Stability: the points of any one time value keep their input order. *)
Lemma insertByKey_filter k x l :
  Sorted (fun a b => key a <= key b) l ->
  filter (fun a => key a =? k) (insertByKey key x l)
  = filter (fun a => key a =? k) (x :: l).
Proof.
  induction 1 as [|y l Hs IH Hh]; [reflexivity|].
  cbn [insertByKey]. destruct (Z.ltb_spec (key y) (key x)) as [Hlt|Hge]; [|reflexivity].
  cbn [filter] in *. rewrite IH.
  destruct (Z.eqb_spec (key x) k), (Z.eqb_spec (key y) k); try reflexivity. lia.
Qed.

Lemma sortByKey_stable k l :
  filter (fun a => key a =? k) (sortByKey key l) = filter (fun a => key a =? k) l.
Proof.
  induction l as [|x l IH]; [reflexivity|].
  cbn [sortByKey]. rewrite insertByKey_filter by apply sortByKey_sorted.
  cbn [filter]. rewrite IH. reflexivity.
Qed.

Lemma sortByKey_id l :
  Sorted (fun a b => key a <= key b) l -> sortByKey key l = l.
Proof.
  induction 1 as [|x l Hs IH Hh]; [reflexivity|].
  cbn [sortByKey]. rewrite IH. destruct Hh as [|y l Hxy]; [reflexivity|].
  cbn. destruct (Z.ltb_spec (key y) (key x)); [lia | reflexivity].
Qed.

End KeySortFacts.

Section SortFacts.

Variable rt : Runtime.

Lemma timed_keyOf p : timed rt p -> newDate rt (uv_time p) = Ok (Some (keyOf rt p)).
Proof. intros [t Ht]. unfold keyOf, timeOf. rewrite Ht. reflexivity. Qed.

Lemma byTime_timed a b :
  timed rt a -> timed rt b ->
  SortCompare (byTime rt) a b = Ok (keyOf rt b <? keyOf rt a).
Proof.
  intros Ha Hb. unfold SortCompare, byTime.
  rewrite (timed_keyOf _ Ha), (timed_keyOf _ Hb). cbn.
  f_equal. unfold Qle_bool. cbn.
  destruct (Z.leb_spec ((keyOf rt a + - keyOf rt b) * 1) 0),
    (Z.ltb_spec (keyOf rt b) (keyOf rt a)); cbn; try reflexivity; lia.
Qed.

Lemma insert_timed x l :
  timed rt x -> Forall (timed rt) l ->
  insert (byTime rt) x l = Ok (insertByKey (keyOf rt) x l).
Proof.
  intros Hx Hl. induction Hl as [|y l Hy Hl IH]; [reflexivity|].
  cbn [insert insertByKey]. rewrite byTime_timed by assumption. cbn [bind].
  destruct (keyOf rt y <? keyOf rt x); [|reflexivity].
  rewrite IH. reflexivity.
Qed.

(** On a series whose points all have a time value the comparator is
    consistent, and [sort] is insertion sort on the time values. *)
Lemma sort_timed l :
  Forall (timed rt) l -> sort (byTime rt) l = Ok (sortByKey (keyOf rt) l).
Proof.
  induction 1 as [|x l Hx Hl IH]; [reflexivity|].
  cbn [sort sortByKey]. rewrite IH. cbn [bind].
  apply insert_timed; [exact Hx|].
  eapply Permutation_Forall; [apply sortByKey_perm | exact Hl].
Qed.

Lemma sort_chronological l :
  chronological rt l -> sort (byTime rt) l = Ok l.
Proof.
  intros [Ht Hs]. rewrite sort_timed by exact Ht. f_equal.
  apply sortByKey_id. exact Hs.
Qed.

End SortFacts.

(** C5.  On a chronological forecast series (empty or not), [getForecast24h]
    returns exactly its first 24 points, and the whole series when it has
    at most 24; the function reads no clock (it has no such argument). *)
Theorem window_is_prefix (rt : Runtime) (forecast : list UVForecastPoint) :
  chronological rt forecast ->
  getForecast24h rt forecast = Ok (firstn 24 forecast) /\
  ((List.length forecast <= 24)%nat -> getForecast24h rt forecast = Ok forecast).
Proof.
  intros Hc.
  assert (H : getForecast24h rt forecast = Ok (firstn 24 forecast)).
  { unfold getForecast24h. destruct forecast as [|p l]; [reflexivity|].
    cbn [List.length Nat.eqb]. rewrite sort_chronological by exact Hc. reflexivity. }
  split; [exact H|]. intros Hlen. rewrite H. f_equal. apply firstn_all2. exact Hlen.
Qed.

Lemma hourly_chronological : chronological RefEngine.engine (hourly 26).
Proof.
  split.
  - repeat (constructor; [eexists; vm_compute; reflexivity|]). constructor.
  - repeat (constructor; [|first [constructor; vm_compute; discriminate | constructor]]).
    constructor.
Qed.

Lemma window_is_prefix_witness :
  getForecast24h RefEngine.engine (hourly 26) = Ok (firstn 24 (hourly 26)) /\
  ((List.length (hourly 26) <= 24)%nat ->
   getForecast24h RefEngine.engine (hourly 26) = Ok (hourly 26)).
Proof.
  exact (window_is_prefix RefEngine.engine (hourly 26) hourly_chronological).
Defined.

(** ** The Series Builder and [fetchUVData] *)

Section SeriesFacts.

Variable rt : Runtime.

Lemma mapM_Forall2 {A B : Type} (f : A -> result B) l r :
  mapM f l = Ok r -> Forall2 (fun x y => f x = Ok y) l r.
Proof.
  revert r. induction l as [|x l IH]; cbn; intros r.
  - intros [= <-]. constructor.
  - destruct (f x) as [y|e] eqn:Ex; cbn [bind]; [|discriminate].
    destruct (mapM f l) as [ys|e]; cbn [bind]; [|discriminate].
    intros [= <-]. constructor; [exact Ex | apply IH; reflexivity].
Qed.

Lemma dropNull_timed raws mapped :
  Forall (fun p => plainTime p = true) raws ->
  Forall2 (fun p o => normalizePoint rt p = Ok o) raws mapped ->
  Forall (timed rt) (dropNull mapped).
Proof.
  intros Hp H. induction H as [|p o raws mapped Hn H IH]; [constructor|].
  inversion Hp; subst. destruct o as [pt|]; cbn [dropNull]; [|apply IH; assumption].
  constructor; [|apply IH; assumption].
  destruct (normalizePoint_plain rt p pt) as (t & _ & _ & Ht); try assumption.
  exists t. exact Ht.
Qed.

(** When every record's time-like field is a number, a string or missing,
    a series that is built is chronological, and it is the stable
    rearrangement of the surviving points. *)
Lemma buildSeries_plain raws series :
  Forall (fun p => plainTime p = true) raws ->
  buildSeries rt raws = Ok series ->
  exists mapped,
    mapM (normalizePoint rt) raws = Ok mapped /\
    chronological rt series /\
    Permutation (dropNull mapped) series /\
    forall k, filter (fun p => keyOf rt p =? k) series
              = filter (fun p => keyOf rt p =? k) (dropNull mapped).
Proof.
  intros Hp. unfold buildSeries.
  destruct (mapM (normalizePoint rt) raws) as [mapped|e] eqn:Em; cbn [bind]; [|discriminate].
  pose proof (dropNull_timed _ _ Hp (mapM_Forall2 _ _ _ Em)) as Ht.
  rewrite sort_timed by exact Ht. intros [= <-].
  exists mapped. split; [reflexivity|]. split; [|split].
  - split.
    + eapply Permutation_Forall; [apply sortByKey_perm | exact Ht].
    + apply sortByKey_sorted.
  - apply sortByKey_perm.
  - intros k. apply sortByKey_stable.
Qed.

End SeriesFacts.

(** C7, at the failing input.  An object-valued time-like field survives
    normalisation; its time value is NaN, the comparator answers NaN (taken
    as 0) against both neighbours, and the builder returns the 2033 point
    before the 2017 point. *)
Theorem series_left_unsorted :
  buildSeries RefEngine.engine [at2033; atObject; at2017]
  = Ok [ {| uv := num 1; uv_time := VStr "2033-05-18T03:33:20.000Z"; sun_position := None |};
         {| uv := num 2; uv_time := VObj []; sun_position := None |};
         {| uv := num 3; uv_time := VStr "2017-07-14T02:40:00.000Z"; sun_position := None |} ] /\
  newDate RefEngine.engine (VStr "2033-05-18T03:33:20.000Z") = Ok (Some 2000000000000) /\
  newDate RefEngine.engine (VObj []) = Ok None /\
  newDate RefEngine.engine (VStr "2017-07-14T02:40:00.000Z") = Ok (Some 1500000000000).
Proof. repeat split; vm_compute; reflexivity. Qed.

Section FetchFacts.

Variable rt : Runtime.


Lemma storeReadings_forecast res st :
  snd (storeReadings res st) = Ok tt /\
  forecast (fst (storeReadings res st)) = forecast st /\
  error (fst (storeReadings res st)) = error st.
Proof.
  unfold storeReadings, andThen, setUvIndex, setUvMax, setUvMaxTime,
    setSafeExposureTimes, setSunInfo, update, done.
  destruct res.["uv"], res.["uv_max"], res.["uv_max_time"]; cbn; auto.
Qed.



End FetchFacts.

(** ** Segmentation *)

Section SegmentFacts.

Local Open Scope nat_scope.

Lemma slice_length {A : Type} (l : list A) a b :
  a <= b <= List.length l -> List.length (slice l a b) = b - a.
Proof.
  intros H. unfold slice. rewrite length_firstn, length_skipn. lia.
Qed.

Lemma firstn_slice {A : Type} (l : list A) a b :
  a <= b -> firstn a l ++ slice l a b = firstn b l.
Proof.
  intros H. unfold slice.
  rewrite <- (firstn_skipn a (firstn b l)).
  rewrite firstn_firstn, skipn_firstn_comm.
  replace (Nat.min a b) with a by lia. reflexivity.
Qed.

Lemma pushToLast_concat {A : Type} (segs : list (list A)) x :
  segs <> [] -> List.concat (pushToLast segs x) = List.concat segs ++ [x].
Proof.
  intros H. unfold pushToLast.
  pose proof (app_removelast_last [] H) as E.
  remember (removelast segs) as init eqn:Ei. remember (last segs []) as l eqn:El.
  clear Ei El. subst segs.
  rewrite !concat_app. cbn. rewrite !app_nil_r, app_assoc. reflexivity.
Qed.

Lemma pushToLast_long {A : Type} (segs : list (list A)) x :
  segs <> [] -> Forall (fun s => 2 <= List.length s) segs ->
  Forall (fun s => 2 <= List.length s) (pushToLast segs x).
Proof.
  intros H Hl. unfold pushToLast.
  pose proof (app_removelast_last [] H) as E.
  remember (removelast segs) as init eqn:Ei. remember (last segs []) as l eqn:El.
  clear Ei El. subst segs.
  apply Forall_app in Hl. destruct Hl as [H1 H2].
  apply Forall_app. split; [exact H1|].
  inversion H2; subst. constructor; [|constructor].
  rewrite length_app. cbn. lia.
Qed.

Lemma pushToLast_nonempty {A : Type} (segs : list (list A)) x : pushToLast segs x <> [].
Proof. unfold pushToLast. destruct (removelast segs); discriminate. Qed.

Lemma length_pos_ltb {A : Type} (l : list A) : l <> [] -> (0 <? List.length l) = true.
Proof. destruct l; [contradiction|reflexivity]. Qed.

Lemma scanStep_inv data st :
  ScanInv data st -> idx st < List.length data ->
  ScanInv data (scanStep data st) /\ idx st < idx (scanStep data st).
Proof.
  intros [Hi Hs Hc Hf Hl] Hlt. unfold scanStep.
  destruct (nth_error data (idx st)) as [di|] eqn:Ed;
    [|apply nth_error_None in Ed; lia].
  destruct (negb (Category_eqb (getCategory (Chart.uv di)) (currentCat st))).
  2:{ split; [constructor; cbn; auto; lia | cbn; lia]. }
  pose proof (slice_length data (start st) (idx st + 1) ltac:(lia)) as Hlen.
  pose proof (firstn_slice data (start st) (idx st + 1) ltac:(lia)) as Hcat.
  destruct (slice data (start st) (idx st + 1)) as [|s0 [|s1 rest]] eqn:Es.
  - cbn in Hlen. lia.
  - cbn in Hlen. assert (Hne : segments st <> []).
    { intros E. apply Hf in E. lia. }
    rewrite (length_pos_ltb _ Hne).
    split; [|cbn; lia]. constructor; cbn [segments start currentCat idx].
    + lia.
    + lia.
    + rewrite pushToLast_concat by exact Hne. rewrite Hc. exact Hcat.
    + intros E. exfalso. eapply pushToLast_nonempty; eauto.
    + apply pushToLast_long; assumption.
  - split; [|cbn; lia]. constructor; cbn [segments start currentCat idx].
    + lia.
    + lia.
    + rewrite concat_app. cbn. rewrite app_nil_r, Hc. exact Hcat.
    + intros E. destruct (segments st); discriminate.
    + apply Forall_app. split; [exact Hl|]. constructor; [cbn; lia | constructor].
Qed.

(** During the scan a one-point candidate always finds a completed
    segment to join: the branch of lines 313-319 is not reached. *)
Lemma lone_candidate_has_predecessor data st s0 :
  ScanInv data st -> idx st < List.length data ->
  slice data (start st) (idx st + 1) = [s0] -> segments st <> [].
Proof.
  intros [Hi Hs Hc Hf Hl] Hlt Hseg E.
  pose proof (slice_length data (start st) (idx st + 1) ltac:(lia)) as Hlen.
  rewrite Hseg in Hlen. cbn in Hlen. apply Hf in E. lia.
Qed.

(** The loop leaves through its condition: [data.length] iterations are
    enough, and more fuel changes nothing. *)
Lemma scanLoop_inv fuel : forall data st,
  ScanInv data st -> List.length data - idx st <= fuel ->
  ScanInv data (scanLoop fuel data st) /\
  idx (scanLoop fuel data st) = List.length data.
Proof.
  induction fuel as [|fuel IH]; intros data st Hinv Hfuel.
  - cbn. split; [exact Hinv|]. destruct Hinv. lia.
  - cbn [scanLoop]. destruct (Nat.ltb_spec (idx st) (List.length data)) as [Hlt|Hge].
    + destruct (scanStep_inv data st Hinv Hlt) as [Hinv' Hadv].
      apply IH; [exact Hinv' | lia].
    + split; [exact Hinv|]. destruct Hinv. lia.
Qed.

Lemma scanLoop_more fuel : forall data st k,
  ScanInv data st -> List.length data - idx st <= fuel ->
  scanLoop (fuel + k) data st = scanLoop fuel data st.
Proof.
  induction fuel as [|fuel IH]; intros data st k Hinv Hfuel.
  - destruct k; [reflexivity|]. cbn [scanLoop Nat.add].
    destruct (Nat.ltb_spec (idx st) (List.length data)); [lia | reflexivity].
  - cbn [scanLoop Nat.add]. destruct (Nat.ltb_spec (idx st) (List.length data)) as [Hlt|Hge];
      [|reflexivity].
    destruct (scanStep_inv data st Hinv Hlt) as [Hinv' Hadv].
    apply IH; [exact Hinv' | lia].
Qed.

Lemma scanStart_inv d0 rest : ScanInv (d0 :: rest) (scanStart d0).
Proof. constructor; cbn; auto; lia. Qed.

Lemma scanLoop_exit d0 rest :
  idx (scanLoop (List.length (d0 :: rest)) (d0 :: rest) (scanStart d0))
  = List.length (d0 :: rest).
Proof.
  apply scanLoop_inv; [apply scanStart_inv | cbn; lia].
Qed.

(** The shape of the result: the segments concatenate to the input, and
    either all of them hold two points or more, or the input is a single
    point and so is the output. *)
Lemma finish_spec data st :
  ScanInv data st -> data <> [] ->
  List.concat (finish data st) = data /\
  (Forall (fun s => 2 <= List.length s) (finish data st) \/
   exists x, data = [x] /\ finish data st = [[x]]).
Proof.
  intros [Hi Hs Hc Hf Hl] Hne. unfold finish.
  destruct (Nat.ltb_spec (start st) (List.length data)) as [Hlt|Hge].
  - pose proof (firstn_skipn (start st) data) as Hsplit.
    pose proof (length_skipn (start st) data) as Hlen.
    destruct (skipn (start st) data) as [|l0 [|l1 rest]] eqn:Es.
    + cbn in Hlen. lia.
    + destruct (segments st) as [|s segs] eqn:Eseg.
      * cbn [List.length Nat.ltb Nat.leb app List.concat].
        rewrite (Hf eq_refl) in *. cbn in Es, Hsplit. subst data.
        split; [reflexivity|]. right. exists l0. split; reflexivity.
      * cbn [List.length Nat.ltb Nat.leb]. rewrite <- Eseg in *.
        assert (Hne' : segments st <> []) by (rewrite Eseg; discriminate).
        split.
        -- rewrite pushToLast_concat by exact Hne'. rewrite Hc. exact Hsplit.
        -- left. apply pushToLast_long; assumption.
    + split.
      * rewrite concat_app. cbn. rewrite app_nil_r, Hc. exact Hsplit.
      * left. apply Forall_app. split; [exact Hl|]. constructor; [cbn; lia | constructor].
  - assert (E : start st = List.length data) by lia.
    split; [|left; exact Hl]. rewrite Hc, E. apply firstn_all.
Qed.

Lemma splitIntoSegments_spec data :
  List.concat (splitIntoSegments data) = data /\
  (Forall (fun s => 2 <= List.length s) (splitIntoSegments data) \/
   exists x, data = [x] /\ splitIntoSegments data = [[x]]).
Proof.
  destruct data as [|d0 rest]; [split; [reflexivity | left; constructor]|].
  unfold splitIntoSegments. fold (scanStart d0).
  apply finish_spec; [|discriminate].
  apply scanLoop_inv; [apply scanStart_inv | cbn; lia].
Qed.

End SegmentFacts.

Section SegmentTheorems.

Local Open Scope nat_scope.

Lemma pushToLast_snoc {A : Type} (init : list (list A)) (s : list A) (x : A) :
  pushToLast (init ++ [s]) x = init ++ [s ++ [x]].
Proof.
  unfold pushToLast. rewrite removelast_last, last_last. reflexivity.
Qed.

(** Segment [k] occupies the indices from [offset segs k] on. *)
Lemma nth_segment_at {A : Type} (segs : list (list A)) : forall k s,
  nth_error segs k = Some s ->
  s = firstn (List.length s) (skipn (offset segs k) (List.concat segs)) /\
  offset segs (S k) = offset segs k + List.length s.
Proof.
  unfold offset.
  induction segs as [|s0 segs IH]; intros k s Hk; [destruct k; discriminate|].
  destruct k as [|k]; cbn in Hk.
  - injection Hk as ->. cbn. rewrite app_nil_r.
    rewrite firstn_app, Nat.sub_diag, firstn_all. cbn.
    rewrite app_nil_r. auto.
  - destruct (IH k s Hk) as [E1 E2]. cbn [firstn List.concat].
    rewrite !length_app. split.
    + rewrite skipn_app. rewrite skipn_all2 by lia. cbn [app].
      replace (List.length s0 + List.length (List.concat (firstn k segs)) - List.length s0)
        with (List.length (List.concat (firstn k segs))) by lia.
      exact E1.
    + cbn [firstn List.concat] in E2. rewrite E2. lia.
Qed.

Lemma nth_segment_slice {A : Type} (segs : list (list A)) k s :
  nth_error segs k = Some s ->
  s = slice (List.concat segs) (offset segs k) (offset segs k + List.length s) /\
  offset segs (S k) = offset segs k + List.length s.
Proof.
  intros Hk. destruct (nth_segment_at segs k s Hk) as [E1 E2].
  split; [|exact E2]. unfold slice.
  replace (offset segs k + List.length s - offset segs k) with (List.length s) by lia.
  exact E1.
Qed.


Lemma segments_nonempty data :
  Forall (fun s => 1 <= List.length s) (splitIntoSegments data).
Proof.
  destruct (splitIntoSegments_spec data) as [_ [H | (x & _ & ->)]].
  - eapply Forall_impl; [|exact H]. cbn. intros; lia.
  - repeat constructor.
Qed.

End SegmentTheorems.

(** C10.  The segments returned for a series are an ordered partition of
    it: their concatenation is the series, none is empty, and segment [k]
    is the slice of the series between the end of segment [k - 1] and the
    start of segment [k + 1], so that no point lies in two segments. *)
Theorem segments_partition (data : list Chart.point) :
  List.concat (splitIntoSegments data) = data /\
  Forall (fun s => (1 <= List.length s)%nat) (splitIntoSegments data) /\
  (forall k s, nth_error (splitIntoSegments data) k = Some s ->
     s = slice data (offset (splitIntoSegments data) k)
               (offset (splitIntoSegments data) k + List.length s) /\
     offset (splitIntoSegments data) (S k)
     = (offset (splitIntoSegments data) k + List.length s)%nat).
Proof.
  destruct (splitIntoSegments_spec data) as [Hc _].
  split; [exact Hc|]. split; [apply segments_nonempty|].
  intros k s Hk. destruct (nth_segment_slice _ k s Hk) as [E1 E2].
  rewrite Hc in E1. split; assumption.
Qed.

(** C4.  No segment of the output holds a single point unless it is the
    whole output.  In the scan, a one-point candidate run is pushed onto
    the last completed segment when there is one; with none, it takes the
    following point when there is one, and the scan moves past that point;
    the trailing run is merged in the same way. *)
Theorem no_lone_segment (data : list Chart.point) :
  Forall (fun s => List.length s = 1%nat -> splitIntoSegments data = [s])
         (splitIntoSegments data) /\
  (forall st di s0,
     nth_error data (idx st) = Some di ->
     Category_eqb (getCategory (Chart.uv di)) (currentCat st) = false ->
     slice data (start st) (idx st + 1) = [s0] ->
     (forall init lastSeg, segments st = init ++ [lastSeg] ->
        segments (scanStep data st) = init ++ [lastSeg ++ [s0]] /\
        idx (scanStep data st) = (idx st + 1)%nat) /\
     (forall next, segments st = [] -> nth_error data (idx st + 1) = Some next ->
        segments (scanStep data st) = [[s0; next]] /\
        idx (scanStep data st) = (idx st + 2)%nat)) /\
  (forall st l0 init lastSeg,
     skipn (start st) data = [l0] -> segments st = init ++ [lastSeg] ->
     finish data st = init ++ [lastSeg ++ [l0]]).
Proof.
  split; [|split].
  - destruct (splitIntoSegments_spec data) as [_ [H | (x & _ & ->)]].
    + eapply Forall_impl; [|exact H]. cbn. intros s H2 H1. lia.
    + constructor; [reflexivity | constructor].
  - intros st di s0 Hd Hcat Hseg. unfold scanStep. rewrite Hd, Hcat, Hseg. cbn [negb].
    split.
    + intros init lastSeg E. rewrite E, length_app. cbn [List.length].
      replace (0 <? List.length init + 1)%nat with true
        by (symmetry; apply Nat.ltb_lt; lia).
      cbn [segments idx]. rewrite pushToLast_snoc. auto.
    + intros next E Hn. rewrite E, Hn. cbn. split; [reflexivity | lia].
  - intros st l0 init lastSeg Hs E. unfold finish. rewrite Hs, E.
    assert (Hlt : (start st <? List.length data)%nat = true).
    { apply Nat.ltb_lt. pose proof (length_skipn (start st) data) as Hl.
      rewrite Hs in Hl. cbn in Hl. lia. }
    rewrite Hlt, length_app. cbn [List.length].
    replace (0 <? List.length init + 1)%nat with true
      by (symmetry; apply Nat.ltb_lt; lia).
    apply pushToLast_snoc.
Qed.



Lemma no_lone_segment_witness :
  (segments (scanStep threePoints
               {| segments := [[chartPoint "09:00 am" 1; chartPoint "10:00 am" 7]];
                  start := 2; currentCat := high; idx := 2 |})
   = [] ++ [[chartPoint "09:00 am" 1; chartPoint "10:00 am" 7] ++ [chartPoint "11:00 am" 1]] /\
   idx (scanStep threePoints
          {| segments := [[chartPoint "09:00 am" 1; chartPoint "10:00 am" 7]];
             start := 2; currentCat := high; idx := 2 |}) = (2 + 1)%nat) /\
  (segments (scanStep threePoints
               {| segments := []; start := 1; currentCat := low; idx := 1 |})
   = [[chartPoint "10:00 am" 7; chartPoint "11:00 am" 1]] /\
   idx (scanStep threePoints
          {| segments := []; start := 1; currentCat := low; idx := 1 |}) = (1 + 2)%nat).
Proof.
  split.
  - exact (proj1 (proj1 (proj2 (no_lone_segment threePoints))
                    {| segments := [[chartPoint "09:00 am" 1; chartPoint "10:00 am" 7]];
                       start := 2; currentCat := high; idx := 2 |}
                    (chartPoint "11:00 am" 1) (chartPoint "11:00 am" 1)
                    eq_refl eq_refl eq_refl)
             [] [chartPoint "09:00 am" 1; chartPoint "10:00 am" 7] eq_refl).
  - exact (proj2 (proj1 (proj2 (no_lone_segment threePoints))
                    {| segments := []; start := 1; currentCat := low; idx := 1 |}
                    (chartPoint "10:00 am" 7) (chartPoint "10:00 am" 7)
                    eq_refl eq_refl eq_refl)
             (chartPoint "11:00 am" 1) eq_refl eq_refl).
Defined.

Section Totality.

Variable rt : Runtime.







End Totality.

Lemma lineSegments_empty rt : lineSegments rt [] = Ok [].
Proof. reflexivity. Qed.



(** An envelope that fails the gate and has no top-level array is the
    upstream-failure path: the error is stored and the series is kept. *)
Example error_envelope_keeps_series :
  forecast (fst (fetchUVData RefEngine.engine 1700000300000
                   (Ok (VObj [("error", VStr "OpenUV API error: 500")])) loadedState))
  = hourly 2 /\
  error (fst (fetchUVData RefEngine.engine 1700000300000
                (Ok (VObj [("error", VStr "OpenUV API error: 500")])) loadedState))
  = VStr "OpenUV API error: 500".
Proof. split; vm_compute; reflexivity. Qed.

(** The example of the specification: three raw records, the third with
    a UV value that is not a number; two points survive, of categories low
    and high, and they form one segment. *)
Example three_records_one_segment :
  buildSeries RefEngine.engine
    [ VObj [("uv", VNum (num 1)); ("time", VNum (num 1700000000))];
      VObj [("uv", VNum (num 7)); ("time", VStr "2023-11-15T01:00:00")];
      VObj [("uv", VStr "bad"); ("time", VStr "2023-11-15T02:00:00")] ]
  = Ok [ {| uv := num 1; uv_time := VStr "2023-11-14T22:13:20.000Z"; sun_position := None |};
         {| uv := num 7; uv_time := VStr "2023-11-15T01:00:00.000Z"; sun_position := None |} ] /\
  lineSegments RefEngine.engine
    [ {| uv := num 1; uv_time := VStr "2023-11-14T22:13:20.000Z"; sun_position := None |};
      {| uv := num 7; uv_time := VStr "2023-11-15T01:00:00.000Z"; sun_position := None |} ]
  = Ok [[chartPoint "10:13 pm" 1; chartPoint "01:00 am" 7]].
Proof. split; vm_compute; reflexivity. Qed.

(** ** The earlier revisions *)

(** The second document resolves strings exactly as the first. *)
Lemma Rev2_resolveString rt ts : Rev2.resolveString rt ts = resolveString rt ts.
Proof.
  destruct ts; try reflexivity. unfold Rev2.resolveString, resolveString.
  destruct (isNaN (getTime (Date_parse rt s))); [|reflexivity].
  destruct (isNaN (getTime (Date_parse rt (s ++ "Z")))); reflexivity.
Qed.

(** It has no final check on [ts] and none on the number: a record with
    no timestamp, with a number up to 1e9, or with a UV value that is not
    a number, still yields a point. *)
Example Rev2_keeps_unresolved :
  Rev2.normalizePoint RefEngine.engine (VObj [("uv", VNum (num 5))])
  = Ok (Some {| uv := num 5; uv_time := VNull; sun_position := None |}) /\
  Rev2.normalizePoint RefEngine.engine (numericRecord 1000000000)
  = Ok (Some {| uv := num 5; uv_time := VNull; sun_position := None |}) /\
  Rev2.normalizePoint RefEngine.engine
    (VObj [("uv", VStr "bad"); ("time", VStr "2023-11-15T02:00:00")])
  = Ok (Some {| uv := NaN; uv_time := VStr "2023-11-15T02:00:00.000Z";
                sun_position := None |}).
Proof. repeat split; reflexivity. Qed.

(** Both earlier windows read the clock: a day later the same series
    gives an empty window, where the first document still gives the
    first 24 points. *)
Example earlier_windows_read_clock :
  Rev2.getForecast24h RefEngine.engine (1700006400000 + 2 * 86400000) (hourly 26) = Ok [] /\
  Rev1.getForecast24h RefEngine.engine (1700006400000 + 2 * 86400000) (hourly 26) = Ok [] /\
  List.length (hourly 26) = 26%nat /\
  (forall pts, Rev1.getForecast24h RefEngine.engine 1700006400000 (hourly 26) = Ok pts ->
               List.length pts = 12%nat).
Proof.
  split; [vm_compute; reflexivity|]. split; [vm_compute; reflexivity|].
  split; [reflexivity|]. intros pts H. vm_compute in H. injection H as <-. reflexivity.
Qed.
(* ================================================================= *)
(** ** Colours and the lines drawn *)

Lemma category_colour c :
  String.eqb (getColorForCategory (categoryName c)) "var(--accent)" = false.
Proof. destruct c; reflexivity. Qed.

Lemma renderLines_long segs :
  Forall (fun s => (2 <= List.length s)%nat) segs ->
  exists lines,
    renderLines segs = map Some lines /\
    map Line.data lines = segs /\
    Forall (fun l => String.eqb (Line.stroke l) "var(--accent)" = false) lines.
Proof.
  induction 1 as [|s segs Hs _ IH].
  - exists []. repeat split; constructor.
  - destruct IH as (lines & E & D & F).
    destruct s as [|s0 s']; [simpl in Hs; lia|].
    exists ({| Line.data := s0 :: s';
               Line.stroke := getColorForCategory (categoryName (getCategory (Chart.uv s0))) |}
            :: lines).
    split; [|split].
    + cbn [renderLines map]. fold (renderLines segs). rewrite E.
      destruct (Nat.leb_spec 2 (List.length (s0 :: s'))); [reflexivity | lia].
    + cbn [map Line.data]. now rewrite D.
    + constructor; [apply category_colour | exact F].
Qed.

(** X1.  Every segment of a chart with two or more points is drawn: the
    length filter of the render drops none of them, the points of the
    lines, in order, are exactly the chart data, and every stroke is one
    of the five category colours, never the fallback of the [switch].
    A chart of a single point draws no line at all. *)
Theorem every_segment_is_drawn (data : list Chart.point) :
  ((2 <= List.length data)%nat ->
   exists lines,
     renderLines (splitIntoSegments data) = map Some lines /\
     List.concat (map Line.data lines) = data /\
     Forall (fun l => String.eqb (Line.stroke l) "var(--accent)" = false) lines) /\
  (forall x, data = [x] -> renderLines (splitIntoSegments data) = [None]).
Proof.
  split.
  - intros Hlen.
    destruct (splitIntoSegments_spec data) as [Hc [Hl | (x & E & _)]].
    + destruct (renderLines_long _ Hl) as (lines & E & D & F).
      exists lines. rewrite D. auto.
    + subst data. simpl in Hlen. lia.
  - intros x ->. reflexivity.
Qed.

Lemma every_segment_is_drawn_witness :
  (exists lines,
     renderLines (splitIntoSegments fourPoints) = map Some lines /\
     List.concat (map Line.data lines) = fourPoints /\
     Forall (fun l => String.eqb (Line.stroke l) "var(--accent)" = false) lines) /\
  renderLines (splitIntoSegments [chartPoint "09:00 am" 1]) = [None].
Proof.
  split.
  - apply (proj1 (every_segment_is_drawn fourPoints)). vm_compute. lia.
  - apply (proj2 (every_segment_is_drawn [chartPoint "09:00 am" 1]) _ eq_refl).
Defined.

(* ================================================================= *)
(** ** The time to burn *)

Lemma skinType_found s :
  1 <= s <= 6 ->
  exists e, find (fun e => SkinTypeSelector.type e =? s) SkinTypeSelector.skinTypes = Some e /\
            200 <= SkinTypeSelector.constant e <= 1000.
Proof.
  intros H.
  assert (s = 1 \/ s = 2 \/ s = 3 \/ s = 4 \/ s = 5 \/ s = 6) as C by lia.
  destruct C as [-> | [-> | [-> | [-> | [-> | ->]]]]];
    (eexists; split; [reflexivity | cbn; lia]).
Qed.

Lemma skinType_constant_mono s1 s2 e1 e2 :
  1 <= s1 -> s1 <= s2 -> s2 <= 6 ->
  find (fun e => SkinTypeSelector.type e =? s1) SkinTypeSelector.skinTypes = Some e1 ->
  find (fun e => SkinTypeSelector.type e =? s2) SkinTypeSelector.skinTypes = Some e2 ->
  SkinTypeSelector.constant e1 <= SkinTypeSelector.constant e2.
Proof.
  intros H1 H2 H3.
  assert (s1 = 1 \/ s1 = 2 \/ s1 = 3 \/ s1 = 4 \/ s1 = 5 \/ s1 = 6) as C1 by lia.
  assert (s2 = 1 \/ s2 = 2 \/ s2 = 3 \/ s2 = 4 \/ s2 = 5 \/ s2 = 6) as C2 by lia.
  destruct C1 as [-> | [-> | [-> | [-> | [-> | ->]]]]];
  destruct C2 as [-> | [-> | [-> | [-> | [-> | ->]]]]];
    try lia; cbn; intros E1 E2; injection E1 as <-; injection E2 as <-; cbn; lia.
Qed.


Lemma num_ltb_num a b : num_ltb (num a) (num b) = (a <? b).
Proof.
  unfold num_ltb, num. rewrite eq_iff_eq_true, negb_true_iff, Z.ltb_lt.
  rewrite <- not_true_iff_false, Qle_bool_iff, <- Zle_Qle. lia.
Qed.

Lemma Math_max_num a b : Math_max (num a) (num b) = num (Z.max a b).
Proof.
  unfold Math_max. cbn [isNaN num orb]. rewrite num_ltb_num.
  destruct (Z.ltb_spec a b); f_equal; lia.
Qed.


Lemma div_mono (c1 c2 : Z) (u1 u2 : Q) :
  0 <= c1 <= c2 -> (0 < u1)%Q -> (u1 <= u2)%Q ->
  (inject_Z c1 / u2 <= inject_Z c2 / u1)%Q.
Proof.
  intros [H0 Hc] H1 H2.
  assert (0 < u2)%Q as H3 by (eapply Qlt_le_trans; eassumption).
  assert (0 <= inject_Z c2 / u1)%Q as Hq.
  { apply Qle_shift_div_l; [exact H1|]. rewrite Qmult_0_l.
    rewrite <- (Zle_Qle 0). lia. }
  apply Qle_shift_div_r; [exact H3|].
  apply Qle_trans with (inject_Z c2 / u1 * u1)%Q.
  - setoid_replace (inject_Z c2 / u1 * u1)%Q with (inject_Z c2).
    + rewrite <- Zle_Qle. exact Hc.
    + field. intros E. rewrite E in H1. discriminate.
  - apply Qmult_le_compat_nonneg; split; try assumption;
      [apply Qle_refl | apply Qlt_le_weak; exact H1].
Qed.

Lemma num_eqb_zero_pos (u : Q) : (0 < u)%Q -> num_eqb (Finite u) (num 0) = false.
Proof.
  intros H. unfold num_eqb, num. apply not_true_iff_false. intros E.
  apply Qeq_bool_iff in E. rewrite E in H. discriminate.
Qed.

Lemma num_is_zero_pos (u : Q) : (0 < u)%Q -> num_is_zero (Finite u) = false.
Proof.
  intros H. unfold num_is_zero. destruct u as [n d]. cbn.
  apply Z.eqb_neq. unfold Qlt in H. cbn in H. lia.
Qed.


(** For a skin type of the table and a positive finite UV index the
    result is the formula's. *)
Lemma calculateTimeToBurn_formula s e (u : Q) :
  find (fun e => SkinTypeSelector.type e =? s) SkinTypeSelector.skinTypes = Some e ->
  (0 < u)%Q ->
  calculateTimeToBurn s (Finite u)
  = num (Z.max 5 (Qfloor (inject_Z (SkinTypeSelector.constant e) / u))).
Proof.
  intros E H. unfold calculateTimeToBurn. rewrite E, (num_eqb_zero_pos _ H).
  unfold num_div, num at 1. rewrite (num_is_zero_pos _ H).
  cbn [Math_floor]. apply Math_max_num.
Qed.




(** X3.  The time to burn never grows with the UV index and never shrinks
    with the skin type: for skin types [s1 <= s2] of the table and
    positive UV indices [u1 <= u2], type [s1] under [u2] burns no later
    than type [s2] under [u1]. *)
Theorem timeToBurn_monotone (s1 s2 : Z) (u1 u2 : Q) :
  1 <= s1 -> s1 <= s2 -> s2 <= 6 -> (0 < u1)%Q -> (u1 <= u2)%Q ->
  num_leb (calculateTimeToBurn s1 (Finite u2)) (calculateTimeToBurn s2 (Finite u1)) = true.
Proof.
  intros H1 H12 H2 Hu1 Hu.
  assert (0 < u2)%Q as Hu2 by (eapply Qlt_le_trans; eassumption).
  destruct (skinType_found s1 ltac:(lia)) as (e1 & E1 & B1).
  destruct (skinType_found s2 ltac:(lia)) as (e2 & E2 & B2).
  pose proof (skinType_constant_mono s1 s2 e1 e2 H1 H12 H2 E1 E2) as Hc.
  rewrite (calculateTimeToBurn_formula s1 e1 u2 E1 Hu2).
  rewrite (calculateTimeToBurn_formula s2 e2 u1 E2 Hu1).
  unfold num_leb. cbn [isNaN num negb andb]. fold (num (Z.max 5 (Qfloor (inject_Z (SkinTypeSelector.constant e2) / u1)))).
  fold (num (Z.max 5 (Qfloor (inject_Z (SkinTypeSelector.constant e1) / u2)))).
  rewrite num_ltb_num. apply negb_true_iff, Z.ltb_ge.
  apply Z.max_le_compat_l, Qfloor_resp_le, div_mono; [lia | exact Hu1 | exact Hu].
Qed.

Lemma timeToBurn_monotone_witness :
  num_leb (calculateTimeToBurn 2 (Finite (9 # 1))) (calculateTimeToBurn 4 (Finite (7 # 2))) = true.
Proof.
  apply timeToBurn_monotone; try lia; [reflexivity | discriminate].
Defined.


(* ================================================================= *)
(** ** What a refresh leaves in the state *)

Section RefreshFacts.

Variable rt : Runtime.

Lemma storeReadings_ok res st : snd (storeReadings res st) = Ok tt.
Proof. apply storeReadings_forecast. Qed.

Lemma successEnvelope_object data : successEnvelope data -> nullish data = false.
Proof. destruct data; try discriminate; reflexivity. Qed.

(** The state a refresh ends in, branch by branch. *)
Lemma fetch_failed now response st :
  (forall data, response = Ok data -> nullish data = true) ->
  fst (fetchUVData rt now response st)
  = fst (setIsLoading false
      (fst (setError (VStr "Failed to connect to UV service")
         (fst (setError VNull (fst (setIsLoading true st))))))).
Proof.
  intros H. unfold fetchUVData, tryCatchFinally, andThen, read, lift.
  destruct response as [data|e]; [rewrite (H data eq_refl)|]; reflexivity.
Qed.

Lemma fetch_gate_passed now data st :
  successEnvelope data ->
  fst (fetchUVData rt now (Ok data) st)
  = let s1 := fst (storeReadings data.["result"]
                     (fst (setError VNull (fst (setIsLoading true st))))) in
    match storeForecast rt (rawForecastOf data) s1 with
    | (s2, Ok _) => fst (setIsLoading false (fst (setLastUpdated (Some now) s2)))
    | (s2, Throw _) =>
        fst (setIsLoading false
               (fst (setError (VStr "Failed to connect to UV service") s2)))
    end.
Proof.
  intros Hs. pose proof (successEnvelope_object _ Hs) as Hn.
  unfold fetchUVData, tryCatchFinally, andThen, read, lift.
  rewrite Hn. unfold successEnvelope in Hs. cbn [fst snd setIsLoading setError update].
  rewrite Hs.
  match goal with |- context [storeReadings ?r ?s] =>
    pose proof (storeReadings_ok r s) as H1;
    destruct (storeReadings r s) as [s1 r1] end.
  cbn [fst snd] in *. subst r1.
  destruct (storeForecast rt (rawForecastOf data) s1) as [s2 [[]|e]]; reflexivity.
Qed.

Lemma fetch_gate_failed now data st :
  nullish data = false ->
  truthy data.["success"] && truthy data.["result"] = false ->
  fst (fetchUVData rt now (Ok data) st)
  = let s0 := fst (setError VNull (fst (setIsLoading true st))) in
    if truthy data.["forecast"] && isArray data.["forecast"] then
      match storeForecast rt data.["forecast"] s0 with
      | (s2, Ok _) => fst (setIsLoading false (fst (setLastUpdated (Some now) s2)))
      | (s2, Throw _) =>
          fst (setIsLoading false
                 (fst (setError (VStr "Failed to connect to UV service") s2)))
      end
    else
      fst (setIsLoading false
             (fst (setError (or_else data.["error"] (VStr "Failed to fetch UV data")) s0))).
Proof.
  intros Hn Hs.
  unfold fetchUVData, tryCatchFinally, andThen, read, lift.
  rewrite Hn. cbn [fst snd setIsLoading setError update]. rewrite Hs.
  destruct (truthy data.["forecast"] && isArray data.["forecast"]); [|reflexivity].
  match goal with |- context [storeForecast ?f ?r ?s] =>
    destruct (storeForecast f r s) as [s2 [[]|e]] end; reflexivity.
Qed.

Lemma storeForecast_array raws st :
  storeForecast rt (VArr raws) st
  = match buildSeries rt raws with
    | Ok series => setForecast series st
    | Throw e => (st, Throw e)
    end.
Proof.
  unfold storeForecast, andThen, lift. destruct (buildSeries rt raws); reflexivity.
Qed.

End RefreshFacts.

(** X4.  A refresh that cannot reach the service, or gets [null] for a
    body, keeps every reading, the series and the time of the last
    update; it stores the connection error and clears the loading flag. *)
Theorem connection_failure_keeps_state (rt : Runtime) (now : Z)
    (response : result value) (st : Dashboard) :
  (forall data, response = Ok data -> nullish data = true) ->
  fst (fetchUVData rt now response st)
  = {| uvIndex := uvIndex st; uvMax := uvMax st; uvMaxTime := uvMaxTime st;
       safeExposureTimes := safeExposureTimes st; sunInfo := sunInfo st;
       forecast := forecast st; isLoading := false;
       error := VStr "Failed to connect to UV service";
       lastUpdated := lastUpdated st |}.
Proof. intros H. rewrite fetch_failed by exact H. reflexivity. Qed.

Lemma connection_failure_keeps_state_witness :
  fst (fetchUVData RefEngine.engine 1700000300000 (Ok VNull) loadedState)
  = {| uvIndex := num 2; uvMax := num 9; uvMaxTime := "";
       safeExposureTimes := []; sunInfo := VNull;
       forecast := hourly 2; isLoading := false;
       error := VStr "Failed to connect to UV service";
       lastUpdated := Some 1700000000000 |}.
Proof.
  apply (connection_failure_keeps_state RefEngine.engine 1700000300000 (Ok VNull) loadedState).
  intros data [= <-]. reflexivity.
Defined.

(** X5.  An envelope that fails the gate of line 177 and has no forecast
    array at its top level is an error envelope: its [error] entry, or
    the default message when that entry is missing or falsy, becomes the
    error shown; it is never empty, and the readings, the series and the
    time of the last update stay as they were. *)
Theorem error_envelope_sets_message (rt : Runtime) (now : Z) (data : value)
    (st : Dashboard) :
  nullish data = false ->
  truthy data.["success"] && truthy data.["result"] = false ->
  truthy data.["forecast"] && isArray data.["forecast"] = false ->
  fst (fetchUVData rt now (Ok data) st)
  = {| uvIndex := uvIndex st; uvMax := uvMax st; uvMaxTime := uvMaxTime st;
       safeExposureTimes := safeExposureTimes st; sunInfo := sunInfo st;
       forecast := forecast st; isLoading := false;
       error := or_else data.["error"] (VStr "Failed to fetch UV data");
       lastUpdated := lastUpdated st |} /\
  truthy (error (fst (fetchUVData rt now (Ok data) st))) = true.
Proof.
  intros Hn Hs Hf. rewrite fetch_gate_failed by assumption.
  cbn zeta. rewrite Hf. split; [reflexivity|].
  cbn. unfold or_else. destruct (truthy data.["error"]) eqn:E; [exact E | reflexivity].
Qed.

Lemma error_envelope_sets_message_witness :
  fst (fetchUVData RefEngine.engine 1700000300000
         (Ok (VObj [("error", VStr "API key invalid or rate limit exceeded")])) loadedState)
  = {| uvIndex := num 2; uvMax := num 9; uvMaxTime := "";
       safeExposureTimes := []; sunInfo := VNull;
       forecast := hourly 2; isLoading := false;
       error := VStr "API key invalid or rate limit exceeded";
       lastUpdated := Some 1700000000000 |} /\
  truthy (error (fst (fetchUVData RefEngine.engine 1700000300000
                        (Ok (VObj [("error", VStr "API key invalid or rate limit exceeded")]))
                        loadedState))) = true.
Proof.
  apply (error_envelope_sets_message RefEngine.engine 1700000300000
           (VObj [("error", VStr "API key invalid or rate limit exceeded")]) loadedState);
    reflexivity.
Defined.

Section RefreshTheorems.

Variable rt : Runtime.

(** [storeForecast] touches the series only. *)
Lemma storeForecast_fields raw st :
  let st' := fst (storeForecast rt raw st) in
  uvIndex st' = uvIndex st /\ uvMax st' = uvMax st /\ uvMaxTime st' = uvMaxTime st /\
  safeExposureTimes st' = safeExposureTimes st /\ sunInfo st' = sunInfo st /\
  isLoading st' = isLoading st /\ error st' = error st /\
  lastUpdated st' = lastUpdated st /\
  (forall e, snd (storeForecast rt raw st) = Throw e -> forecast st' = forecast st).
Proof.
  destruct raw; cbn; try (repeat split; try discriminate; reflexivity).
  unfold andThen, lift. destruct (buildSeries rt items); cbn;
    repeat split; try discriminate; reflexivity.
Qed.

(** Past the gate the readings are stored whatever becomes of the
    forecast. *)
Lemma fetch_gate_passed_readings now data st :
  successEnvelope data ->
  let s1 := fst (storeReadings data.["result"]
                   (fst (setError VNull (fst (setIsLoading true st))))) in
  let st' := fst (fetchUVData rt now (Ok data) st) in
  uvIndex st' = uvIndex s1 /\ uvMax st' = uvMax s1 /\ uvMaxTime st' = uvMaxTime s1 /\
  safeExposureTimes st' = safeExposureTimes s1 /\ sunInfo st' = sunInfo s1 /\
  isLoading st' = false.
Proof.
  intros Hs s1 st'. subst st'. rewrite fetch_gate_passed by exact Hs. cbn zeta. fold s1.
  pose proof (storeForecast_fields (rawForecastOf data) s1) as H. cbn zeta in H.
  destruct (storeForecast rt (rawForecastOf data) s1) as [s2 [[]|e]];
    cbn [fst snd] in H; destruct H as (H1 & H2 & H3 & H4 & H5 & _);
    cbn; repeat split; assumption.
Qed.

Lemma storeReadings_uvIndex res st u :
  res.["uv"] = VNum u -> uvIndex (fst (storeReadings res st)) = u.
Proof.
  intros E. unfold storeReadings, andThen, setUvIndex, setUvMax, setUvMaxTime,
    setSafeExposureTimes, setSunInfo, update, done.
  rewrite E. destruct res.["uv_max"], res.["uv_max_time"]; reflexivity.
Qed.

Lemma storeReadings_safeExposureTimes res st :
  safeExposureTimes (fst (storeReadings res st))
  = [("st1", opt_prop res.["safe_exposure_time"] "st1" ?? VNull);
     ("st2", opt_prop res.["safe_exposure_time"] "st2" ?? VNull);
     ("st3", opt_prop res.["safe_exposure_time"] "st3" ?? VNull);
     ("st4", opt_prop res.["safe_exposure_time"] "st4" ?? VNull);
     ("st5", opt_prop res.["safe_exposure_time"] "st5" ?? VNull);
     ("st6", opt_prop res.["safe_exposure_time"] "st6" ?? VNull)].
Proof.
  unfold storeReadings, andThen, setUvIndex, setUvMax, setUvMaxTime,
    setSafeExposureTimes, setSunInfo, update, done.
  destruct res.["uv"], res.["uv_max"], res.["uv_max_time"]; reflexivity.
Qed.

(** A number above the range of Date in the time-like field: [new Date]
    is invalid and [toISOString] throws. *)
Lemma normalizePoint_out_of_range p n :
  truthy p = true -> timeField p = VNum n ->
  num_gtb n (num 8640000000000000) = true ->
  normalizePoint rt p = Throw RangeError.
Proof.
  intros Hp Ht Hn. unfold normalizePoint, resolveTimestamp. rewrite Hp, Ht. cbn [negb].
  destruct n as [| | |q]; try discriminate.
  - reflexivity.
  - apply num_gtb_Finite in Hn.
    assert (num_gtb (Finite q) (num 1000000000000) = true) as H12.
    { apply num_gtb_Finite. eapply Qlt_trans; [|exact Hn]. reflexivity. }
    unfold resolveNumber. rewrite H12.
    assert (clipNumber (Finite q) = None) as ->; [|reflexivity].
    unfold clipNumber.
    destruct (Qle_bool (Qabs q) (inject_Z maxTime)) eqn:E; [|reflexivity].
    apply Qle_bool_iff in E. exfalso.
    apply (Qlt_irrefl (inject_Z 8640000000000000)).
    eapply Qlt_le_trans; [exact Hn|].
    eapply Qle_trans; [apply Qle_Qabs | exact E].
Qed.

Lemma buildSeries_throws raws1 p raws2 e :
  Forall (fun r => exists o, normalizePoint rt r = Ok o) raws1 ->
  normalizePoint rt p = Throw e ->
  buildSeries rt (raws1 ++ p :: raws2) = Throw e.
Proof.
  intros H Hp. unfold buildSeries.
  assert (mapM (normalizePoint rt) (raws1 ++ p :: raws2) = Throw e) as ->; [|reflexivity].
  induction H as [|r raws1 [o Ho] _ IH]; cbn.
  - rewrite Hp. reflexivity.
  - rewrite Ho. cbn [bind]. rewrite IH. reflexivity.
Qed.

End RefreshTheorems.

(** X6.  One record whose numeric timestamp lies above the range of Date
    (8.64e15) makes [normalizePoint] throw a RangeError instead of
    rejecting the record, and the whole refresh is lost with it: the
    previous series and time of update stay, the error shown is the
    connection error, although the current UV index of the same response
    has been stored. *)
Theorem out_of_range_timestamp_aborts_refresh (rt : Runtime) (now : Z) (data : value)
    (raws1 : list value) (p : value) (raws2 : list value) (n : number)
    (st : Dashboard) :
  successEnvelope data ->
  rawForecastOf data = VArr (raws1 ++ p :: raws2) ->
  Forall (fun r => exists o, normalizePoint rt r = Ok o) raws1 ->
  truthy p = true -> timeField p = VNum n ->
  num_gtb n (num 8640000000000000) = true ->
  normalizePoint rt p = Throw RangeError /\
  forecast (fst (fetchUVData rt now (Ok data) st)) = forecast st /\
  lastUpdated (fst (fetchUVData rt now (Ok data) st)) = lastUpdated st /\
  error (fst (fetchUVData rt now (Ok data) st)) = VStr "Failed to connect to UV service" /\
  isLoading (fst (fetchUVData rt now (Ok data) st)) = false /\
  (forall u, data.["result"].["uv"] = VNum u ->
             uvIndex (fst (fetchUVData rt now (Ok data) st)) = u).
Proof.
  intros Hs Hraw H1 Hp Ht Hn.
  pose proof (normalizePoint_out_of_range rt p n Hp Ht Hn) as Hthrow.
  split; [exact Hthrow|].
  pose proof (fetch_gate_passed_readings rt now data st Hs) as R. cbn zeta in R.
  destruct R as (Ru & _ & _ & _ & _ & Rl).
  rewrite Ru, Rl.
  rewrite fetch_gate_passed by exact Hs. cbn zeta.
  rewrite Hraw, storeForecast_array, (buildSeries_throws rt raws1 p raws2 _ H1 Hthrow).
  match goal with |- context [storeReadings ?r ?s] =>
    destruct (storeReadings_forecast r s) as (_ & H2 & H3) end.
  cbn [fst snd setError setIsLoading update forecast lastUpdated error].
  repeat split; try assumption.
  - unfold storeReadings, andThen, setUvIndex, setUvMax, setUvMaxTime,
      setSafeExposureTimes, setSunInfo, update, done.
    destruct (data.["result"]).["uv"], (data.["result"]).["uv_max"],
      (data.["result"]).["uv_max_time"]; reflexivity.
  - intros u Hu. apply storeReadings_uvIndex. exact Hu.
Qed.

Lemma out_of_range_timestamp_aborts_refresh_witness :
  normalizePoint RefEngine.engine (numericRecord 10000000000000000) = Throw RangeError /\
  forecast (fst (fetchUVData RefEngine.engine 1700000300000
                   (Ok (envelope currentReadings
                          (VArr ([numericRecord 1700000000]
                                 ++ numericRecord 10000000000000000 :: []))))
                   loadedState)) = forecast loadedState /\
  lastUpdated (fst (fetchUVData RefEngine.engine 1700000300000
                   (Ok (envelope currentReadings
                          (VArr ([numericRecord 1700000000]
                                 ++ numericRecord 10000000000000000 :: []))))
                   loadedState)) = lastUpdated loadedState /\
  error (fst (fetchUVData RefEngine.engine 1700000300000
                   (Ok (envelope currentReadings
                          (VArr ([numericRecord 1700000000]
                                 ++ numericRecord 10000000000000000 :: []))))
                   loadedState)) = VStr "Failed to connect to UV service" /\
  isLoading (fst (fetchUVData RefEngine.engine 1700000300000
                   (Ok (envelope currentReadings
                          (VArr ([numericRecord 1700000000]
                                 ++ numericRecord 10000000000000000 :: []))))
                   loadedState)) = false /\
  (forall u, (envelope currentReadings
                (VArr ([numericRecord 1700000000]
                       ++ numericRecord 10000000000000000 :: []))).["result"].["uv"] = VNum u ->
             uvIndex (fst (fetchUVData RefEngine.engine 1700000300000
                   (Ok (envelope currentReadings
                          (VArr ([numericRecord 1700000000]
                                 ++ numericRecord 10000000000000000 :: []))))
                   loadedState)) = u).
Proof.
  apply (out_of_range_timestamp_aborts_refresh RefEngine.engine 1700000300000
           (envelope currentReadings
              (VArr ([numericRecord 1700000000] ++ numericRecord 10000000000000000 :: [])))
           [numericRecord 1700000000] (numericRecord 10000000000000000) []
           (num 10000000000000000) loadedState);
    try reflexivity.
  constructor; [|constructor]. eexists. vm_compute. reflexivity.
Defined.

Section SeriesTheorems.

Variable rt : Runtime.

Lemma deliversForecast_object data raws : deliversForecast data raws -> nullish data = false.
Proof.
  intros [H | (H & _)]; [|apply successEnvelope_object; exact H].
  destruct data; try discriminate; reflexivity.
Qed.

(** A delivered array that the Series Builder gets through is stored,
    with the time of the update and no error. *)
Lemma fetch_delivers now data raws series st :
  deliversForecast data raws -> buildSeries rt raws = Ok series ->
  forecast (fst (fetchUVData rt now (Ok data) st)) = series /\
  error (fst (fetchUVData rt now (Ok data) st)) = VNull /\
  lastUpdated (fst (fetchUVData rt now (Ok data) st)) = Some now /\
  isLoading (fst (fetchUVData rt now (Ok data) st)) = false.
Proof.
  intros Hd Hb. pose proof (deliversForecast_object _ _ Hd) as Hn.
  destruct (truthy data.["success"] && truthy data.["result"]) eqn:Hs.
  - assert (rawForecastOf data = VArr raws) as Hraw.
    { unfold rawForecastOf. destruct Hd as [E | (_ & E1 & E2)].
      - rewrite E. reflexivity.
      - rewrite E1.
        assert (opt_prop data.["result"] "forecast" = VArr raws) as ->; [|exact E2].
        unfold opt_prop. apply andb_prop in Hs. destruct Hs as [_ Hr].
        destruct data.["result"]; try discriminate; exact E2. }
    rewrite fetch_gate_passed by exact Hs. cbn zeta.
    rewrite Hraw, storeForecast_array, Hb.
    match goal with |- context [storeReadings ?r ?s] =>
      destruct (storeReadings_forecast r s) as (_ & H2 & H3) end.
    cbn [fst snd setForecast setLastUpdated setIsLoading update
         forecast error lastUpdated isLoading].
    repeat split. exact H3.
  - destruct Hd as [E | (E & _)]; [|unfold successEnvelope in E; congruence].
    rewrite fetch_gate_failed by assumption. cbn zeta. rewrite E.
    cbn [truthy isArray andb]. rewrite storeForecast_array, Hb.
    repeat split.
Qed.

Lemma insert_perm {A : Type} (cmp : A -> A -> result number) x l r :
  insert cmp x l = Ok r -> Permutation (x :: l) r.
Proof.
  revert r. induction l as [|y l IH]; cbn [insert]; intros r.
  - intros [= <-]. apply Permutation_refl.
  - destruct (SortCompare cmp x y) as [[|]|e]; cbn [bind]; try discriminate.
    + destruct (insert cmp x l) as [r'|e] eqn:E; cbn [bind]; [|discriminate].
      intros [= <-]. eapply perm_trans; [apply perm_swap|].
      apply perm_skip, IH. reflexivity.
    + intros [= <-]. apply Permutation_refl.
Qed.

Lemma sort_perm {A : Type} (cmp : A -> A -> result number) l r :
  sort cmp l = Ok r -> Permutation l r.
Proof.
  revert r. induction l as [|x l IH]; cbn [sort]; intros r.
  - intros [= <-]. constructor.
  - destruct (sort cmp l) as [s|e]; cbn [bind]; [|discriminate].
    intros H. apply insert_perm in H.
    eapply perm_trans; [apply perm_skip, IH; reflexivity | exact H].
Qed.

Lemma resolveSunPosition_valid p sp :
  resolveSunPosition rt p = Ok (Some sp) ->
  isNaN (azimuth sp) = false /\ isNaN (altitude sp) = false.
Proof.
  unfold resolveSunPosition.
  destruct (truthy _ && String.eqb _ _); [|discriminate].
  destruct (ToNumber rt _) as [az|e]; cbn [bind]; [|discriminate].
  destruct (ToNumber rt _) as [alt|e]; cbn [bind]; [|discriminate].
  destruct (isNaN az) eqn:Ea, (isNaN alt) eqn:El; cbn [negb andb]; try discriminate.
  intros [= <-]. split; assumption.
Qed.

Lemma normalizePoint_wellFormed p pt :
  normalizePoint rt p = Ok (Some pt) -> wellFormed pt.
Proof.
  intros H. apply normalizePoint_fields in H.
  destruct H as (_ & Ht & _ & _ & Hu & Hs).
  split; [exact Hu|]. split; [exact Ht|].
  destruct (sun_position pt) as [sp|]; [|exact I].
  exact (resolveSunPosition_valid p sp Hs).
Qed.

Lemma dropNull_wellFormed raws mapped :
  Forall2 (fun p o => normalizePoint rt p = Ok o) raws mapped ->
  Forall wellFormed (dropNull mapped).
Proof.
  induction 1 as [|p o raws mapped Hn _ IH]; [constructor|].
  destruct o as [pt|]; cbn [dropNull]; [|exact IH].
  constructor; [exact (normalizePoint_wellFormed p pt Hn) | exact IH].
Qed.

Lemma buildSeries_wellFormed raws series :
  buildSeries rt raws = Ok series -> Forall wellFormed series.
Proof.
  unfold buildSeries.
  destruct (mapM (normalizePoint rt) raws) as [mapped|e] eqn:Em; cbn [bind]; [|discriminate].
  intros H. apply sort_perm in H.
  eapply Permutation_Forall; [exact H|].
  apply (dropNull_wellFormed raws). apply mapM_Forall2. exact Em.
Qed.

Lemma storeForecast_wellFormed raw st :
  Forall wellFormed (forecast st) ->
  Forall wellFormed (forecast (fst (storeForecast rt raw st))).
Proof.
  intros H. destruct raw; try (cbn; constructor).
  rewrite storeForecast_array. destruct (buildSeries rt items) as [series|e] eqn:E.
  - cbn. exact (buildSeries_wellFormed _ _ E).
  - exact H.
Qed.

Lemma fetch_wellFormed now response st :
  Forall wellFormed (forecast st) ->
  Forall wellFormed (forecast (fst (fetchUVData rt now response st))).
Proof.
  intros H.
  destruct response as [data|e];
    [destruct (nullish data) eqn:Hn|].
  - rewrite fetch_failed; [exact H | intros d [= <-]; exact Hn].
  - destruct (truthy data.["success"] && truthy data.["result"]) eqn:Hs.
    + rewrite fetch_gate_passed by exact Hs. cbn zeta.
      match goal with |- context [storeForecast rt ?r ?s] =>
        pose proof (storeForecast_wellFormed r s) as W;
        destruct (storeForecast rt r s) as [s2 [[]|e]] end;
        cbn [fst] in W; cbn; apply W;
        match goal with |- context [storeReadings ?r ?s] =>
          destruct (storeReadings_forecast r s) as (_ & H2 & _); rewrite H2 end;
        exact H.
    + rewrite fetch_gate_failed by assumption. cbn zeta.
      destruct (truthy data.["forecast"] && isArray data.["forecast"]); [|exact H].
      match goal with |- context [storeForecast rt ?r ?s] =>
        pose proof (storeForecast_wellFormed r s) as W;
        destruct (storeForecast rt r s) as [s2 [[]|e]] end;
        cbn [fst] in W; cbn; apply W; exact H.
  - rewrite fetch_failed; [exact H | intros d [=]].
Qed.

End SeriesTheorems.

(** X7.  A forecast array whose records carry a number, a string or
    nothing in the time-like field, and which the Series Builder gets
    through, is stored in chronological order: the stored series holds
    exactly the points that survive normalisation, points of equal time
    keep the order of the response, and the refresh records its time and
    no error. *)
Theorem refresh_stores_sorted_series (rt : Runtime) (now : Z) (data : value)
    (raws : list value) (series : list UVForecastPoint) (st : Dashboard) :
  deliversForecast data raws ->
  Forall (fun p => plainTime p = true) raws ->
  buildSeries rt raws = Ok series ->
  forecast (fst (fetchUVData rt now (Ok data) st)) = series /\
  error (fst (fetchUVData rt now (Ok data) st)) = VNull /\
  lastUpdated (fst (fetchUVData rt now (Ok data) st)) = Some now /\
  chronological rt series /\
  exists mapped,
    mapM (normalizePoint rt) raws = Ok mapped /\
    Permutation (dropNull mapped) series /\
    forall k, filter (fun p => keyOf rt p =? k) series
              = filter (fun p => keyOf rt p =? k) (dropNull mapped).
Proof.
  intros Hd Hp Hb.
  destruct (fetch_delivers rt now data raws series st Hd Hb) as (F & E & L & _).
  destruct (buildSeries_plain rt raws series Hp Hb) as (mapped & Hm & Hc & Hperm & Hst).
  repeat split; try assumption; try apply Hc.
  exists mapped. auto.
Qed.

(** X8.  In every state reached from the initial one by refreshes,
    whatever the responses, each stored point has a UV value that is not
    NaN and a timestamp that is set, and a sun position only with both
    coordinates. *)
Theorem stored_points_are_well_formed (rt : Runtime) (rs : list (Z * result value)) :
  Forall wellFormed (forecast (refreshes rt rs initialState)).
Proof.
  unfold refreshes.
  assert (Forall wellFormed (forecast initialState)) as H by constructor.
  revert H. generalize initialState. induction rs as [|r rs IH]; intros st H; cbn.
  - exact H.
  - apply IH. apply fetch_wellFormed. exact H.
Qed.

Lemma refresh_stores_sorted_series_witness :
  forecast (fst (fetchUVData RefEngine.engine 1700000300000
                   (Ok (envelope currentReadings (VArr [at2033; at2017]))) loadedState))
  = [ {| uv := num 3; uv_time := VStr "2017-07-14T02:40:00.000Z"; sun_position := None |};
      {| uv := num 1; uv_time := VStr "2033-05-18T03:33:20.000Z"; sun_position := None |} ] /\
  error (fst (fetchUVData RefEngine.engine 1700000300000
                (Ok (envelope currentReadings (VArr [at2033; at2017]))) loadedState))
  = VNull /\
  lastUpdated (fst (fetchUVData RefEngine.engine 1700000300000
                      (Ok (envelope currentReadings (VArr [at2033; at2017]))) loadedState))
  = Some 1700000300000 /\
  chronological RefEngine.engine
    [ {| uv := num 3; uv_time := VStr "2017-07-14T02:40:00.000Z"; sun_position := None |};
      {| uv := num 1; uv_time := VStr "2033-05-18T03:33:20.000Z"; sun_position := None |} ] /\
  exists mapped,
    mapM (normalizePoint RefEngine.engine) [at2033; at2017] = Ok mapped /\
    Permutation (dropNull mapped)
      [ {| uv := num 3; uv_time := VStr "2017-07-14T02:40:00.000Z"; sun_position := None |};
        {| uv := num 1; uv_time := VStr "2033-05-18T03:33:20.000Z"; sun_position := None |} ] /\
    forall k,
      filter (fun p => keyOf RefEngine.engine p =? k)
        [ {| uv := num 3; uv_time := VStr "2017-07-14T02:40:00.000Z"; sun_position := None |};
          {| uv := num 1; uv_time := VStr "2033-05-18T03:33:20.000Z"; sun_position := None |} ]
      = filter (fun p => keyOf RefEngine.engine p =? k) (dropNull mapped).
Proof.
  apply (refresh_stores_sorted_series RefEngine.engine 1700000300000
           (envelope currentReadings (VArr [at2033; at2017])) [at2033; at2017]).
  - left. reflexivity.
  - repeat constructor.
  - vm_compute. reflexivity.
Defined.

Section PipelineFacts.

Variable rt : Runtime.

Lemma chartData_uv l chart :
  chartData rt l = Ok chart -> map Chart.uv chart = map uv l.
Proof.
  unfold chartData. revert chart. induction l as [|p l IH]; cbn [mapM]; intros chart.
  - intros [= <-]. reflexivity.
  - destruct (newDate rt (uv_time p)) as [d|e]; cbn [bind]; [|discriminate].
    match goal with |- context [mapM ?f l] => destruct (mapM f l) as [ys|e] eqn:E end;
      cbn [bind]; [|discriminate].
    intros [= <-]. cbn [map Chart.uv]. f_equal. apply IH. reflexivity.
Qed.

Lemma chartData_timed l :
  Forall (timed rt) l -> exists chart, chartData rt l = Ok chart.
Proof.
  unfold chartData. induction 1 as [|p l [t Ht] _ [chart IH]]; cbn [mapM].
  - eexists; reflexivity.
  - rewrite Ht. cbn [bind]. rewrite IH. cbn [bind]. eexists; reflexivity.
Qed.

Lemma getForecast24h_chronological l :
  chronological rt l -> getForecast24h rt l = Ok (firstn 24 l).
Proof.
  intros H. unfold getForecast24h.
  destruct l as [|p l]; [reflexivity|].
  cbn [List.length Nat.eqb]. rewrite sort_chronological by exact H. reflexivity.
Qed.

Lemma getForecast24h_window l w :
  getForecast24h rt l = Ok w ->
  (List.length w <= 24)%nat /\ exists rest, Permutation l (w ++ rest).
Proof.
  unfold getForecast24h. destruct (List.length l =? 0)%nat eqn:E.
  - intros [= <-]. split; [cbn; lia|]. exists l. apply Permutation_refl.
  - destruct (sort (byTime rt) l) as [sorted|e] eqn:Es; cbn [bind]; [|discriminate].
    intros H. assert (w = firstn 24 sorted) as -> by congruence. split.
    + apply firstn_le_length.
    + exists (skipn 24 sorted). rewrite firstn_skipn. exact (sort_perm _ _ _ Es).
Qed.

End PipelineFacts.

(** X9.  After such a refresh the page draws the first 24 points of the
    stored series: sorting again in [getForecast24h] changes nothing, the
    chart data are produced (no label computation throws), one chart
    point per window point with the same UV value, and the segments are
    those of the chart data. *)
Theorem window_after_refresh (rt : Runtime) (now : Z) (data : value)
    (raws : list value) (series : list UVForecastPoint) (st : Dashboard) :
  deliversForecast data raws ->
  Forall (fun p => plainTime p = true) raws ->
  buildSeries rt raws = Ok series ->
  getForecast24h rt (forecast (fst (fetchUVData rt now (Ok data) st)))
  = Ok (firstn 24 series) /\
  exists chart,
    chartData rt (firstn 24 series) = Ok chart /\
    map Chart.uv chart = map uv (firstn 24 series) /\
    lineSegments rt (forecast (fst (fetchUVData rt now (Ok data) st)))
    = Ok (splitIntoSegments chart).
Proof.
  intros Hd Hp Hb.
  destruct (fetch_delivers rt now data raws series st Hd Hb) as (-> & _).
  destruct (buildSeries_plain rt raws series Hp Hb) as (_ & _ & Hc & _).
  pose proof (getForecast24h_chronological rt series Hc) as Hw.
  split; [exact Hw|].
  destruct (chartData_timed rt (firstn 24 series)) as [chart Ec].
  { destruct Hc as [Ht _]. rewrite <- (firstn_skipn 24 series) in Ht.
    apply Forall_app in Ht. apply Ht. }
  exists chart. split; [exact Ec|]. split; [exact (chartData_uv rt _ _ Ec)|].
  unfold lineSegments. rewrite Hw. cbn [bind]. rewrite Ec. reflexivity.
Qed.

Lemma window_after_refresh_witness :
  getForecast24h RefEngine.engine
    (forecast (fst (fetchUVData RefEngine.engine 1700000300000
                      (Ok (envelope currentReadings (VArr [at2033; at2017]))) loadedState)))
  = Ok (firstn 24
          [ {| uv := num 3; uv_time := VStr "2017-07-14T02:40:00.000Z"; sun_position := None |};
            {| uv := num 1; uv_time := VStr "2033-05-18T03:33:20.000Z"; sun_position := None |} ]) /\
  exists chart,
    chartData RefEngine.engine
      (firstn 24
         [ {| uv := num 3; uv_time := VStr "2017-07-14T02:40:00.000Z"; sun_position := None |};
           {| uv := num 1; uv_time := VStr "2033-05-18T03:33:20.000Z"; sun_position := None |} ])
    = Ok chart /\
    map Chart.uv chart
    = map uv
        (firstn 24
           [ {| uv := num 3; uv_time := VStr "2017-07-14T02:40:00.000Z"; sun_position := None |};
             {| uv := num 1; uv_time := VStr "2033-05-18T03:33:20.000Z"; sun_position := None |} ]) /\
    lineSegments RefEngine.engine
      (forecast (fst (fetchUVData RefEngine.engine 1700000300000
                        (Ok (envelope currentReadings (VArr [at2033; at2017]))) loadedState)))
    = Ok (splitIntoSegments chart).
Proof.
  apply (window_after_refresh RefEngine.engine 1700000300000
           (envelope currentReadings (VArr [at2033; at2017])) [at2033; at2017]).
  - left. reflexivity.
  - repeat constructor.
  - vm_compute. reflexivity.
Defined.

(** X10.  Whatever series is in the state, when the chart is produced
    the window has at most 24 points, all taken from the series (none
    invented, none repeated), and the segments, laid end to end, carry
    the UV values of the window in order. *)
Theorem segments_carry_window (rt : Runtime) (forecast : list UVForecastPoint)
    (segs : list (list Chart.point)) :
  lineSegments rt forecast = Ok segs ->
  exists w rest,
    getForecast24h rt forecast = Ok w /\
    (List.length w <= 24)%nat /\
    Permutation forecast (w ++ rest) /\
    map Chart.uv (List.concat segs) = map uv w.
Proof.
  unfold lineSegments.
  destruct (getForecast24h rt forecast) as [w|e] eqn:Ew; cbn [bind]; [|discriminate].
  destruct (chartData rt w) as [chart|e] eqn:Ec; cbn [bind]; [|discriminate].
  intros [= <-].
  destruct (getForecast24h_window rt _ _ Ew) as (Hlen & rest & Hperm).
  exists w, rest. repeat split; try assumption.
  destruct (splitIntoSegments_spec chart) as [-> _].
  exact (chartData_uv rt _ _ Ec).
Qed.

Lemma segments_carry_window_witness :
  exists w rest,
    getForecast24h RefEngine.engine (hourly 3) = Ok w /\
    (List.length w <= 24)%nat /\
    Permutation (hourly 3) (w ++ rest) /\
    map Chart.uv
      (List.concat [[chartPoint "12:00 am" 1; chartPoint "01:00 am" 1; chartPoint "02:00 am" 1]])
    = map uv w.
Proof.
  apply (segments_carry_window RefEngine.engine (hourly 3)). vm_compute. reflexivity.
Defined.

(* ================================================================= *)
(** ** The safe exposure time and the timer's duration *)

Lemma intToString_inj a b : intToString a = intToString b -> a = b.
Proof.
  assert (forall z, NilZero.int_of_string (intToString z) = Some (Z.to_int z)) as H.
  { intros z. apply NilZero.isi; intros E; pose proof (f_equal Z.of_int E) as E';
      rewrite DecimalZ.of_to in E'; cbn in E'; subst z; discriminate E. }
  intros E. apply DecimalZ.to_int_inj.
  pose proof (H a) as Ha. rewrite E, H in Ha. congruence.
Qed.

Lemma stKey_eqb k j :
  String.eqb ("st" ++ intToString k) ("st" ++ intToString j) = (k =? j).
Proof.
  cbn [String.append String.eqb Ascii.eqb Bool.eqb]. 
  destruct (Z.eqb_spec k j) as [->|N].
  - apply String.eqb_refl.
  - apply String.eqb_neq. intros E. apply N, intToString_inj, E.
Qed.

(** The object [storeReadings] builds answers [st1] to [st6] and nothing
    else. *)
Lemma lookup_safeExposureTimes (v1 v2 v3 v4 v5 v6 : value) k :
  (VObj [("st1", v1); ("st2", v2); ("st3", v3); ("st4", v4); ("st5", v5); ("st6", v6)])
    .[("st" ++ intToString k)%string]
  = if k =? 1 then v1 else if k =? 2 then v2 else if k =? 3 then v3
    else if k =? 4 then v4 else if k =? 5 then v5 else if k =? 6 then v6
    else VUndefined.
Proof.
  unfold prop. cbn [lookup].
  change "st1" with ("st" ++ intToString 1)%string.
  change "st2" with ("st" ++ intToString 2)%string.
  change "st3" with ("st" ++ intToString 3)%string.
  change "st4" with ("st" ++ intToString 4)%string.
  change "st5" with ("st" ++ intToString 5)%string.
  change "st6" with ("st" ++ intToString 6)%string.
  rewrite !stKey_eqb.
  repeat match goal with |- context [k =? ?j] => destruct (k =? j); [reflexivity|] end.
  reflexivity.
Qed.

Lemma coalesce_null_idem v : (v ?? VNull) ?? VNull = v ?? VNull.
Proof. destruct v; reflexivity. Qed.

(** X11.  Past the gate of line 177 the six safe exposure times of the
    response are stored, whatever becomes of the forecast, and
    [getApiSafeExposureTime] reads back, for the selected skin type 1 to
    6, the entry of the response, or [null] when the response has none;
    for any other skin type it answers [null]. *)
Theorem safe_exposure_round_trip (rt : Runtime) (now : Z) (data : value)
    (st : Dashboard) (k : Z) :
  successEnvelope data ->
  (1 <= k <= 6 ->
   getApiSafeExposureTime k (safeExposureTimes (fst (fetchUVData rt now (Ok data) st)))
   = opt_prop data.["result"].["safe_exposure_time"] ("st" ++ intToString k) ?? VNull) /\
  (~ 1 <= k <= 6 ->
   getApiSafeExposureTime k (safeExposureTimes (fst (fetchUVData rt now (Ok data) st)))
   = VNull).
Proof.
  intros Hs.
  pose proof (fetch_gate_passed_readings rt now data st Hs) as R. cbn zeta in R.
  destruct R as (_ & _ & _ & -> & _).
  rewrite storeReadings_safeExposureTimes.
  unfold getApiSafeExposureTime. cbn zeta. rewrite lookup_safeExposureTimes.
  split; intros Hk.
  - assert (k = 1 \/ k = 2 \/ k = 3 \/ k = 4 \/ k = 5 \/ k = 6) as C by lia.
    destruct C as [-> | [-> | [-> | [-> | [-> | ->]]]]];
      cbn [Z.eqb Pos.eqb]; apply coalesce_null_idem.
  - repeat match goal with |- context [k =? ?j] =>
             destruct (Z.eqb_spec k j); [lia|] end.
    reflexivity.
Qed.

Lemma safe_exposure_round_trip_witness :
  (1 <= 3 <= 6 ->
   getApiSafeExposureTime 3
     (safeExposureTimes (fst (fetchUVData RefEngine.engine 1700000300000
                                (Ok (envelope currentReadings VNull)) loadedState)))
   = opt_prop (envelope currentReadings VNull).["result"].["safe_exposure_time"]
       ("st" ++ intToString 3) ?? VNull) /\
  (~ 1 <= 3 <= 6 ->
   getApiSafeExposureTime 3
     (safeExposureTimes (fst (fetchUVData RefEngine.engine 1700000300000
                                (Ok (envelope currentReadings VNull)) loadedState)))
   = VNull).
Proof.
  apply (safe_exposure_round_trip RefEngine.engine 1700000300000
           (envelope currentReadings VNull) loadedState 3).
  reflexivity.
Defined.



(* ================================================================= *)
(** ** Protection advice and the gauge *)

Lemma num_ltb_Finite q z : num_ltb (Finite q) (num z) = true <-> (q < inject_Z z)%Q.
Proof.
  unfold num_ltb, num. rewrite negb_true_iff, <- not_true_iff_false, Qle_bool_iff.
  split; [apply Qnot_le_lt | apply Qlt_not_le].
Qed.

Lemma num_ltb_Finite_false q z : num_ltb (Finite q) (num z) = false <-> (inject_Z z <= q)%Q.
Proof.
  unfold num_ltb, num. rewrite negb_false_iff, Qle_bool_iff. reflexivity.
Qed.

Lemma num_leb_Finite q z : num_leb (Finite q) (num z) = true <-> (q <= inject_Z z)%Q.
Proof.
  unfold num_leb. cbn [isNaN num negb andb]. fold (num z).
  rewrite negb_true_iff. change (num_ltb (num z) (Finite q)) with (num_gtb (Finite q) (num z)).
  apply num_gtb_Finite_false.
Qed.

Lemma num_leb_Finite_false q z : num_leb (Finite q) (num z) = false <-> (inject_Z z < q)%Q.
Proof.
  unfold num_leb. cbn [isNaN num negb andb]. fold (num z).
  rewrite negb_false_iff. change (num_ltb (num z) (Finite q)) with (num_gtb (Finite q) (num z)).
  apply num_gtb_Finite.
Qed.

Ltac split_ltb :=
  repeat match goal with
         | |- context [num_ltb (Finite ?q) (num ?k)] =>
             let H := fresh "H" in
             destruct (num_ltb (Finite q) (num k)) eqn:H;
             [apply num_ltb_Finite in H | apply num_ltb_Finite_false in H]
         | |- context [num_leb (Finite ?q) (num ?k)] =>
             let H := fresh "H" in
             destruct (num_leb (Finite q) (num k)) eqn:H;
             [apply num_leb_Finite in H | apply num_leb_Finite_false in H]
         end;
  unfold inject_Z in *.

Lemma num_leb_ltb_trans u v k :
  num_leb u v = true -> num_ltb v (num k) = true -> num_ltb u (num k) = true.
Proof.
  unfold num_leb.
  destruct u as [| | |a], v as [| | |b]; cbn; intros H1 H2;
    try discriminate; try reflexivity.
  rewrite negb_involutive in H1. apply Qle_bool_iff in H1.
  rewrite negb_true_iff, <- not_true_iff_false, Qle_bool_iff in *.
  intros H. apply H2. eapply Qle_trans; eassumption.
Qed.

(** X13.  The advice card follows the categories of the chart: its level
    is the name of [getCategory] of the UV index; it always lists the
    same four items in the same order; and what is required never
    relaxes as the UV index grows. *)
Theorem advice_follows_category (u v : number) :
  Protection.level (getProtectionRecommendations u) = levelName (getCategory u) /\
  map Protection.icon (Protection.recommendations (getProtectionRecommendations u))
  = ["sunglasses"; "sunscreen"; "hat"; "shade"] /\
  (num_leb u v = true ->
   incl (requiredIcons (getProtectionRecommendations u))
        (requiredIcons (getProtectionRecommendations v))).
Proof.
  split; [|split].
  - unfold getProtectionRecommendations, getCategory.
    repeat match goal with |- context [num_ltb u ?k] => destruct (num_ltb u k) end;
      reflexivity.
  - unfold getProtectionRecommendations.
    repeat match goal with |- context [num_ltb u ?k] => destruct (num_ltb u k) end;
      reflexivity.
  - intros Huv.
    pose proof (num_leb_ltb_trans u v 3 Huv) as T3.
    pose proof (num_leb_ltb_trans u v 6 Huv) as T6.
    unfold getProtectionRecommendations.
    destruct (num_ltb u (num 3)); [intros x []|].
    destruct (num_ltb v (num 3)); [discriminate (T3 eq_refl)|].
    destruct (num_ltb u (num 6)).
    + repeat match goal with |- context [num_ltb v ?k] => destruct (num_ltb v k) end;
        unfold requiredIcons, incl; cbn; intros x Hx; tauto.
    + destruct (num_ltb v (num 6)); [discriminate (T6 eq_refl)|].
      repeat match goal with |- context [num_ltb ?w ?k] => destruct (num_ltb w k) end;
        cbn; intros x Hx; exact Hx.
Qed.

Lemma advice_follows_category_witness :
  Protection.level (getProtectionRecommendations (num 4)) = levelName (getCategory (num 4)) /\
  map Protection.icon (Protection.recommendations (getProtectionRecommendations (num 4)))
  = ["sunglasses"; "sunscreen"; "hat"; "shade"] /\
  (num_leb (num 4) (num 9) = true ->
   incl (requiredIcons (getProtectionRecommendations (num 4)))
        (requiredIcons (getProtectionRecommendations (num 9)))).
Proof. exact (advice_follows_category (num 4) (num 9)). Defined.

(** X14.  The gauge and the advice card cut the scale at different
    places ([<= 2, 5, 7, 10] against [< 3, 6, 8, 11]).  They print the
    same level for every whole UV index, and for a finite UV index in
    general exactly when it is not strictly between 2 and 3, 5 and 6,
    7 and 8, or 10 and 11. *)
Theorem gauge_and_advice_levels (q : Q) :
  (forall z : Z,
     UVGauge.level (UVGauge.getUVLevel (num z))
     = Protection.level (getProtectionRecommendations (num z))) /\
  (UVGauge.level (UVGauge.getUVLevel (Finite q))
   = Protection.level (getProtectionRecommendations (Finite q))
   <-> ~ betweenLevels q).
Proof.
  split.
  - intros z. unfold UVGauge.getUVLevel, getProtectionRecommendations, num.
    fold (num 2); fold (num 3); fold (num 5); fold (num 6); fold (num 7);
      fold (num 8); fold (num 10); fold (num 11).
    split_ltb; rewrite <- ?Zle_Qle, <- ?Zlt_Qlt in *; try reflexivity;
      exfalso; unfold Qle, Qlt in *; cbn in *; lia.
  - unfold UVGauge.getUVLevel, getProtectionRecommendations, betweenLevels.
    split_ltb; cbn [UVGauge.level Protection.level]; split;
      try (intros _; reflexivity);
      try (intros _ B; lra);
      try (intros E; discriminate E);
      try (intros N; exfalso; lra);
      try (intros N; exfalso; apply N;
           first [left; lra | right; left; lra | right; right; left; lra
                 | right; right; right; lra]).
Qed.


(* ================================================================= *)
(** ** The countdown *)












(* ================================================================= *)
(** ** Categories *)

(** X18.  [getCategory] is monotone: a UV value that is not smaller
    never falls in a lower category. *)
Theorem category_monotone (u v : number) :
  num_leb u v = true -> (rank (getCategory u) <= rank (getCategory v))%nat.
Proof.
  intros H.
  pose proof (num_leb_ltb_trans u v 3 H) as T3.
  pose proof (num_leb_ltb_trans u v 6 H) as T6.
  pose proof (num_leb_ltb_trans u v 8 H) as T8.
  pose proof (num_leb_ltb_trans u v 11 H) as T11.
  unfold getCategory.
  destruct (num_ltb u (num 3)); [cbn; lia|].
  destruct (num_ltb v (num 3)); [discriminate (T3 eq_refl)|].
  destruct (num_ltb u (num 6));
    [repeat match goal with |- context [num_ltb v ?k] => destruct (num_ltb v k) end;
     cbn; lia|].
  destruct (num_ltb v (num 6)); [discriminate (T6 eq_refl)|].
  destruct (num_ltb u (num 8));
    [repeat match goal with |- context [num_ltb v ?k] => destruct (num_ltb v k) end;
     cbn; lia|].
  destruct (num_ltb v (num 8)); [discriminate (T8 eq_refl)|].
  destruct (num_ltb u (num 11));
    [repeat match goal with |- context [num_ltb v ?k] => destruct (num_ltb v k) end;
     cbn; lia|].
  destruct (num_ltb v (num 11)); [discriminate (T11 eq_refl)|].
  cbn; lia.
Qed.

Lemma category_monotone_witness :
  (rank (getCategory (Finite (59 # 10))) <= rank (getCategory (num 6)))%nat.
Proof. apply category_monotone. reflexivity. Defined.

(* ================================================================= *)
(** ** A series of one category *)

Section UniformFacts.

Local Open Scope nat_scope.

Lemma hasChange_uniform d0 rest :
  hasChange (d0 :: rest) = false ->
  Forall (fun d => getCategory (Chart.uv d) = getCategory (Chart.uv d0)) rest.
Proof.
  revert d0. induction rest as [|d1 rest IH]; intros d0 H; [constructor|].
  cbn [hasChange] in H. apply orb_false_iff in H. destruct H as [H1 H2].
  apply negb_false_iff in H1.
  assert (getCategory (Chart.uv d0) = getCategory (Chart.uv d1)) as E.
  { destruct (getCategory (Chart.uv d0)), (getCategory (Chart.uv d1));
      try discriminate; reflexivity. }
  constructor; [symmetry; exact E|].
  rewrite E. apply IH. exact H2.
Qed.

Lemma Category_eqb_refl c : Category_eqb c c = true.
Proof. destruct c; reflexivity. Qed.

Lemma scanLoop_uniform data c fuel : forall i,
  Forall (fun d => getCategory (Chart.uv d) = c) (skipn i data) ->
  i <= List.length data -> List.length data - i <= fuel ->
  scanLoop fuel data {| segments := []; start := 0; currentCat := c; idx := i |}
  = {| segments := []; start := 0; currentCat := c; idx := List.length data |}.
Proof.
  induction fuel as [|fuel IH]; intros i Hu Hi Hf.
  - cbn [scanLoop]. assert (i = List.length data) as -> by lia. reflexivity.
  - cbn [scanLoop idx]. destruct (Nat.ltb_spec i (List.length data)) as [L|L].
    + unfold scanStep. cbn [idx currentCat segments start].
      destruct (nth_error data i) as [di|] eqn:Ei;
        [|apply nth_error_None in Ei; lia].
      assert (skipn i data = di :: skipn (S i) data) as Es.
      { clear -Ei. revert data Ei. induction i as [|i IHi]; intros [|x data] Ei;
          try discriminate.
        - cbn in Ei. injection Ei as ->. reflexivity.
        - cbn [nth_error] in Ei. cbn [skipn]. apply IHi. exact Ei. }
      rewrite Es in Hu. apply Forall_cons_iff in Hu. destruct Hu as [Hd Hrest].
      rewrite Hd, Category_eqb_refl. cbn [negb].
      replace (i + 1) with (S i) by lia.
      apply IH; [exact Hrest | lia | lia].
    + assert (i = List.length data) as -> by lia. reflexivity.
Qed.

End UniformFacts.

(** X19.  A chart in which no point changes category against its
    predecessor is drawn as a single segment, the whole chart. *)
Theorem uniform_series_one_segment (d0 : Chart.point) (rest : list Chart.point) :
  hasChange (d0 :: rest) = false ->
  splitIntoSegments (d0 :: rest) = [d0 :: rest].
Proof.
  intros H. pose proof (hasChange_uniform d0 rest H) as Hu.
  unfold splitIntoSegments.
  rewrite (scanLoop_uniform (d0 :: rest) (getCategory (Chart.uv d0))
             (List.length (d0 :: rest)) 1%nat);
    [| exact Hu | cbn; lia | cbn; lia].
  unfold finish. cbn [start segments List.length Nat.ltb Nat.leb skipn].
  destruct rest; reflexivity.
Qed.

Lemma uniform_series_one_segment_witness :
  splitIntoSegments (chartPoint "10:00 am" 7 :: [chartPoint "11:00 am" 7; chartPoint "12:00 pm" 6])
  = [chartPoint "10:00 am" 7 :: [chartPoint "11:00 am" 7; chartPoint "12:00 pm" 6]].
Proof. apply uniform_series_one_segment. reflexivity. Defined.

(* ================================================================= *)
(** ** The windows of the earlier revisions *)

Section ClockWindows.

Variable rt : Runtime.

Lemma filterM_spec {A : Type} (f : A -> result bool) l r :
  Rev2.filterM f l = Ok r ->
  sublist r l /\ Forall (fun x => f x = Ok true) r.
Proof.
  revert r. induction l as [|x l IH]; cbn [Rev2.filterM]; intros r.
  - intros [= <-]. split; constructor.
  - destruct (f x) as [keep|e] eqn:Ex; cbn [bind]; [|discriminate].
    destruct (Rev2.filterM f l) as [ys|e]; cbn [bind]; [|discriminate].
    destruct (IH ys eq_refl) as [S F].
    destruct keep; intros [= <-].
    + split; constructor; assumption.
    + split; [constructor|]; assumption.
Qed.

Lemma sublist_In {A : Type} (l1 l2 : list A) x : sublist l1 l2 -> In x l1 -> In x l2.
Proof.
  induction 1 as [|y l1 l2 _ IH|y l1 l2 _ IH]; cbn; intros H; tauto.
Qed.

Lemma sublist_firstn {A : Type} n (l : list A) : sublist (firstn n l) l.
Proof.
  revert n. induction l as [|x l IH]; intros [|n]; cbn [firstn].
  - constructor.
  - constructor.
  - apply sublist_skip. apply (IH 0%nat).
  - apply sublist_keep, IH.
Qed.

Lemma sublist_trans {A : Type} (l1 l2 l3 : list A) :
  sublist l1 l2 -> sublist l2 l3 -> sublist l1 l3.
Proof.
  intros H12 H23. revert l1 H12.
  induction H23 as [|x l2 l3 _ IH|x l2 l3 _ IH]; intros l1 H12.
  - exact H12.
  - constructor. apply IH. exact H12.
  - inversion H12; subst; constructor; apply IH; assumption.
Qed.

Lemma num_geb_num a b : Rev2.num_geb (num a) (num b) = (b <=? a).
Proof.
  unfold Rev2.num_geb. cbn [isNaN num negb andb]. fold (num a); fold (num b).
  rewrite num_ltb_num. destruct (Z.ltb_spec a b), (Z.leb_spec b a); try reflexivity; lia.
Qed.

Lemma within_clock a b p :
  (d <- newDate rt (uv_time p) ;;
   Ok (Rev2.num_geb (getTime d) (num a) && Rev2.num_geb (num b) (getTime d))) = Ok true ->
  timeWithin rt a b p.
Proof.
  unfold timeWithin.
  destruct (newDate rt (uv_time p)) as [[t|]|e]; cbn [bind getTime]; try discriminate.
  rewrite !num_geb_num. intros [= H]. apply andb_prop in H. destruct H as [H1 H2].
  exists t. split; [reflexivity|]. apply Z.leb_le in H1, H2. lia.
Qed.

Lemma timeWithin_timed a b p : timeWithin rt a b p -> timed rt p.
Proof. intros (t & H & _). exists t. exact H. Qed.

Lemma Sorted_firstn {A : Type} (R : A -> A -> Prop) n l :
  Sorted R l -> Sorted R (firstn n l).
Proof.
  intros H. revert n. induction H as [|x l Hs IH Hh]; intros [|n]; cbn [firstn];
    try constructor.
  - apply IH.
  - destruct Hh as [|y l Hy]; destruct n; cbn [firstn]; constructor. exact Hy.
Qed.

End ClockWindows.

(** X20.  The window of the second revision (part_000 lines 1159-1174)
    holds at most 24 points of the stored series, each with a time value
    between five minutes before the clock and 24 hours and five minutes
    after it, in chronological order. *)
Theorem Rev2_window_within_clock (rt : Runtime) (now : Z)
    (forecast w : list UVForecastPoint) :
  Rev2.getForecast24h rt now forecast = Ok w ->
  (List.length w <= 24)%nat /\
  Forall (timeWithin rt (now - 300000) (now + 86400000 + 300000)) w /\
  Sorted (fun a b => keyOf rt a <= keyOf rt b) w /\
  (forall p, In p w -> In p forecast).
Proof.
  unfold Rev2.getForecast24h. destruct (List.length forecast =? 0)%nat.
  - intros [= <-]. split; [cbn; lia|]. split; [constructor|].
    split; [constructor|]. intros p [].
  - match goal with |- context [Rev2.filterM ?f forecast] =>
      destruct (Rev2.filterM f forecast) as [pts|e] eqn:Ef end;
      cbn [bind]; [|discriminate].
    apply filterM_spec in Ef. destruct Ef as [Hsub Hin].
    assert (Forall (timeWithin rt (now - 300000) (now + 86400000 + 300000)) pts) as Hw.
    { eapply Forall_impl; [|exact Hin]. intros p Hp. cbn beta in Hp.
      apply within_clock.
      replace (now - 300000) with (now - 5 * 60 * 1000) by lia.
      replace (now + 86400000 + 300000)
        with (now + 24 * 60 * 60 * 1000 + 5 * 60 * 1000) by lia.
      exact Hp. }
    assert (Forall (timed rt) pts) as Ht.
    { eapply Forall_impl; [|exact Hw]. intros p. apply timeWithin_timed. }
    rewrite sort_timed by exact Ht. cbn [bind].
    intros H. assert (w = firstn 24 (sortByKey (keyOf rt) pts)) as -> by congruence.
    pose proof (sortByKey_perm (keyOf rt) pts) as Hperm.
    assert (forall p, In p (firstn 24 (sortByKey (keyOf rt) pts)) -> In p pts) as Hback.
    { intros p Hp. apply (Permutation_in p (Permutation_sym Hperm)).
      eapply sublist_In; [apply sublist_firstn | exact Hp]. }
    split; [apply firstn_le_length|]. split; [|split].
    + apply Forall_forall. intros p Hp.
      apply (proj1 (Forall_forall _ _) Hw). apply Hback. exact Hp.
    + apply Sorted_firstn, sortByKey_sorted.
    + intros p Hp. eapply sublist_In; [exact Hsub|]. apply Hback. exact Hp.
Qed.

Lemma Rev2_window_within_clock_witness :
  (List.length (skipn 1 (hourly 2)) <= 24)%nat /\
  Forall (timeWithin RefEngine.engine (1700010000000 - 300000)
            (1700010000000 + 86400000 + 300000)) (skipn 1 (hourly 2)) /\
  Sorted (fun a b => keyOf RefEngine.engine a <= keyOf RefEngine.engine b)
    (skipn 1 (hourly 2)) /\
  (forall p, In p (skipn 1 (hourly 2)) -> In p (hourly 2)).
Proof.
  apply (Rev2_window_within_clock RefEngine.engine 1700010000000 (hourly 2)).
  vm_compute. reflexivity.
Defined.

(** X21.  The window of the first revision (src/app/page.tsx) holds at
    most 12 points, each with a time value between the clock and 24
    hours after it; it is not sorted: the points come in the order of
    the stored series. *)
Theorem Rev1_window_within_clock (rt : Runtime) (now : Z)
    (forecast w : list UVForecastPoint) :
  Rev1.getForecast24h rt now forecast = Ok w ->
  (List.length w <= 12)%nat /\
  Forall (timeWithin rt now (now + 86400000)) w /\
  sublist w forecast.
Proof.
  unfold Rev1.getForecast24h. destruct (List.length forecast =? 0)%nat eqn:E.
  - intros [= <-]. destruct forecast; [|discriminate].
    split; [cbn; lia|]. split; constructor.
  - match goal with |- context [Rev2.filterM ?f forecast] =>
      destruct (Rev2.filterM f forecast) as [pts|e] eqn:Ef end;
      cbn [bind]; [|discriminate].
    apply filterM_spec in Ef. destruct Ef as [Hsub Hin].
    intros H. assert (w = firstn 12 pts) as -> by congruence.
    split; [apply firstn_le_length|]. split.
    + apply Forall_forall. intros p Hp.
      assert (In p pts) as Hp' by (eapply sublist_In; [apply sublist_firstn | exact Hp]).
      apply (proj1 (Forall_forall _ _) Hin) in Hp'. cbn beta in Hp'.
      apply within_clock.
      replace (now + 86400000) with (now + 24 * 60 * 60 * 1000) by lia.
      exact Hp'.
    + eapply sublist_trans; [apply sublist_firstn | exact Hsub].
Qed.

Lemma Rev1_window_within_clock_witness :
  (List.length (hourly 2) <= 12)%nat /\
  Forall (timeWithin RefEngine.engine 1700006400000 (1700006400000 + 86400000))
    (hourly 2) /\
  sublist (hourly 2) (hourly 2).
Proof.
  apply (Rev1_window_within_clock RefEngine.engine 1700006400000 (hourly 2)).
  vm_compute. reflexivity.
Defined.

(* ================================================================= *)
(** ** The nearest city *)

Lemma num_ltb_trans a b c : num_ltb a b = true -> num_ltb b c = true -> num_ltb a c = true.
Proof.
  destruct a as [| | |x], b as [| | |y], c as [| | |z]; cbn;
    try discriminate; try reflexivity.
  rewrite !negb_true_iff, <- !not_true_iff_false, !Qle_bool_iff.
  intros H1 H2 H3. apply Qnot_le_lt in H1, H2.
  apply (Qlt_irrefl x). eapply Qlt_trans; [exact H1|].
  eapply Qlt_le_trans; eassumption.
Qed.

Lemma num_ltb_irrefl a : num_ltb a a = false.
Proof.
  destruct a as [| | |x]; try reflexivity.
  cbn. apply negb_false_iff, Qle_bool_iff, Qle_refl.
Qed.

Section NearestFacts.

Import LocationSelector.

Variable calculateDistance : number -> number -> number -> number -> number.
Variables lat0 lon0 : number.

Lemma nearest_fold l : forall acc seen,
  snd acc = distanceTo calculateDistance lat0 lon0 (fst acc) ->
  (forall c, In c seen ->
     num_ltb (distanceTo calculateDistance lat0 lon0 c) (snd acc) = false) ->
  let r := fold_left (step calculateDistance lat0 lon0) l acc in
  snd r = distanceTo calculateDistance lat0 lon0 (fst r) /\
  (fst r = fst acc \/ In (fst r) l) /\
  (forall c, In c seen \/ In c l ->
     num_ltb (distanceTo calculateDistance lat0 lon0 c) (snd r) = false).
Proof.
  set (dist := distanceTo calculateDistance lat0 lon0).
  induction l as [|city l IH]; intros [nearest minDistance] seen Hacc Hseen; cbn [fold_left].
  - cbn zeta. split; [exact Hacc|]. split; [left; reflexivity|].
    intros c [H|[]]. apply Hseen, H.
  - cbn [fst snd] in *.
    assert (step calculateDistance lat0 lon0 (nearest, minDistance) city
            = if num_ltb (dist city) minDistance then (city, dist city)
              else (nearest, minDistance)) as -> by reflexivity.
    destruct (num_ltb (dist city) minDistance) eqn:E.
    + destruct (IH (city, dist city) (city :: seen)) as (H1 & H2 & H3).
      * reflexivity.
      * cbn [snd]. intros c [<-|Hc]; [apply num_ltb_irrefl|].
        destruct (num_ltb (dist c) (dist city)) eqn:E'; [|reflexivity].
        rewrite <- (Hseen c Hc). symmetry. eapply num_ltb_trans; eassumption.
      * cbn zeta in *. split; [exact H1|]. split.
        -- right. cbn [fst] in H2. destruct H2 as [-> | H2]; [left; reflexivity|].
           right. exact H2.
        -- intros c [Hc | [<- | Hc]]; apply H3; cbn [In]; tauto.
    + destruct (IH (nearest, minDistance) (city :: seen)) as (H1 & H2 & H3).
      * exact Hacc.
      * cbn [snd]. intros c [<-|Hc]; [exact E | apply Hseen, Hc].
      * cbn zeta in *. split; [exact H1|]. split.
        -- cbn [fst] in H2. destruct H2 as [-> | H2]; [left; reflexivity|].
           right. right. exact H2.
        -- intros c [Hc | [<- | Hc]]; apply H3; cbn [In]; tauto.
Qed.

End NearestFacts.

(** X22.  [findNearestCity] answers one of the eight cities of the
    list, and no city of the list is strictly nearer to the given
    position than the one it answers, whatever the distance function
    computes (NaN included). *)
Theorem nearest_city_is_nearest
    (calculateDistance : number -> number -> number -> number -> number)
    (lat0 lon0 : number) (c : LocationSelector.LocationData) :
  In (LocationSelector.findNearestCity calculateDistance lat0 lon0)
     LocationSelector.popularLocations /\
  (In c LocationSelector.popularLocations ->
   num_ltb (LocationSelector.distanceTo calculateDistance lat0 lon0 c)
           (LocationSelector.distanceTo calculateDistance lat0 lon0
              (LocationSelector.findNearestCity calculateDistance lat0 lon0))
   = false).
Proof.
  unfold LocationSelector.findNearestCity. cbn zeta.
  destruct (nearest_fold calculateDistance lat0 lon0 LocationSelector.popularLocations
              (LocationSelector.sydney,
               LocationSelector.distanceTo calculateDistance lat0 lon0
                 LocationSelector.sydney) [])
    as (H1 & H2 & H3).
  - reflexivity.
  - intros ? [].
  - cbn zeta in *. split.
    + destruct H2 as [-> | H2]; [left; reflexivity | exact H2].
    + intros Hc. rewrite <- H1. apply H3. right. exact Hc.
Qed.

(* ================================================================= *)
(** ** Seconds and milliseconds *)



(* ================================================================= *)
(** ** Refreshing twice *)

Lemma storeReadings_state res st :
  storeReadings res st
  = ({| uvIndex := match res.["uv"] with VNum n => n | _ => uvIndex st end;
        uvMax := match res.["uv_max"] with VNum n => n | _ => uvMax st end;
        uvMaxTime := match res.["uv_max_time"] with VStr s => s | _ => uvMaxTime st end;
        safeExposureTimes :=
          [("st1", opt_prop res.["safe_exposure_time"] "st1" ?? VNull);
           ("st2", opt_prop res.["safe_exposure_time"] "st2" ?? VNull);
           ("st3", opt_prop res.["safe_exposure_time"] "st3" ?? VNull);
           ("st4", opt_prop res.["safe_exposure_time"] "st4" ?? VNull);
           ("st5", opt_prop res.["safe_exposure_time"] "st5" ?? VNull);
           ("st6", opt_prop res.["safe_exposure_time"] "st6" ?? VNull)];
        sunInfo := opt_prop res.["sun_info"] "sun_times" ?? VNull;
        forecast := forecast st; isLoading := isLoading st; error := error st;
        lastUpdated := lastUpdated st |}, Ok tt).
Proof.
  unfold storeReadings, andThen, setUvIndex, setUvMax, setUvMaxTime,
    setSafeExposureTimes, setSunInfo, update, done.
  destruct res.["uv"], res.["uv_max"], res.["uv_max_time"]; reflexivity.
Qed.

Lemma Dashboard_eq (a b : Dashboard) :
  uvIndex a = uvIndex b -> uvMax a = uvMax b -> uvMaxTime a = uvMaxTime b ->
  safeExposureTimes a = safeExposureTimes b -> sunInfo a = sunInfo b ->
  forecast a = forecast b -> isLoading a = isLoading b -> error a = error b ->
  lastUpdated a = lastUpdated b -> a = b.
Proof. destruct a, b; cbn; intros; subst; reflexivity. Qed.

(** X24.  A refresh is idempotent: run again on the same response at the
    same clock reading, it leaves the state as the first run left it.
    Nothing of the previous series, error or loading flag leaks into the
    state a refresh ends in. *)
Theorem refresh_idempotent (rt : Runtime) (now : Z) (response : result value)
    (st : Dashboard) :
  fst (fetchUVData rt now response (fst (fetchUVData rt now response st)))
  = fst (fetchUVData rt now response st).
Proof.
  destruct response as [data|e]; [destruct (nullish data) eqn:Hn|].
  - rewrite !fetch_failed by (intros d [= <-]; exact Hn). reflexivity.
  - destruct (truthy data.["success"] && truthy data.["result"]) eqn:Hs.
    + rewrite !fetch_gate_passed by exact Hs. cbn zeta.
      rewrite !storeReadings_state. cbn [fst].
      destruct (rawForecastOf data) as [| | | | | |raws];
        [| | | | | |rewrite !storeForecast_array; destruct (buildSeries rt raws)];
        apply Dashboard_eq; cbn;
        try reflexivity;
        match goal with |- context [match ?v with _ => _ end] => destruct v; reflexivity end.
    + rewrite !fetch_gate_failed by assumption. cbn zeta.
      destruct (truthy data.["forecast"] && isArray data.["forecast"]); [|reflexivity].
      destruct data.["forecast"] as [| | | | | |raws]; try reflexivity.
      rewrite !storeForecast_array.
      destruct (buildSeries rt raws); reflexivity.
  - rewrite !fetch_failed by (intros d [=]). reflexivity.
Qed.

(* ================================================================= *)
(** ** Records of scalars never throw *)

Section ScalarFacts.

Variable rt : Runtime.

Lemma ToNumber_primitive v : primitive v = true -> exists n, ToNumber rt v = Ok n.
Proof. destruct v; try discriminate; intros _; eexists; reflexivity. Qed.

Lemma resolveString_total ts : primitive ts = true -> exists o, resolveString rt ts = Ok o.
Proof.
  destruct ts; try discriminate; intros _; try (eexists; reflexivity).
  unfold resolveString.
  destruct (Date_parse rt s) as [t|]; cbn [getTime isNaN num]; [eexists; reflexivity|].
  destruct (Date_parse rt (s ++ "Z")) as [t|]; cbn [getTime isNaN num];
    eexists; reflexivity.
Qed.

Lemma resolveTimestamp_scalar p :
  plainTime p = true ->
  (forall n, timeField p = VNum n -> num_gtb n (num 8640000000000000) = false) ->
  exists o, resolveTimestamp rt p = Ok o.
Proof.
  intros Hp Hr. unfold plainTime in Hp.
  destruct (timeField p) as [| | |n| | |] eqn:Et; try discriminate.
  - unfold resolveTimestamp. rewrite Et. eexists; reflexivity.
  - unfold resolveTimestamp. rewrite Et. eexists; reflexivity.
  - specialize (Hr n eq_refl).
    destruct n as [| | |q]; try discriminate;
      try (unfold resolveTimestamp; rewrite Et; eexists; reflexivity).
    apply num_gtb_Finite_false in Hr.
    destruct (Qlt_le_dec 1000000000000 q) as [H12|H12].
    + destruct (resolve_milliseconds rt p q Et H12 Hr) as [E _]. eexists; exact E.
    + destruct (Qlt_le_dec 1000000000 q) as [H9|H9].
      * destruct (resolve_seconds rt p q Et H9 H12) as [E _]. eexists; exact E.
      * destruct (resolve_small rt p q Et H9) as [E _]. eexists; exact E.
  - unfold resolveTimestamp. rewrite Et. cbn [resolveNumber bind].
    apply resolveString_total. reflexivity.
Qed.

Lemma normalizePoint_scalar p : scalarRecord p -> exists o, normalizePoint rt p = Ok o.
Proof.
  intros (Hp & Hr & Hu & Haz & Halt). unfold normalizePoint.
  destruct (negb (truthy p)); [eexists; reflexivity|].
  destruct (resolveTimestamp_scalar p Hp Hr) as [[ts|] ->]; cbn [bind];
    [|eexists; reflexivity].
  destruct (nullish (uvField p)); [eexists; reflexivity|].
  destruct (ToNumber_primitive _ Hu) as [uvNum ->]. cbn [bind].
  destruct (isNaN uvNum); [eexists; reflexivity|].
  unfold resolveSunPosition.
  destruct (truthy _ && String.eqb _ _).
  - destruct (ToNumber_primitive _ Haz) as [az ->].
    destruct (ToNumber_primitive _ Halt) as [alt ->]. cbn [bind].
    destruct (negb (isNaN az) && negb (isNaN alt)); cbn [bind];
      destruct (negb (truthy ts)); eexists; reflexivity.
  - cbn [bind]. destruct (negb (truthy ts)); eexists; reflexivity.
Qed.

Lemma mapM_total {A B : Type} (f : A -> result B) l :
  Forall (fun x => exists y, f x = Ok y) l -> exists r, mapM f l = Ok r.
Proof.
  induction 1 as [|x l [y Hy] _ [r IH]]; cbn [mapM].
  - eexists; reflexivity.
  - rewrite Hy. cbn [bind]. rewrite IH. eexists; reflexivity.
Qed.

Lemma buildSeries_scalar raws :
  Forall scalarRecord raws -> exists series, buildSeries rt raws = Ok series.
Proof.
  intros H.
  destruct (mapM_total (normalizePoint rt) raws) as [mapped Em].
  { eapply Forall_impl; [|exact H]. apply normalizePoint_scalar. }
  assert (Forall (fun p => plainTime p = true) raws) as Hp.
  { eapply Forall_impl; [|exact H]. intros p Hs. apply Hs. }
  pose proof (dropNull_timed rt _ _ Hp (mapM_Forall2 _ _ _ Em)) as Ht.
  unfold buildSeries. rewrite Em. cbn [bind]. rewrite sort_timed by exact Ht.
  eexists; reflexivity.
Qed.

End ScalarFacts.

(** X25.  The Series Builder never throws on an array of scalar
    records (time-like fields that are strings, missing, or numbers
    within the range of Date; UV fields and sun coordinates that are not
    objects): a series is always built, and a refresh that is delivered
    such an array ends without an error. *)
Theorem scalar_records_never_throw (rt : Runtime) (now : Z) (data : value)
    (raws : list value) (st : Dashboard) :
  Forall scalarRecord raws ->
  exists series,
    buildSeries rt raws = Ok series /\
    (deliversForecast data raws ->
     forecast (fst (fetchUVData rt now (Ok data) st)) = series /\
     error (fst (fetchUVData rt now (Ok data) st)) = VNull).
Proof.
  intros H. destruct (buildSeries_scalar rt raws H) as [series Hb].
  exists series. split; [exact Hb|]. intros Hd.
  destruct (fetch_delivers rt now data raws series st Hd Hb) as (F & E & _).
  split; assumption.
Qed.

Lemma scalar_records_never_throw_witness :
  exists series,
    buildSeries RefEngine.engine [at2033; VObj localRecord] = Ok series /\
    (deliversForecast (envelope currentReadings (VArr [at2033; VObj localRecord]))
       [at2033; VObj localRecord] ->
     forecast (fst (fetchUVData RefEngine.engine 1700000300000
                      (Ok (envelope currentReadings (VArr [at2033; VObj localRecord])))
                      loadedState)) = series /\
     error (fst (fetchUVData RefEngine.engine 1700000300000
                   (Ok (envelope currentReadings (VArr [at2033; VObj localRecord])))
                   loadedState)) = VNull).
Proof.
  apply (scalar_records_never_throw RefEngine.engine 1700000300000
           (envelope currentReadings (VArr [at2033; VObj localRecord]))
           [at2033; VObj localRecord] loadedState).
  repeat constructor; try reflexivity; intros n [= <-]; reflexivity.
Defined.

(* ================================================================= *)
(** ** The Y axis *)

Lemma num_ltb_asym a b : num_ltb a b = true -> num_ltb b a = false.
Proof.
  intros H. destruct (num_ltb b a) eqn:E; [|reflexivity].
  pose proof (num_ltb_trans a b a H E) as T. rewrite num_ltb_irrefl in T. discriminate.
Qed.

Lemma num_ltb_NaN_l a : num_ltb NaN a = false.
Proof. reflexivity. Qed.

Lemma num_ltb_NaN_r a : num_ltb a NaN = false.
Proof. destruct a; reflexivity. Qed.

Lemma num_ltb_negtrans a b c :
  isNaN b = false -> num_ltb a b = false -> num_ltb b c = false -> num_ltb a c = false.
Proof.
  destruct a as [| | |x], b as [| | |y], c as [| | |z]; cbn;
    try discriminate; try reflexivity.
  intros _. rewrite !negb_false_iff, !Qle_bool_iff. intros H1 H2.
  eapply Qle_trans; eassumption.
Qed.

Lemma Math_max_spec a b :
  isNaN a = false -> isNaN b = false ->
  isNaN (Math_max a b) = false /\
  num_leb a (Math_max a b) = true /\ num_leb b (Math_max a b) = true.
Proof.
  intros Ha Hb. unfold Math_max, num_leb. rewrite Ha, Hb. cbn [orb negb andb].
  destruct (num_ltb a b) eqn:E; rewrite ?Ha, ?Hb; cbn [negb andb].
  - rewrite (num_ltb_asym _ _ E), num_ltb_irrefl. auto.
  - rewrite E, num_ltb_irrefl. auto.
Qed.

Lemma num_leb_trans a b c : num_leb a b = true -> num_leb b c = true -> num_leb a c = true.
Proof.
  unfold num_leb. intros H1 H2.
  apply andb_prop in H1. destruct H1 as [H1 H1'].
  apply andb_prop in H1. destruct H1 as [Ha Hb].
  apply andb_prop in H2. destruct H2 as [H2 H2'].
  apply andb_prop in H2. destruct H2 as [_ Hc].
  rewrite Ha, Hc. cbn [andb]. apply negb_true_iff.
  apply negb_true_iff in H1', H2', Hb.
  exact (num_ltb_negtrans c b a Hb H2' H1').
Qed.

(** X26.  The upper end of the chart's Y axis covers the chart: on
    chart data without NaN it is a number, at least 11, and no point of
    the chart lies above it. *)
Theorem y_axis_covers_chart (data : list Chart.point) :
  Forall (fun d => isNaN (Chart.uv d) = false) data ->
  isNaN (yAxisMax data) = false /\
  num_leb (num 11) (yAxisMax data) = true /\
  Forall (fun d => num_leb (Chart.uv d) (yAxisMax data) = true) data.
Proof.
  unfold yAxisMax. induction 1 as [|d data Hd _ (IH1 & IH2 & IH3)]; cbn [map fold_right].
  - repeat split; constructor.
  - destruct (Math_max_spec (Chart.uv d) _ Hd IH1) as (M1 & M2 & M3).
    split; [exact M1|]. split; [exact (num_leb_trans _ _ _ IH2 M3)|].
    constructor; [exact M2|].
    eapply Forall_impl; [|exact IH3]. intros x Hx. exact (num_leb_trans _ _ _ Hx M3).
Qed.

Lemma y_axis_covers_chart_witness :
  isNaN (yAxisMax [chartPoint "09:00 am" 1; chartPoint "10:00 am" 13]) = false /\
  num_leb (num 11) (yAxisMax [chartPoint "09:00 am" 1; chartPoint "10:00 am" 13]) = true /\
  Forall (fun d => num_leb (Chart.uv d)
                     (yAxisMax [chartPoint "09:00 am" 1; chartPoint "10:00 am" 13]) = true)
    [chartPoint "09:00 am" 1; chartPoint "10:00 am" 13].
Proof. apply y_axis_covers_chart. repeat constructor. Defined.

(* ================================================================= *)
(** ** The two revisions of the normaliser *)

Lemma Rev2_timeField p :
  (nullish (Rev2.timeField p) = false /\ timeField p = Rev2.timeField p) \/
  Rev2.timeField p = VNull.
Proof.
  unfold Rev2.timeField, timeField, coalesce.
  destruct (nullish p.["uv_time"]) eqn:E1; [|left; split; [exact E1 | reflexivity]].
  destruct (nullish p.["time"]) eqn:E2; [|left; split; [exact E2 | reflexivity]].
  destruct (nullish p.["timestamp"]) eqn:E3; [|left; split; [exact E3 | reflexivity]].
  right. reflexivity.
Qed.

(** X27.  Every record the current normaliser accepts, the second
    revision (part_000 lines 1072-1105) accepted too, with the same UV
    value and without a sun position; the timestamp is the same unless
    the record gives it under [time_utc] only, a key the second revision
    does not read: it then stores [null]. *)
Theorem accepted_by_both_revisions (rt : Runtime) (p : value) (pt : UVForecastPoint) :
  normalizePoint rt p = Ok (Some pt) ->
  (nullish (Rev2.timeField p) = false /\
   Rev2.normalizePoint rt p
   = Ok (Some {| uv := uv pt; uv_time := uv_time pt; sun_position := None |})) \/
  (Rev2.timeField p = VNull /\
   Rev2.normalizePoint rt p
   = Ok (Some {| uv := uv pt; uv_time := VNull; sun_position := None |})).
Proof.
  intros H.
  assert (truthy p = true) as Hp.
  { unfold normalizePoint in H. destruct (truthy p); [reflexivity | discriminate]. }
  destruct (normalizePoint_fields rt p pt H) as (Ht & _ & Hn & Hu & _).
  unfold Rev2.normalizePoint, Rev2.resolveTimestamp. rewrite Hp. cbn [negb].
  destruct (Rev2_timeField p) as [[Hnn E] | E].
  - left. split; [exact Hnn|]. rewrite <- E.
    unfold resolveTimestamp in Ht. cbn zeta in Ht.
    destruct (resolveNumber (timeField p)) as [ts|e]; cbn [bind] in *; [|discriminate].
    rewrite Rev2_resolveString, Ht, Hn, Hu. reflexivity.
  - right. split; [exact E|]. rewrite E. cbn [resolveNumber bind Rev2.resolveString].
    rewrite Hn, Hu. reflexivity.
Qed.

Lemma accepted_by_both_revisions_witness :
  (nullish (Rev2.timeField (VObj localRecord)) = false /\
   Rev2.normalizePoint RefEngine.engine (VObj localRecord)
   = Ok (Some {| uv := num 7; uv_time := VStr "2023-11-15T01:00:00.000Z";
                 sun_position := None |})) \/
  (Rev2.timeField (VObj localRecord) = VNull /\
   Rev2.normalizePoint RefEngine.engine (VObj localRecord)
   = Ok (Some {| uv := num 7; uv_time := VNull; sun_position := None |})).
Proof.
  apply (accepted_by_both_revisions RefEngine.engine (VObj localRecord)
           {| uv := num 7; uv_time := VStr "2023-11-15T01:00:00.000Z";
              sun_position := None |}).
  vm_compute. reflexivity.
Defined.
